(** * DataBridge core: the document service and its adapters

    A shallow embedding of [core/services/document_service.py] together with
    the parts of [core/models/auth.py], [core/database/mongo_database.py] and
    [core/vector_store/base_vector_store.py] it relies on.

    The service is a sequence of awaited calls to backing stores (metadata
    database, vector store, blob storage) and to model providers (parser,
    embedding model, reranker, rules processor, cache factory).  Every
    [async def] of the service is embedded as a program in a small free monad
    [Prog] whose actions are those awaited calls; an adapter is a handler that
    answers an action on a world state, with a result or with an exception.
    Statements about the order of the calls, and about calls that are never
    made, are statements about the trace of a run. *)

From Stdlib Require Import ZArith QArith String List Bool Lia.
From stdpp Require Import base option list strings gmap pretty.
Import ListNotations.

Local Open Scope Z_scope.
Local Open Scope string_scope.
Local Open Scope list_scope.

(** ** Python values *)

(** Scalars that end up in the [Dict[str, Any]] metadata mappings. *)
Inductive PyValue : Type :=
| PNone
| PBool (b : bool)
| PInt (z : Z)
| PStr (s : string).

#[global] Instance PyValue_eq_dec : EqDecision PyValue.
Proof. solve_decision. Defined.

(** [Dict[str, Any]] *)
Abbreviation PyDict := (gmap string PyValue).

(** [d.update(other)]: the keys of [other] overwrite those of [d];
    stdpp's union of maps is left-biased. *)
Definition dict_update (d other : PyDict) : PyDict := other ∪ d.

(** A number as seen by [==], [!=] and truth tests: [bool] is a subclass of
    [int] with [True == 1] and [False == 0]. *)
Inductive PyNum : Type :=
| NBool (b : bool)
| NInt (z : Z).

Definition num_value (n : PyNum) : Z :=
  match n with
  | NBool true => 1
  | NBool false => 0
  | NInt z => z
  end.

(** [a != b] on numbers *)
Definition py_ne (a b : PyNum) : bool := negb (Z.eqb (num_value a) (num_value b)).

(** [l[:k]]: a negative bound counts from the end of the list. *)
Definition slice_to {A} (l : list A) (k : Z) : list A :=
  if Z.leb 0 k then firstn (Z.to_nat k) l
  else firstn (Z.to_nat (Z.of_nat (length l) + k)) l.

(** Exceptions: the class and the message. *)
Inductive ExnClass : Type :=
| PermissionError
| ValueError
| AttributeError
| TypeError
| KeyError
| FileNotFoundError
| Exception.

Record exn : Type := mkExn { exn_class : ExnClass; exn_msg : string }.

#[global] Instance ExnClass_eq_dec : EqDecision ExnClass.
Proof. solve_decision. Defined.

(** ** [core/models/auth.py] *)

(** The [auth] argument is whatever object the caller hands over.  The code
    reads four attributes of it: [user_id] (the Mongo adapter) and
    [permissions], [entity_type], [entity_id] (the service).  Reading an
    attribute the object does not carry raises [AttributeError]; [None] below
    stands for an attribute that is not there. *)
Record AuthObject : Type := mkAuth {
  user_id : option string;
  entity_type : option string;
  entity_id : option string;
  permissions : option (gset string)
}.

(** [class AuthContext(BaseModel): user_id: str]: the only declared field;
    pydantic ignores any other keyword given to the constructor. *)
Definition AuthContext (uid : string) : AuthObject :=
  {| user_id := Some uid; entity_type := None; entity_id := None;
     permissions := None |}.

(** ** Documents and chunks ([core/models/documents.py], [core/models/chunk.py]) *)

Record Document : Type := mkDocument {
  external_id : string;
  content_type : string;
  filename : option string;
  metadata : PyDict;
  owner : string * string;                 (* {"type": .., "id": ..} *)
  access_control : list string * list string * list string;
                                            (* readers, writers, admins *)
  system_metadata : PyDict;
  storage_info : gmap string string;       (* {} or {"bucket": .., "key": ..} *)
  additional_metadata : PyDict;
  chunk_ids : list string
}.

Definition set_chunk_ids (ids : list string) (d : Document) : Document :=
  {| external_id := external_id d; content_type := content_type d;
     filename := filename d; metadata := metadata d; owner := owner d;
     access_control := access_control d;
     system_metadata := system_metadata d; storage_info := storage_info d;
     additional_metadata := additional_metadata d; chunk_ids := ids |}.

Definition set_metadata (m : PyDict) (d : Document) : Document :=
  {| external_id := external_id d; content_type := content_type d;
     filename := filename d; metadata := m; owner := owner d;
     access_control := access_control d;
     system_metadata := system_metadata d; storage_info := storage_info d;
     additional_metadata := additional_metadata d; chunk_ids := chunk_ids d |}.

Definition set_system_metadata (k : string) (v : PyValue) (d : Document) : Document :=
  {| external_id := external_id d; content_type := content_type d;
     filename := filename d; metadata := metadata d; owner := owner d;
     access_control := access_control d;
     system_metadata := <[k := v]> (system_metadata d);
     storage_info := storage_info d;
     additional_metadata := additional_metadata d; chunk_ids := chunk_ids d |}.

Definition set_storage_info (bucket key : string) (d : Document) : Document :=
  {| external_id := external_id d; content_type := content_type d;
     filename := filename d; metadata := metadata d; owner := owner d;
     access_control := access_control d;
     system_metadata := system_metadata d;
     storage_info := <["bucket" := bucket]> (<["key" := key]> ∅);
     additional_metadata := additional_metadata d; chunk_ids := chunk_ids d |}.

(** A Python [float] as its comparisons see it: a finite value, an
    infinity, or NaN.  A comparison with NaN is false, whichever way it is
    asked. *)
Inductive PyFloat : Type :=
| NegInf
| Finite (q : Q)
| PosInf
| NaN.

(** [a <= b] *)
Definition float_le (a b : PyFloat) : bool :=
  match a, b with
  | NaN, _ | _, NaN => false
  | NegInf, _ => true
  | _, PosInf => true
  | Finite x, Finite y => Qle_bool x y
  | _, _ => false
  end.

(** [a < b] *)
Definition float_lt (a b : PyFloat) : bool :=
  match a, b with
  | NaN, _ | _, NaN => false
  | NegInf, NegInf => false
  | NegInf, _ => true
  | PosInf, _ => false
  | Finite _, NegInf => false
  | Finite x, Finite y => negb (Qle_bool y x)
  | Finite _, PosInf => true
  end.

(** [a > b] *)
Definition float_gt (a b : PyFloat) : bool := float_lt b a.

(** An embedding is a [List[float]]; its coordinates are never compared by
    the service and are taken as rationals. *)
Abbreviation Embedding := (list Q).

(** The parser's chunk. *)
Record Chunk : Type := mkChunk {
  chunk_content : string;
  chunk_metadata : PyDict
}.

Record DocumentChunk : Type := mkDocumentChunk {
  document_id : string;
  content : string;
  embedding : Embedding;
  chunk_number : nat;
  dc_metadata : PyDict;
  score : PyFloat
}.

(** [Chunk.to_document_chunk(chunk_number, embedding, document_id)] *)
Definition to_document_chunk (c : Chunk) (n : nat) (e : Embedding) (doc_id : string)
  : DocumentChunk :=
  {| document_id := doc_id; content := chunk_content c; embedding := e;
     chunk_number := n; dc_metadata := chunk_metadata c; score := Finite 0 |}.

Record ChunkResult : Type := mkChunkResult {
  cr_content : string;
  cr_score : PyFloat;
  cr_document_id : string;
  cr_chunk_number : nat;
  cr_metadata : PyDict;
  cr_content_type : string;
  cr_filename : option string;
  cr_download_url : option string
}.

(** [fastapi.UploadFile], already read. *)
Record UploadFile : Type := mkUploadFile {
  file_bytes : list Byte.byte;
  file_content_type : option string;
  file_name : option string
}.

(** ** Caches ([core/cache]) *)

(** The descriptor [create_cache] stores: model, model file, filters, the
    pydantic JSON dump of every document (kept here as the document it
    encodes) and the storage location. *)
Record CacheMetadata : Type := mkCacheMetadata {
  cm_model : string;
  cm_model_file : string;
  cm_filters : option PyDict;
  cm_docs : list Document;
  cm_bucket : string;                      (* ["storage_info"]["bucket"] *)
  cm_key : string                          (* ["storage_info"]["key"] *)
}.

(** A cache object as the service and the API use it: [cache.filters],
    [cache.docs] (document ids) and [cache.saveable_state] (bytes). *)
Record Cache : Type := mkCache {
  cache_name : string;
  cache_model : string;
  cache_model_file : string;
  cache_filters : option PyDict;
  cache_docs : list string;
  saveable_state : list Byte.byte
}.

(** The text [base64.b64encode(b).decode()] of a byte string, kept as the
    bytes it encodes. *)
Inductive Base64 : Type := b64encode (b : list Byte.byte).

Definition b64decode (t : Base64) : list Byte.byte :=
  match t with b64encode b => b end.

(** What [create_cache] returns: [{"success": .., "message": ..}]. *)
Record ResultDict : Type := mkResultDict { success : bool; message : string }.

(** What [load_cache] returns: a bare [False], or a result dict. *)
Inductive LoadResult : Type :=
| LBool (b : bool)
| LDict (d : ResultDict).

(** Python truth value of what [load_cache] returns: a non-empty dict is
    true whatever it holds. *)
Definition load_truthy (r : LoadResult) : bool :=
  match r with
  | LBool b => b
  | LDict _ => true
  end.

(** ** The awaited calls *)

Inductive Call : Type :=
(* self.db : BaseDatabase *)
| GetDocument (document_id : string) (auth : AuthObject)
| DeleteDocument (document_id : string) (auth : AuthObject)
| StoreDocument (doc : Document)
| FindAuthorizedAndFilteredDocuments (auth : AuthObject) (filters : option PyDict)
| StoreCacheMetadata (name : string) (metadata : CacheMetadata)
| GetCacheMetadata (name : string)
(* self.vector_store : BaseVectorStore *)
| StoreEmbeddings (chunks : list DocumentChunk)
| QuerySimilar (query_embedding : Embedding) (k : Z) (doc_ids : list string)
| CountNumberOfChunks (external_id : string)
| DeleteChunks (external_id : string)
(* self.storage : BaseStorage *)
| UploadFromBase64 (content : Base64) (key : string)
                   (content_type : option string) (bucket : option string)
| DownloadFile (bucket key : string)
| GetDownloadUrl (bucket key : string)
(* self.parser : BaseParser *)
| SplitText (content : string)
| ParseFile (file : list Byte.byte) (content_type : string) (filename : option string)
(* self.embedding_model : BaseEmbeddingModel *)
| EmbedForIngestion (chunks : list Chunk)
| EmbedForQuery (query : string)
(* self.reranker : BaseReranker *)
| Rerank (query : string) (chunks : list DocumentChunk)
(* self.rules_processor : RulesProcessor *)
| ProcessRules (content : string) (rules : list string)
(* self.cache_factory : BaseCacheFactory *)
| CreateNewCache (name model model_file : string) (filters : option PyDict)
                 (docs : list (option Document))
| LoadCacheFromBytes (name : string) (cache_bytes : list Byte.byte)
                     (metadata : CacheMetadata)
(* the id a new Document() draws *)
| Uuid4.

(** The type of what each call returns. *)
Definition result (c : Call) : Type :=
  match c with
  | GetDocument _ _ => option Document
  | DeleteDocument _ _ => bool
  | StoreDocument _ => bool
  | FindAuthorizedAndFilteredDocuments _ _ => list string
  | StoreCacheMetadata _ _ => bool
  | GetCacheMetadata _ => option CacheMetadata
  | StoreEmbeddings _ => bool * list string
  | QuerySimilar _ _ _ => list DocumentChunk
  | CountNumberOfChunks _ => Z
  | DeleteChunks _ => PyNum             (* declared [-> bool], compared to an int *)
  | UploadFromBase64 _ _ _ _ => string * string
  | DownloadFile _ _ => list Byte.byte
  | GetDownloadUrl _ _ => string
  | SplitText _ => list Chunk
  | ParseFile _ _ _ => PyDict * list Chunk
  | EmbedForIngestion _ => list Embedding
  | EmbedForQuery _ => Embedding
  | Rerank _ _ => list DocumentChunk
  | ProcessRules _ _ => PyDict * option string
  | CreateNewCache _ _ _ _ _ => Cache
  | LoadCacheFromBytes _ _ _ => Cache
  | Uuid4 => string
  end.

(** The adapter a call belongs to. *)
Inductive Adapter : Type :=
| Database | VectorStore | Storage | Parser | EmbeddingModel | Reranker
| RulesProcessor | CacheFactory | IdSource.

#[global] Instance Adapter_eq_dec : EqDecision Adapter.
Proof. solve_decision. Defined.

Definition adapter_of (c : Call) : Adapter :=
  match c with
  | GetDocument _ _ | DeleteDocument _ _ | StoreDocument _
  | FindAuthorizedAndFilteredDocuments _ _
  | StoreCacheMetadata _ _ | GetCacheMetadata _ => Database
  | StoreEmbeddings _ | QuerySimilar _ _ _ | CountNumberOfChunks _
  | DeleteChunks _ => VectorStore
  | UploadFromBase64 _ _ _ _ | DownloadFile _ _ | GetDownloadUrl _ _ => Storage
  | SplitText _ | ParseFile _ _ _ => Parser
  | EmbedForIngestion _ | EmbedForQuery _ => EmbeddingModel
  | Rerank _ _ => Reranker
  | ProcessRules _ _ => RulesProcessor
  | CreateNewCache _ _ _ _ _ | LoadCacheFromBytes _ _ _ => CacheFactory
  | Uuid4 => IdSource
  end.

(** Calls that write to a backing store. *)
Definition is_store_write (c : Call) : bool :=
  match c with
  | StoreDocument _ | DeleteDocument _ _ | StoreCacheMetadata _ _
  | StoreEmbeddings _ | DeleteChunks _ | UploadFromBase64 _ _ _ _ => true
  | _ => false
  end.


(** ** Programs *)

(** A program returns, raises, or awaits a call and goes on with its
    answer; the answer of a call is its result or the exception the adapter
    raised. *)
Inductive Prog (A : Type) : Type :=
| Ret (a : A)
| Raise (e : exn)
| Await (c : Call) (k : exn + result c -> Prog A).

Arguments Ret {A} a.
Arguments Raise {A} e.
Arguments Await {A} c k.

Fixpoint bind {A B} (p : Prog A) (f : A -> Prog B) : Prog B :=
  match p with
  | Ret a => f a
  | Raise e => Raise e
  | Await c k => Await c (fun r => bind (k r) f)
  end.

#[global] Instance Prog_ret : MRet Prog := @Ret.
#[global] Instance Prog_bind : MBind Prog := fun A B f p => bind p f.

(** [await adapter.call(..)]: an exception of the adapter propagates. *)
Definition await (c : Call) : Prog (result c) :=
  Await c (fun r => match r with inl e => Raise e | inr x => Ret x end).

(** [try: p except Exception as e: h e] *)
Fixpoint try_except {A} (p : Prog A) (h : exn -> Prog A) : Prog A :=
  match p with
  | Ret a => Ret a
  | Raise e => h e
  | Await c k => Await c (fun r => try_except (k r) h)
  end.

(** [auth.name] on the object passed as [auth: AuthContext], where [None]
    says the object has no such attribute; the message names the class, as
    Python writes it. *)
Definition getattr {A} (attr : option A) (name : string) : Prog A :=
  match attr with
  | Some v => Ret v
  | None =>
      Raise (mkExn AttributeError
               ("'AuthContext' object has no attribute '" ++ name ++ "'"))
  end.

(** [d[key]] on a dict *)
Definition getitem (d : gmap string string) (key : string) : Prog string :=
  match d !! key with
  | Some v => Ret v
  | None => Raise (mkExn KeyError key)
  end.

(** ** Running a program against adapters *)

(** A handler answers each call on a world state. *)
Definition Handler (W : Type) : Type := forall c : Call, W -> (exn + result c) * W.

(** A call together with the answer it got. *)
Inductive Event : Type :=
| Answered (c : Call) (r : exn + result c).

Definition called (ev : Event) : Call :=
  match ev with Answered c _ => c end.

(** The outcome of a run, the final world, and the calls made with their
    answers, in order. *)
Fixpoint run {W A} (h : Handler W) (p : Prog A) (w : W)
  : (exn + A) * W * list Event :=
  match p with
  | Ret a => (inr a, w, [])
  | Raise e => (inl e, w, [])
  | Await c k =>
      let '(r, w1) := h c w in
      let '(out, w2, tr) := run h (k r) w1 in
      (out, w2, Answered c r :: tr)
  end.

(** The calls of a run, without the answers. *)
Definition calls (tr : list Event) : list Call := map called tr.

(** ** [core/services/document_service.py] *)

(** What [__init__] and [get_settings()] fix for a service instance: whether
    a reranker was passed ([self.reranker is not None]) and the configured
    default [settings.USE_RERANKING]. *)
Record DocumentService : Type := mkService {
  reranker : bool;
  USE_RERANKING : bool
}.

Definition newline : string := String (Ascii.ascii_of_nat 10) EmptyString.

(** Truth value of an [Optional[List]] and of an [Optional[str]]. *)
Definition list_truthy {A} (l : option (list A)) : bool :=
  match l with
  | Some (_ :: _) => true
  | _ => false
  end.

Definition str_truthy (s : option string) : bool :=
  match s with
  | Some (String _ _) => true
  | _ => false
  end.

Definition nonempty {A} (l : list A) : bool :=
  match l with
  | [] => false
  | _ :: _ => true
  end.

(** [chunks.sort(key=lambda x: x.score, reverse=True)]: the library's sort,
    which on scores that can all be compared is the stable sort by
    descending score (chunks of equal score keep their order); that is what
    is computed here.  With a NaN among the scores the library still leaves
    a permutation of the list, but in an order that follows from its
    algorithm and is not the one computed here: what is proved of the order
    is proved for scores without NaN. *)
Fixpoint insert_by_score (x : DocumentChunk) (l : list DocumentChunk)
  : list DocumentChunk :=
  match l with
  | [] => [x]
  | y :: l' =>
      if float_le (score y) (score x) then x :: y :: l'
      else y :: insert_by_score x l'
  end.

Definition sort_by_score_desc (l : list DocumentChunk) : list DocumentChunk :=
  foldr insert_by_score [] l.

(** [Document(content_type=.., filename=.., metadata=.., owner=..,
    access_control=.., additional_metadata=..)]: the external id is drawn
    when the object is created; the other fields start empty. *)
Definition new_document (ctype : string) (fname : option string) (md : PyDict)
    (own : string * string) (acl : list string * list string * list string)
    (additional : PyDict) : Prog Document :=
  id ← await Uuid4;
  Ret {| external_id := id; content_type := ctype; filename := fname;
         metadata := md; owner := own; access_control := acl;
         system_metadata := ∅; storage_info := ∅;
         additional_metadata := additional; chunk_ids := [] |}.

(** [enumerate(zip(embeddings, chunks))]: [zip] stops at the shorter list. *)
Definition enumerate {A} (l : list A) : list (nat * A) :=
  combine (seq 0 (length l)) l.

Definition _create_chunk_objects (doc_id : string) (chunks : list Chunk)
    (embeddings : list Embedding) : list DocumentChunk :=
  map (fun '(i, (embedding, c)) => to_document_chunk c i embedding doc_id)
      (enumerate (combine embeddings chunks)).

(** Returns the ids; the document is mutated in place ([doc.chunk_ids =
    result]), so the caller's document is the second component. *)
Definition _store_chunks_and_doc (chunk_objects : list DocumentChunk)
    (doc : Document) : Prog (list string * Document) :=
  '(stored, ids) ← await (StoreEmbeddings chunk_objects);
  if negb stored then
    Raise (mkExn Exception "Failed to store chunk embeddings")
  else
    let doc := set_chunk_ids ids doc in
    saved ← await (StoreDocument doc);
    if negb saved then
      Raise (mkExn Exception "Failed to store document metadata")
    else Ret (ids, doc).

(** The loop of [_create_chunk_results], [results] being the list built so
    far. *)
Fixpoint create_chunk_results_loop (auth : AuthObject)
    (chunks : list DocumentChunk) (results : list ChunkResult)
  : Prog (list ChunkResult) :=
  match chunks with
  | [] => Ret results
  | chunk :: rest =>
      doc ← await (GetDocument (document_id chunk) auth);
      match doc with
      | None => create_chunk_results_loop auth rest results
      | Some doc =>
          download_url ←
            (if bool_decide (storage_info doc = ∅) then Ret None
             else
               bucket ← getitem (storage_info doc) "bucket";
               key ← getitem (storage_info doc) "key";
               url ← await (GetDownloadUrl bucket key);
               Ret (Some url));
          create_chunk_results_loop auth rest
            (results ++
             [{| cr_content := content chunk; cr_score := score chunk;
                 cr_document_id := document_id chunk;
                 cr_chunk_number := chunk_number chunk;
                 cr_metadata := metadata doc;
                 cr_content_type := content_type doc;
                 cr_filename := filename doc;
                 cr_download_url := download_url |}])
      end
  end.

Definition _create_chunk_results (auth : AuthObject)
    (chunks : list DocumentChunk) : Prog (list ChunkResult) :=
  create_chunk_results_loop auth chunks [].

Definition retrieve_chunks (self : DocumentService) (query : string)
    (auth : AuthObject) (filters : option PyDict) (k : Z) (min_score : Q)
    (use_reranking : option bool) : Prog (list ChunkResult) :=
  let should_rerank :=
    match use_reranking with
    | Some b => b
    | None => USE_RERANKING self
    end in
  query_embedding ← await (EmbedForQuery query);
  doc_ids ← await (FindAuthorizedAndFilteredDocuments auth filters);
  if negb (nonempty doc_ids) then Ret []
  else
    chunks ← await (QuerySimilar query_embedding
                      (if should_rerank then 10 * k else k) doc_ids);
    chunks ←
      (if nonempty chunks && should_rerank && reranker self then
         reranked ← await (Rerank query chunks);
         Ret (slice_to (sort_by_score_desc reranked) k)
       else Ret chunks);
    _create_chunk_results auth chunks.

Definition write_denied : exn :=
  mkExn PermissionError "User does not have write permission".

Definition ingest_text (content : string) (metadata : option PyDict)
    (auth : AuthObject) (rules : option (list string)) : Prog Document :=
  perms ← getattr (permissions auth) "permissions";
  if negb (bool_decide ("write" ∈ perms)) then
    (* the log line formats auth.entity_id before the raise *)
    _ ← getattr (entity_id auth) "entity_id";
    Raise write_denied
  else
    etype ← getattr (entity_type auth) "entity_type";
    eid ← getattr (entity_id auth) "entity_id";
    doc ← new_document "text/plain" None (default ∅ metadata)   (* metadata or {} *)
            (etype, eid) ([eid], [eid], [eid]) ∅;
    '(doc, content) ←
      (if list_truthy rules then
         '(rule_metadata, modified_text) ←
           await (ProcessRules content (default [] rules));
         metadata ←
           match metadata with
           | Some m => Ret (dict_update m rule_metadata)
           | None =>
               Raise (mkExn AttributeError
                        "'NoneType' object has no attribute 'update'")
           end;
         Ret (set_metadata metadata doc,
              if str_truthy modified_text then default "" modified_text
              else content)
       else Ret (doc, content));
    let doc := set_system_metadata "content" (PStr content) doc in
    chunks ← await (SplitText content);
    if negb (nonempty chunks) then
      Raise (mkExn ValueError "No content chunks extracted")
    else
      embeddings ← await (EmbedForIngestion chunks);
      let chunk_objects := _create_chunk_objects (external_id doc) chunks embeddings in
      '(_, doc) ← _store_chunks_and_doc chunk_objects doc;
      Ret doc.

Definition ingest_file (file : UploadFile) (metadata : PyDict)
    (auth : AuthObject) (rules : option (list string)) : Prog Document :=
  perms ← getattr (permissions auth) "permissions";
  if negb (bool_decide ("write" ∈ perms)) then Raise write_denied
  else
    let file_content := file_bytes file in
    '(additional_metadata, chunks) ←
      await (ParseFile file_content (default "" (file_content_type file))
                       (file_name file));
    if negb (nonempty chunks) then
      Raise (mkExn ValueError "No content chunks extracted from file")
    else
      let content := String.concat newline (map chunk_content chunks) in
      '(metadata, content, chunks) ←
        (if list_truthy rules then
           '(rule_metadata, modified_text) ←
             await (ProcessRules content (default [] rules));
           let metadata := dict_update metadata rule_metadata in
           if str_truthy modified_text then
             let content := default "" modified_text in
             chunks ← await (SplitText content);
             if negb (nonempty chunks) then
               Raise (mkExn ValueError
                        "No content chunks extracted after rules processing")
             else Ret (metadata, content, chunks)
           else Ret (metadata, content, chunks)
         else Ret (metadata, content, chunks));
      etype ← getattr (entity_type auth) "entity_type";
      eid ← getattr (entity_id auth) "entity_id";
      doc ← new_document (default "" (file_content_type file)) (file_name file)
              metadata (etype, eid) ([eid], [eid], [eid]) additional_metadata;
      let doc := set_system_metadata "content" (PStr content) doc in
      '(bucket, key) ←
        await (UploadFromBase64 (b64encode file_content) (external_id doc)
                                (file_content_type file) None);
      let doc := set_storage_info bucket key doc in
      embeddings ← await (EmbedForIngestion chunks);
      let chunk_objects := _create_chunk_objects (external_id doc) chunks embeddings in
      '(ids, doc) ← _store_chunks_and_doc chunk_objects doc;
      Ret (set_chunk_ids ids doc).

Definition delete_document_and_chunks (external_id : string)
    (auth : AuthObject) : Prog bool :=
  document ← await (GetDocument external_id auth);
  match document with
  | None => Ret false
  | Some _ =>
      count ← await (CountNumberOfChunks external_id);
      if Z.eqb count 0 then Ret false
      else
        document_deleted ← await (DeleteDocument external_id auth);
        if negb document_deleted then Ret false
        else
          deleted_count ← await (DeleteChunks external_id);
          if py_ne deleted_count (NInt count) then Ret false
          else Ret true
  end.

(** [[doc.model_dump_json() for doc in docs]]: a [None] in the list has no
    such method. *)
Fixpoint model_dump_json_all (docs : list (option Document)) : Prog (list Document) :=
  match docs with
  | [] => Ret []
  | None :: _ =>
      Raise (mkExn AttributeError
               "'NoneType' object has no attribute 'model_dump_json'")
  | Some d :: rest =>
      ds ← model_dump_json_all rest;
      Ret (d :: ds)
  end.

Definition create_cache (name model gguf_file : string)
    (docs : list (option Document)) (filters : option PyDict) : Prog ResultDict :=
  dumped ← model_dump_json_all docs;
  let metadata :=
    {| cm_model := model; cm_model_file := gguf_file; cm_filters := filters;
       cm_docs := dumped; cm_bucket := "caches";
       cm_key := name ++ "_state.pkl" |} in
  stored ← await (StoreCacheMetadata name metadata);
  if negb stored then
    Ret {| success := false;
           message := "Failed to store cache metadata for cache " ++ name |}
  else
    cache ← await (CreateNewCache name model gguf_file filters docs);
    let cache_bytes := saveable_state cache in
    let base64_cache_bytes := b64encode cache_bytes in
    '(bucket, key) ←
      await (UploadFromBase64 base64_cache_bytes (cm_key metadata) None
                              (Some (cm_bucket metadata)));
    Ret {| success := true;
           message := "Cache created successfully, state stored in bucket `"
                      ++ bucket ++ "` with key `" ++ key ++ "`" |}.

(** [self.active_caches] is threaded through: the map before the call comes
    in, the map after it goes out. *)
Definition load_cache (active_caches : gmap string Cache) (name : string)
  : Prog (LoadResult * gmap string Cache) :=
  try_except
    (metadata ← await (GetCacheMetadata name);
     match metadata with
     | None => Ret (LBool false, active_caches)
     | Some metadata =>
         cache_bytes ←
           await (DownloadFile (cm_bucket metadata) ("caches/" ++ cm_key metadata));
         cache ← await (LoadCacheFromBytes name cache_bytes metadata);
         Ret (LDict {| success := true; message := "Cache loaded successfully" |},
              <[name := cache]> active_caches)
     end)
    (fun e =>
       Ret (LDict {| success := false;
                     message := "Failed to load cache " ++ name ++ ": " ++ exn_msg e |},
            active_caches)).

(** ** Adapters *)

(** An adapter method answers on a world [W] with a result or an exception. *)
Definition Answer (W A : Type) : Type := W -> (exn + A) * W.

Definition returns {W A} (a : A) : Answer W A := fun w => (inr a, w).
Definition raises {W A} (e : exn) : Answer W A := fun w => (inl e, w).

(** The abstract base classes the service is written against. *)
Record BaseDatabase (W : Type) : Type := mkDatabase {
  get_document : string -> AuthObject -> Answer W (option Document);
  delete_document : string -> AuthObject -> Answer W bool;
  store_document : Document -> Answer W bool;
  find_authorized_and_filtered_documents :
    AuthObject -> option PyDict -> Answer W (list string);
  store_cache_metadata : string -> CacheMetadata -> Answer W bool;
  get_cache_metadata : string -> Answer W (option CacheMetadata)
}.

(** [core/vector_store/base_vector_store.py] *)
Record BaseVectorStore (W : Type) : Type := mkVectorStore {
  store_embeddings : list DocumentChunk -> Answer W (bool * list string);
  query_similar : Embedding -> Z -> list string -> Answer W (list DocumentChunk);
  count_number_of_chunks : string -> Answer W Z;
  delete_chunks : string -> Answer W PyNum
}.

Record BaseStorage (W : Type) : Type := mkStorage {
  upload_from_base64 :
    Base64 -> string -> option string -> option string -> Answer W (string * string);
  download_file : string -> string -> Answer W (list Byte.byte);
  get_download_url : string -> string -> Answer W string
}.

(** Parser, embedding model, reranker, rules processor, cache factory and
    the id source. *)
Record Providers (W : Type) : Type := mkProviders {
  split_text : string -> Answer W (list Chunk);
  parse_file : list Byte.byte -> string -> option string -> Answer W (PyDict * list Chunk);
  embed_for_ingestion : list Chunk -> Answer W (list Embedding);
  embed_for_query : string -> Answer W Embedding;
  rerank : string -> list DocumentChunk -> Answer W (list DocumentChunk);
  process_rules : string -> list string -> Answer W (PyDict * option string);
  create_new_cache :
    string -> string -> string -> option PyDict -> list (option Document) -> Answer W Cache;
  load_cache_from_bytes : string -> list Byte.byte -> CacheMetadata -> Answer W Cache;
  uuid4 : Answer W string
}.

Arguments get_document {W}.
Arguments delete_document {W}.
Arguments store_document {W}.
Arguments find_authorized_and_filtered_documents {W}.
Arguments store_cache_metadata {W}.
Arguments get_cache_metadata {W}.
Arguments store_embeddings {W}.
Arguments query_similar {W}.
Arguments count_number_of_chunks {W}.
Arguments delete_chunks {W}.
Arguments upload_from_base64 {W}.
Arguments download_file {W}.
Arguments get_download_url {W}.
Arguments split_text {W}.
Arguments parse_file {W}.
Arguments embed_for_ingestion {W}.
Arguments embed_for_query {W}.
Arguments rerank {W}.
Arguments process_rules {W}.
Arguments create_new_cache {W}.
Arguments load_cache_from_bytes {W}.
Arguments uuid4 {W}.

(** The service instance wired to its adapters ([DocumentService.__init__]). *)
Definition wire {W} (db : BaseDatabase W) (vs : BaseVectorStore W)
    (st : BaseStorage W) (pr : Providers W) : Handler W :=
  fun c =>
    match c as c0 return W -> (exn + result c0) * W with
    | GetDocument id auth => get_document db id auth
    | DeleteDocument id auth => delete_document db id auth
    | StoreDocument doc => store_document db doc
    | FindAuthorizedAndFilteredDocuments auth filters =>
        find_authorized_and_filtered_documents db auth filters
    | StoreCacheMetadata name md => store_cache_metadata db name md
    | GetCacheMetadata name => get_cache_metadata db name
    | StoreEmbeddings chunks => store_embeddings vs chunks
    | QuerySimilar e k ids => query_similar vs e k ids
    | CountNumberOfChunks id => count_number_of_chunks vs id
    | DeleteChunks id => delete_chunks vs id
    | UploadFromBase64 t key ct bucket => upload_from_base64 st t key ct bucket
    | DownloadFile bucket key => download_file st bucket key
    | GetDownloadUrl bucket key => get_download_url st bucket key
    | SplitText content => split_text pr content
    | ParseFile f ct name => parse_file pr f ct name
    | EmbedForIngestion chunks => embed_for_ingestion pr chunks
    | EmbedForQuery q => embed_for_query pr q
    | Rerank q chunks => rerank pr q chunks
    | ProcessRules content rules => process_rules pr content rules
    | CreateNewCache name model file filters docs =>
        create_new_cache pr name model file filters docs
    | LoadCacheFromBytes name bytes md => load_cache_from_bytes pr name bytes md
    | Uuid4 => uuid4 pr
    end.

(** ** The backing stores *)

(** A document of the Mongo [documents] collection: the [owner_id] field
    the adapter's queries test (a stored document may lack it) and the
    fields the adapter reads back into a [Document]. *)
Record StoredDocument : Type := mkStored {
  owner_id : option string;
  stored : Document
}.

Record World : Type := mkWorld {
  documents : list StoredDocument;             (* the documents collection *)
  caches : gmap string CacheMetadata;          (* the caches collection, by name *)
  index : list (string * DocumentChunk);       (* vector index: chunk id, chunk *)
  blobs : gmap (string * string) (list Byte.byte);   (* blob store: (bucket, key) *)
  uuids : nat                                   (* ids drawn so far *)
}.

Definition with_documents (ds : list StoredDocument) (w : World) : World :=
  {| documents := ds; caches := caches w; index := index w; blobs := blobs w;
     uuids := uuids w |}.

Definition with_caches (cs : gmap string CacheMetadata) (w : World) : World :=
  {| documents := documents w; caches := cs; index := index w; blobs := blobs w;
     uuids := uuids w |}.

Definition with_index (ix : list (string * DocumentChunk)) (w : World) : World :=
  {| documents := documents w; caches := caches w; index := ix; blobs := blobs w;
     uuids := uuids w |}.

Definition with_blobs (bs : gmap (string * string) (list Byte.byte)) (w : World) : World :=
  {| documents := documents w; caches := caches w; index := index w; blobs := bs;
     uuids := uuids w |}.

Definition with_uuids (n : nat) (w : World) : World :=
  {| documents := documents w; caches := caches w; index := index w;
     blobs := blobs w; uuids := n |}.

(** *** [core/database/mongo_database.py] *)

Module MongoDatabase.

Definition no_user_id : exn :=
  mkExn AttributeError "'AuthContext' object has no attribute 'user_id'".

(** [{"$and": [{"external_id": document_id}, {"owner_id": auth.user_id}]}] *)
Definition matches (document_id uid : string) (d : StoredDocument) : bool :=
  bool_decide (external_id (stored d) = document_id)
  && bool_decide (owner_id d = Some uid).

(** [_build_access_filter] reads [auth.user_id]; an [AttributeError] is
    no [PyMongoError] and leaves the method. *)
Definition get_document (document_id : string) (auth : AuthObject)
  : Answer World (option Document) :=
  fun w =>
    match user_id auth with
    | None => (inl no_user_id, w)
    | Some uid =>
        (inr (stored <$> List.find (matches document_id uid) (documents w)), w)
    end.

(** [check_access(self, document_id, auth)]: the caller owns the document. *)
Definition check_access (document_id : string) (auth : AuthObject)
  : Answer World bool :=
  fun w =>
    match List.find (fun d => bool_decide (external_id (stored d) = document_id))
                    (documents w) with
    | None => (inr false, w)
    | Some d =>
        match user_id auth with
        | None => (inl no_user_id, w)
        | Some uid => (inr (bool_decide (owner_id d = Some uid)), w)
        end
    end.

(** [delete_document] calls [self.check_access(document_id, auth, "admin")],
    one argument more than [check_access] takes: a [TypeError], which the
    [except PyMongoError] clause does not catch, before anything is read. *)
Definition delete_document (document_id : string) (auth : AuthObject)
  : Answer World bool :=
  raises (mkExn TypeError
            "check_access() takes 3 positional arguments but 4 were given").

(** Modelled from the spec: [_build_metadata_filter], which this class
    calls but does not define; a conjunction of equalities on the user
    metadata. *)
Definition matches_filters (filters : PyDict) (d : Document) : bool :=
  bool_decide (map_Forall (fun k v => metadata d !! k = Some v) filters).

Definition find_authorized_and_filtered_documents (auth : AuthObject)
    (filters : option PyDict) : Answer World (list string) :=
  fun w =>
    match user_id auth with
    | None => (inl no_user_id, w)
    | Some uid =>
        let by_owner d := bool_decide (owner_id d = Some uid) in
        let by_filters d :=
          match filters with
          | Some f => if bool_decide (f = ∅) then true else matches_filters f (stored d)
          | None => true
          end in
        (inr (map (fun d => external_id (stored d))
                  (List.filter (fun d => by_owner d && by_filters d) (documents w))), w)
    end.

(** An upsert by name.  The answer of the source is
    [bool(result.modified_count or result.upserted_id)], and [False] on any
    exception; the descriptor is written with the time of the call, so a
    write counts as a change unless the same descriptor was written at the
    same clock reading.  The collection here keeps no time and does not
    fail: this is the answer of a write that the driver carries out at a
    new clock reading. *)
Definition store_cache_metadata (name : string) (md : CacheMetadata)
  : Answer World bool :=
  fun w => (inr true, with_caches (<[name := md]> (caches w)) w).

Definition get_cache_metadata (name : string)
  : Answer World (option CacheMetadata) :=
  fun w => (inr (caches w !! name), w).

End MongoDatabase.

(** *** Adapters that are not part of the sources at hand *)

Module Reference.

(** Modelled from the spec: the Metadata Store Adapter's [delete_document]
    ("delete document if user has admin access"): the access check as
    [MongoDatabase.check_access] is declared, then the record with that
    external id is removed. *)
Definition delete_document (document_id : string) (auth : AuthObject)
  : Answer World bool :=
  fun w =>
    match MongoDatabase.check_access document_id auth w with
    | (inl e, w1) => (inl e, w1)
    | (inr false, w1) => (inr false, w1)
    | (inr true, w1) =>
        (inr true,
         with_documents
           (List.filter (fun d => negb (bool_decide (external_id (stored d) = document_id)))
                   (documents w1)) w1)
    end.

(** Modelled from the spec: [store_document] of the reference database,
    an in-memory Metadata Store Adapter behind the abstract [BaseDatabase]
    (core/database/base_database.py is not among the sources): external ids
    are unique, and the record keeps the owner's id, which is what the
    access filter tests, so that what is stored can be read back.  It is not
    the Mongo adapter's [store_document] (mongo_database.py, lines 45-60),
    which stamps the system metadata with the time, copies the external id
    into the user metadata, writes no [owner_id] and answers [False] on a
    driver error. *)
Definition store_document (doc : Document) : Answer World bool :=
  fun w =>
    if existsb (fun d => bool_decide (external_id (stored d) = external_id doc))
               (documents w)
    then (inr false, w)
    else (inr true,
          with_documents
            (documents w ++ [{| owner_id := Some (snd (owner doc)); stored := doc |}]) w).

Definition database : BaseDatabase World :=
  mkDatabase World
    MongoDatabase.get_document
    delete_document
    store_document
    MongoDatabase.find_authorized_and_filtered_documents
    MongoDatabase.store_cache_metadata
    MongoDatabase.get_cache_metadata.

(** The database with [delete_document] as the Mongo adapter has it. *)
Definition mongo_database : BaseDatabase World :=
  mkDatabase World
    MongoDatabase.get_document
    MongoDatabase.delete_document
    store_document
    MongoDatabase.find_authorized_and_filtered_documents
    MongoDatabase.store_cache_metadata
    MongoDatabase.get_cache_metadata.

(** The id the vector index assigns to a chunk. *)
Definition chunk_id (c : DocumentChunk) : string :=
  (document_id c ++ "#" ++ pretty (chunk_number c))%string.

(** Modelled from the spec: [store_embeddings] of the Vector Index Adapter
    ("store a batch of (chunk, vector) pairs returning assigned ids"). *)
Definition store_embeddings (chunks : list DocumentChunk)
  : Answer World (bool * list string) :=
  fun w =>
    (inr (true, map chunk_id chunks),
     with_index (index w ++ map (fun c => (chunk_id c, c)) chunks) w).

Definition dot (a b : Embedding) : Q :=
  foldr Qplus 0%Q (map (fun '(x, y) => Qmult x y) (combine a b)).

Definition with_score (s : Q) (c : DocumentChunk) : DocumentChunk :=
  {| document_id := document_id c; content := content c;
     embedding := embedding c; chunk_number := chunk_number c;
     dc_metadata := dc_metadata c; score := Finite s |}.

(** Modelled from the spec: [query_similar] of the Vector Index Adapter
    ("similarity search for top-k restricted to an id allow-list"), the
    score being the inner product with the query. *)
Definition query_similar (query_embedding : Embedding) (k : Z)
    (doc_ids : list string) : Answer World (list DocumentChunk) :=
  fun w =>
    let allowed :=
      List.filter (fun c => bool_decide (document_id c ∈ doc_ids)) (map snd (index w)) in
    let scored := map (fun c => with_score (dot query_embedding (embedding c)) c) allowed in
    (inr (firstn (Z.to_nat k) (sort_by_score_desc scored)), w).

Definition of_document (external_id : string) (e : string * DocumentChunk) : bool :=
  bool_decide (document_id (snd e) = external_id).

(** Modelled from the spec: [count_number_of_chunks] of the Vector Index
    Adapter ("count chunks for a document"). *)
Definition count_number_of_chunks (external_id : string) : Answer World Z :=
  fun w => (inr (Z.of_nat (length (List.filter (of_document external_id) (index w)))), w).

(** Modelled from the spec: [delete_chunks] of the Vector Index Adapter
    ("delete all chunks for a document"), answering with the number of
    chunks deleted, which is what the service compares with the count. *)
Definition delete_chunks (external_id : string) : Answer World PyNum :=
  fun w =>
    (inr (NInt (Z.of_nat (length (List.filter (of_document external_id) (index w))))),
     with_index (List.filter (fun e => negb (of_document external_id e)) (index w)) w).

Definition vector_store : BaseVectorStore World :=
  mkVectorStore World store_embeddings query_similar count_number_of_chunks
    delete_chunks.

(** A vector store whose delete fails and, as the declared [-> bool] and
    the manner of the database adapter have it, answers [False] instead of
    raising; nothing is deleted. *)
Definition failing_delete_chunks (external_id : string) : Answer World PyNum :=
  returns (NBool false).

Definition vector_store_failing_delete : BaseVectorStore World :=
  mkVectorStore World store_embeddings query_similar count_number_of_chunks
    failing_delete_chunks.

(** A vector store whose delete keeps to the declared [-> bool]: it
    deletes the chunks of the document and answers [True]. *)
Definition delete_chunks_bool (external_id : string) : Answer World PyNum :=
  fun w =>
    (inr (NBool true),
     with_index (List.filter (fun e => negb (of_document external_id e)) (index w)) w).

Definition vector_store_bool_delete : BaseVectorStore World :=
  mkVectorStore World store_embeddings query_similar count_number_of_chunks
    delete_chunks_bool.

(** The bucket of an upload that names none. *)
Definition default_bucket : string := "storage".

(** Modelled from the spec: [upload_from_base64] of the Blob Store Adapter
    ("upload bytes (base64-encoded input) to (bucket, key)"); payloads are
    addressed by (bucket, key). *)
Definition upload_from_base64 (t : Base64) (key : string)
    (content_type bucket : option string) : Answer World (string * string) :=
  fun w =>
    let b := default default_bucket bucket in
    (inr (b, key), with_blobs (<[(b, key) := b64decode t]> (blobs w)) w).

(** Modelled from the spec: [download_file] of the Blob Store Adapter
    ("download bytes from (bucket, key)"); nothing stored there is an
    error. *)
Definition download_file (bucket key : string) : Answer World (list Byte.byte) :=
  fun w =>
    match blobs w !! (bucket, key) with
    | Some bytes => (inr bytes, w)
    | None =>
        (inl (mkExn FileNotFoundError ("File not found: " ++ bucket ++ "/" ++ key)%string), w)
    end.

(** Modelled from the spec: [get_download_url] of the Blob Store Adapter
    ("produce a time-bounded download URL for (bucket, key)"). *)
Definition get_download_url (bucket key : string) : Answer World string :=
  returns ("file://" ++ bucket ++ "/" ++ key)%string.

Definition storage : BaseStorage World :=
  mkStorage World upload_from_base64 download_file get_download_url.

(** The lines of a text that are not empty. *)
Fixpoint lines_from (acc : string) (s : string) : list string :=
  match s with
  | EmptyString => if bool_decide (acc = "") then [] else [acc]
  | String a s' =>
      if bool_decide (a = Ascii.ascii_of_nat 10) then
        (if bool_decide (acc = "") then [] else [acc]) ++ lines_from "" s'
      else lines_from (acc ++ String a EmptyString) s'
  end.

(** Modelled from the spec: a parsing collaborator; this one makes one
    chunk of every line. *)
Definition split_text (content : string) : Answer World (list Chunk) :=
  returns (map (fun l => {| chunk_content := l; chunk_metadata := ∅ |})
               (lines_from "" content)).

(** Modelled from the spec: the parsing collaborator on raw bytes, which
    answers with extracted metadata and an initial chunk list; this one
    reads the bytes as text and extracts no metadata. *)
Definition parse_file (file : list Byte.byte) (content_type : string)
    (filename : option string) : Answer World (PyDict * list Chunk) :=
  returns (∅, map (fun l => {| chunk_content := l; chunk_metadata := ∅ |})
                  (lines_from "" (string_of_list_byte file))).

(** A vector of dimension two for a text. *)
Definition embed (s : string) : Embedding :=
  [inject_Z (Z.of_nat (String.length s)); 1%Q].

(** Modelled from the spec: the embedding provider ("embed a batch of chunk
    texts"), with one embedding per chunk, in order. *)
Definition embed_for_ingestion (chunks : list Chunk) : Answer World (list Embedding) :=
  returns (map (fun c => embed (chunk_content c)) chunks).

(** Modelled from the spec: the embedding provider ("embed a single query
    text"). *)
Definition embed_for_query (query : string) : Answer World Embedding :=
  returns (embed query).

(** Modelled from the spec: the reranker ("return the same chunks with
    updated relevance scores"); here the closer the length of the chunk to
    that of the query, the better. *)
Definition rerank (query : string) (chunks : list DocumentChunk)
  : Answer World (list DocumentChunk) :=
  returns
    (map (fun c =>
            with_score
              (Qopp (inject_Z (Z.abs (Z.of_nat (String.length (content c))
                                      - Z.of_nat (String.length query))))) c)
         chunks).

(** Modelled from the spec: the rule processor ("return extracted metadata
    and optionally rewritten text"); this one extracts one field per rule
    and rewrites nothing. *)
Definition process_rules (content : string) (rules : list string)
  : Answer World (PyDict * option string) :=
  returns (list_to_map (map (fun r => (r, PStr content)) rules), None).

(** The full text [ingest_text] and [ingest_file] keep in the system
    metadata. *)
Definition doc_content (d : Document) : string :=
  match system_metadata d !! "content" with
  | Some (PStr s) => s
  | _ => ""
  end.

(** Modelled from the spec: [create_new_cache] of the cache factory: the
    cache is primed over the content of its documents, and its saveable
    state is that content as bytes. *)
Definition create_new_cache (name model model_file : string)
    (filters : option PyDict) (docs : list (option Document)) : Answer World Cache :=
  returns
    {| cache_name := name; cache_model := model; cache_model_file := model_file;
       cache_filters := filters;
       cache_docs := map external_id (omap id docs);
       saveable_state :=
         list_byte_of_string (String.concat newline (map doc_content (omap id docs))) |}.

(** Modelled from the spec: [load_cache_from_bytes] of the cache factory:
    the cache is rebuilt from the downloaded bytes and the descriptor. *)
Definition load_cache_from_bytes (name : string) (cache_bytes : list Byte.byte)
    (md : CacheMetadata) : Answer World Cache :=
  returns
    {| cache_name := name; cache_model := cm_model md;
       cache_model_file := cm_model_file md; cache_filters := cm_filters md;
       cache_docs := map external_id (cm_docs md);
       saveable_state := cache_bytes |}.

(** The ids drawn are [doc-0], [doc-1], and so on. *)
Definition uuid4 : Answer World string :=
  fun w => (inr ("doc-" ++ pretty (uuids w))%string, with_uuids (S (uuids w)) w).

Definition providers : Providers World :=
  mkProviders World split_text parse_file embed_for_ingestion embed_for_query
    rerank process_rules create_new_cache load_cache_from_bytes uuid4.

(** An embedding model that answers a batch with the embedding of its
    first chunk only. *)
Definition providers_short_embedder : Providers World :=
  mkProviders World split_text parse_file
    (fun chunks => returns (firstn 1 (map (fun c => embed (chunk_content c)) chunks)))
    embed_for_query
    rerank process_rules create_new_cache load_cache_from_bytes uuid4.

Definition env : Handler World := wire database vector_store storage providers.

Definition empty_world : World :=
  {| documents := []; caches := ∅; index := []; blobs := ∅; uuids := 0 |}.

End Reference.

(** ** Sample callers, documents and worlds *)

Module Sample.

(** Two callers as the model class of [core/models/auth.py] makes them. *)
Definition alice : AuthObject := AuthContext "alice".
Definition bob : AuthObject := AuthContext "bob".

(** A caller object that carries every attribute the code reads. *)
Definition caller (name : string) (perms : gset string) : AuthObject :=
  {| user_id := Some name; entity_type := Some "user"; entity_id := Some name;
     permissions := Some perms |}.

(** Alice with a token that allows reading and writing. *)
Definition writer : AuthObject := caller "alice" {["read"; "write"]}.

Definition two_lines : string := ("hello" ++ newline ++ "world!")%string.

(** The same two lines as an uploaded text file. *)
Definition notes : UploadFile :=
  {| file_bytes := list_byte_of_string two_lines;
     file_content_type := Some "text/plain";
     file_name := Some "notes.txt" |}.

(** Alice's document, as [ingest_text] leaves it. *)
Definition d1 : Document :=
  {| external_id := "doc-0"; content_type := "text/plain"; filename := None;
     metadata := ∅; owner := ("user", "alice");
     access_control := (["alice"], ["alice"], ["alice"]);
     system_metadata := {["content" := PStr two_lines]};
     storage_info := ∅; additional_metadata := ∅;
     chunk_ids := ["doc-0#0"; "doc-0#1"] |}.

Definition c0 : DocumentChunk :=
  {| document_id := "doc-0"; content := "hello"; embedding := Reference.embed "hello";
     chunk_number := 0; dc_metadata := ∅; score := Finite 0 |}.

Definition c1 : DocumentChunk :=
  {| document_id := "doc-0"; content := "world!"; embedding := Reference.embed "world!";
     chunk_number := 1; dc_metadata := ∅; score := Finite 0 |}.

(** The stores after Alice ingested [two_lines]. *)
Definition library : World :=
  {| documents := [{| owner_id := Some "alice"; stored := d1 |}];
     caches := ∅;
     index := [("doc-0#0", c0); ("doc-0#1", c1)];
     blobs := ∅;
     uuids := 1 |}.

(** The reference adapters with a vector store whose delete fails. *)
Definition env_failing_delete : Handler World :=
  wire Reference.database Reference.vector_store_failing_delete
       Reference.storage Reference.providers.

(** The reference adapters with a vector store whose delete answers a
    [bool]. *)
Definition env_bool_delete : Handler World :=
  wire Reference.database Reference.vector_store_bool_delete
       Reference.storage Reference.providers.

(** The reference adapters with the Mongo [delete_document]. *)
Definition env_mongo : Handler World :=
  wire Reference.mongo_database Reference.vector_store
       Reference.storage Reference.providers.

(** The reference adapters with an embedding model that answers short. *)
Definition env_short_embedder : Handler World :=
  wire Reference.database Reference.vector_store
       Reference.storage Reference.providers_short_embedder.

(** The reference adapters, with a database in which the documents are
    gone after the first [get_document]: somebody else deleted them in the
    meantime.  The flag says whether a lookup was answered already. *)
Definition env_vanishing : Handler (World * bool) :=
  fun c '(w, looked_up) =>
    match c as c0 return (exn + result c0) * (World * bool) with
    | GetDocument document_id auth =>
        if looked_up then (inr None, (w, looked_up))
        else let '(r, w1) := Reference.env (GetDocument document_id auth) w in
             (r, (w1, true))
    | c0 => let '(r, w1) := Reference.env c0 w in (r, (w1, looked_up))
    end.


End Sample.

(** ** Predicates used in the statements *)

(** No document with this id is visible to this user: there is none, or the
    ones there are belong to somebody else. *)
Definition not_visible (id uid : string) (w : World) : Prop :=
  forall d, In d (documents w) -> external_id (stored d) = id -> owner_id d <> Some uid.

(** The chunks are an answer of the parser: of [split_text] on some text,
    or of [parse_file] on some file. *)
Definition parsed (chunks : list Chunk) (tr : list Event) : Prop :=
  (exists text, In (Answered (SplitText text) (inr chunks)) tr)
  \/ (exists file content_type filename md,
        In (Answered (ParseFile file content_type filename) (inr (md, chunks))) tr).

(** The number of chunks the reference vector index holds for a document. *)
Definition indexed_chunks (external_id : string) (w : World) : nat :=
  length (List.filter (Reference.of_document external_id) (index w)).

(** [create_cache] and then [load_cache], on a service whose active caches
    are [active_caches]. *)
Definition create_then_load (name model gguf_file : string)
    (docs : list (option Document)) (filters : option PyDict)
    (active_caches : gmap string Cache)
  : Prog (ResultDict * (LoadResult * gmap string Cache)) :=
  created ← create_cache name model gguf_file docs filters;
  loaded ← load_cache active_caches name;
  Ret (created, loaded).

(** ** Document-level results, completion requests ([document_service.py]) *)

(** A [dict] with its insertion order: [d.get(k)], [k in d] and [d[k] = v];
    a key that is set again keeps its place. *)
Fixpoint odict_get {V} (k : string) (d : list (string * V)) : option V :=
  match d with
  | [] => None
  | (k', v) :: rest => if bool_decide (k' = k) then Some v else odict_get k rest
  end.

Fixpoint odict_set {V} (k : string) (v : V) (d : list (string * V))
  : list (string * V) :=
  match d with
  | [] => [(k, v)]
  | (k', v') :: rest =>
      if bool_decide (k' = k) then (k, v) :: rest
      else (k', v') :: odict_set k v rest
  end.

(** [DocumentContent] and [DocumentResult] of [core/models/documents.py], by
    the fields the service fills. *)
Record DocumentContent : Type := mkDocumentContent {
  content_kind : string;                    (* type: "string" or "url" *)
  content_value : string;
  content_filename : option string
}.

Record DocumentResult : Type := mkDocumentResult {
  dr_score : PyFloat;
  dr_document_id : string;
  dr_metadata : PyDict;
  dr_content : DocumentContent;
  dr_additional_metadata : PyDict
}.

(** The first loop of [_create_document_results]: a chunk becomes the chunk
    of its document when the document has none yet or when it scores
    higher than the one kept. *)
Definition keep_best (doc_chunks : list (string * ChunkResult)) (chunk : ChunkResult)
  : list (string * ChunkResult) :=
  match odict_get (cr_document_id chunk) doc_chunks with
  | None => odict_set (cr_document_id chunk) chunk doc_chunks
  | Some best =>
      if float_gt (cr_score chunk) (cr_score best)
      then odict_set (cr_document_id chunk) chunk doc_chunks
      else doc_chunks
  end.

Definition group_by_document (chunks : list ChunkResult)
  : list (string * ChunkResult) :=
  fold_left keep_best chunks [].

(** What the first loop keeps of the chunks [seen] so far: one chunk per
    document id, a chunk of that document; when its score is not NaN, no
    chunk of the document with a score that is not NaN outscores it; and
    every document seen has its entry. *)
Definition grouped (groups : list (string * ChunkResult)) (seen : list ChunkResult)
  : Prop :=
  NoDup (map fst groups)
  /\ (forall id c, In (id, c) groups ->
        cr_document_id c = id /\ In c seen
        /\ forall c', In c' seen -> cr_document_id c' = id ->
                      cr_score c <> NaN -> cr_score c' <> NaN ->
                      float_le (cr_score c') (cr_score c) = true)
  /\ (forall c, In c seen -> odict_get (cr_document_id c) groups <> None).

(** The second loop of [_create_document_results], over
    [doc_chunks.items()], [results] being the dict built so far. *)
Fixpoint document_results_loop (auth : AuthObject)
    (doc_chunks : list (string * ChunkResult))
    (results : list (string * DocumentResult))
  : Prog (list (string * DocumentResult)) :=
  match doc_chunks with
  | [] => Ret results
  | (doc_id, chunk) :: rest =>
      doc ← await (GetDocument doc_id auth);
      match doc with
      | None => document_results_loop auth rest results
      | Some doc =>
          content ←
            (if bool_decide (content_type doc = "text/plain") then
               Ret {| content_kind := "string"; content_value := cr_content chunk;
                      content_filename := None |}
             else
               bucket ← getitem (storage_info doc) "bucket";
               key ← getitem (storage_info doc) "key";
               download_url ← await (GetDownloadUrl bucket key);
               Ret {| content_kind := "url"; content_value := download_url;
                      content_filename := filename doc |});
          document_results_loop auth rest
            (odict_set doc_id
               {| dr_score := cr_score chunk; dr_document_id := doc_id;
                  dr_metadata := metadata doc; dr_content := content;
                  dr_additional_metadata := additional_metadata doc |}
               results)
      end
  end.

Definition _create_document_results (auth : AuthObject)
    (chunks : list ChunkResult) : Prog (list (string * DocumentResult)) :=
  document_results_loop auth (group_by_document chunks) [].

Definition retrieve_docs (self : DocumentService) (query : string)
    (auth : AuthObject) (filters : option PyDict) (k : Z) (min_score : Q)
    (use_reranking : option bool) : Prog (list DocumentResult) :=
  chunks ← retrieve_chunks self query auth filters k min_score use_reranking;
  results ← _create_document_results auth chunks;
  Ret (map snd results).

(** [CompletionRequest] of [core/completion/base_completion.py], by the
    fields [query] fills. *)
Record CompletionRequest : Type := mkCompletionRequest {
  request_query : string;
  context_chunks : list string;
  max_tokens : option Z;
  temperature : option Q
}.

(** [[chunk.augmented_content(documents[chunk.document_id]) for chunk in
    chunks]]; [documents[..]] raises [KeyError] on a missing id.  The method
    [augmented_content] belongs to the result model and is a parameter. *)
Fixpoint augmented_contents
    (augmented_content : ChunkResult -> DocumentResult -> string)
    (documents : list (string * DocumentResult)) (chunks : list ChunkResult)
  : Prog (list string) :=
  match chunks with
  | [] => Ret []
  | chunk :: rest =>
      match odict_get (cr_document_id chunk) documents with
      | None => Raise (mkExn KeyError (cr_document_id chunk))
      | Some document =>
          passages ← augmented_contents augmented_content documents rest;
          Ret (augmented_content chunk document :: passages)
      end
  end.

(** [query] up to the request it builds. *)
Definition query_request
    (augmented_content : ChunkResult -> DocumentResult -> string)
    (self : DocumentService) (query : string) (auth : AuthObject)
    (filters : option PyDict) (k : Z) (min_score : Q) (max_tokens : option Z)
    (temperature : option Q) (use_reranking : option bool)
  : Prog CompletionRequest :=
  chunks ← retrieve_chunks self query auth filters k min_score use_reranking;
  documents ← _create_document_results auth chunks;
  chunk_contents ← augmented_contents augmented_content documents chunks;
  Ret {| request_query := query; context_chunks := chunk_contents;
         max_tokens := max_tokens; temperature := temperature |}.

(** [query]: the request goes to [self.completion_model.complete], a
    parameter here, and its response is returned as it is. *)
Definition query {R : Type}
    (augmented_content : ChunkResult -> DocumentResult -> string)
    (complete : CompletionRequest -> Prog R)
    (self : DocumentService) (query : string) (auth : AuthObject)
    (filters : option PyDict) (k : Z) (min_score : Q) (max_tokens : option Z)
    (temperature : option Q) (use_reranking : option bool) : Prog R :=
  request ← query_request augmented_content self query auth filters k min_score
              max_tokens temperature use_reranking;
  complete request.

(** ** [core/api.py] *)

Module Api.

(** [fastapi.HTTPException(status_code, detail)]; a route that raises one is
    a route that answers [inl] of it. *)
Record HTTPException : Type := mkHTTPException {
  status_code : Z;
  detail : string
}.

(** [DELETE /documents/{external_id}]: whatever is raised inside the [try]
    is logged and raised again. *)
Definition delete_document (external_id : string) (auth : AuthObject)
  : Prog (HTTPException + bool) :=
  success ← delete_document_and_chunks external_id auth;
  if negb success then
    Ret (inl {| status_code := 404; detail := "Document not found" |})
  else Ret (inr true).

(** The settings [verify_token] reads. *)
Record Settings : Type := mkSettings {
  dev_mode : bool;
  dev_entity_type : string;
  dev_entity_id : string;
  dev_permissions : list string
}.

(** The claims of a decoded token; [None] is a key the payload lacks. *)
Record Payload : Type := mkPayload {
  payload_exp : option Z;
  payload_type : option string;
  payload_entity_id : option string;
  payload_app_id : option string;
  payload_permissions : option (list string)
}.

(** What [verify_token] can raise. *)
Inductive TokenError : Type :=
| Unauthorized (detail : string)          (* HTTPException(401, detail) *)
| MissingKey (key : string)               (* KeyError *)
| BadEntityType (value : string)          (* ValueError of EntityType(..) *)
| ValidationError (field : string).       (* pydantic: a required field is missing *)

(** [EntityType(value)]: the enum of [core/models/auth.py]. *)
Definition EntityType (value : string) : TokenError + string :=
  if bool_decide (value = "user") || bool_decide (value = "developer")
  then inr value
  else inl (BadEntityType value).

(** [AuthContext(..)] with the keywords given: [user_id] is the one field
    the model declares, and it has no default; every other keyword is
    dropped. *)
Definition AuthContext_init (kw_user_id : option string) : TokenError + AuthObject :=
  match kw_user_id with
  | Some uid => inr (AuthContext uid)
  | None => inl (ValidationError "user_id")
  end.

(** [payload[key]] *)
Definition payload_item {A} (key : string) (v : option A) : TokenError + A :=
  match v with
  | Some x => inr x
  | None => inl (MissingKey key)
  end.

(** [verify_token], with [jwt.decode] and the clock as parameters: [decode]
    answers with the claims or with the message of an [InvalidTokenError],
    [now] is the current time in seconds.  Neither construction of the
    [AuthContext] passes a [user_id]. *)
Definition verify_token (settings : Settings)
    (decode : string -> string + Payload) (now : Z)
    (authorization : option string) : TokenError + AuthObject :=
  if dev_mode settings then
    match EntityType (dev_entity_type settings) with
    | inl e => inl e
    | inr _ => AuthContext_init None
    end
  else
    match authorization with
    | None | Some EmptyString => inl (Unauthorized "Missing authorization header")
    | Some authorization =>
        if negb (String.prefix "Bearer " authorization) then
          inl (Unauthorized "Invalid authorization header")
        else
          let token :=
            String.substring 7 (String.length authorization - 7) authorization in
          match decode token with
          | inl msg => inl (Unauthorized msg)
          | inr payload =>
              match payload_item "exp" (payload_exp payload) with
              | inl e => inl e
              | inr exp =>
                  if Z.ltb exp now then inl (Unauthorized "Token expired")
                  else
                    match payload_item "type" (payload_type payload) with
                    | inl e => inl e
                    | inr type =>
                        match EntityType type with
                        | inl e => inl e
                        | inr _ =>
                            match payload_item "entity_id" (payload_entity_id payload) with
                            | inl e => inl e
                            | inr _ => AuthContext_init None
                            end
                        end
                    end
              end
          end
    end.

End Api.

(** A call that writes to no store. *)
Definition reads (c : Call) : bool := negb (is_store_write c).

(** Scores in descending order: every score is at most every earlier one. *)
Fixpoint descending (scores : list PyFloat) : Prop :=
  match scores with
  | [] => True
  | s :: rest => Forall (fun s' => float_le s' s = true) rest /\ descending rest
  end.

(** The parser answered with no chunks. *)
Definition no_chunks (e : Event) : bool :=
  match e with
  | Answered (SplitText _) (inr []) => true
  | Answered (ParseFile _ _ _) (inr (_, [])) => true
  | _ => false
  end.

Definition is_store_document (c : Call) : bool :=
  match c with StoreDocument _ => true | _ => false end.

(** No document record was stored: no [store_document] answered [True]. *)
Definition no_record (tr : list Event) : Prop :=
  forall d, ~ In (Answered (StoreDocument d) (inr true)) tr.

Ltac prog_unfold := unfold mbind, Prog_bind, mret, Prog_ret, await in *.
Ltac bind_unfold := unfold mbind, Prog_bind, mret, Prog_ret in *.

(** * Properties *)

(** ** Running programs *)

Lemma run_bind {W A B} (h : Handler W) (p : Prog A) (f : A -> Prog B) (w : W) :
  run h (bind p f) w =
  match run h p w with
  | (inl e, w1, t1) => (inl e, w1, t1)
  | (inr a, w1, t1) =>
      let '(out, w2, t2) := run h (f a) w1 in (out, w2, t1 ++ t2)
  end.
Proof.
  revert w. induction p as [a|e|c k IH]; intros w; simpl.
  - destruct (run h (f a) w) as [[out w2] t2]. reflexivity.
  - reflexivity.
  - destruct (h c w) as [r w1]. rewrite IH.
    destruct (run h (k r) w1) as [[[e|a] w2] t1]; [reflexivity|].
    destruct (run h (f a) w2) as [[out w3] t2]. reflexivity.
Qed.

Lemma run_await {W} (h : Handler W) (c : Call) (w : W) :
  run h (await c) w = (fst (h c w), snd (h c w), [Answered c (fst (h c w))]).
Proof.
  unfold await. simpl. destruct (h c w) as [[e|x] w1]; reflexivity.
Qed.

(** An exception handler that returns makes the whole block return. *)
Lemma run_try_except_returns {W A} (h : Handler W) (p : Prog A)
    (handler : exn -> A) (w : W) :
  exists a, fst (fst (run h (try_except p (fun e => Ret (handler e))) w)) = inr a.
Proof.
  revert w. induction p as [a|e|c k IH]; intros w; simpl.
  - exists a. reflexivity.
  - exists (handler e). reflexivity.
  - destruct (h c w) as [r w1]. destruct (IH r w1) as [a Ha].
    destruct (run h (try_except (k r) _) w1) as [[out w2] tr].
    exists a. exact Ha.
Qed.

(** ** Retrieval *)

(** C8: [min_score] does not reach the pipeline: two calls of
    [retrieve_chunks] that differ only in [min_score] make the same adapter
    calls with the same arguments, end in the same world and return the same
    result, on any adapters. *)
Theorem retrieve_chunks_ignores_min_score {W} (h : Handler W) (w : W)
    (self : DocumentService) (query : string) (auth : AuthObject)
    (filters : option PyDict) (k : Z) (use_reranking : option bool) (s1 s2 : Q) :
  run h (retrieve_chunks self query auth filters k s1 use_reranking) w =
  run h (retrieve_chunks self query auth filters k s2 use_reranking) w.
Proof. reflexivity. Qed.




(** *** Sorting and slicing *)

Lemma insert_by_score_length (x : DocumentChunk) (l : list DocumentChunk) :
  length (insert_by_score x l) = S (length l).
Proof.
  induction l as [|y l IH]; simpl; [reflexivity|].
  destruct (float_le (score y) (score x)); simpl; [reflexivity|].
  rewrite IH. reflexivity.
Qed.

Lemma insert_by_score_In (x y : DocumentChunk) (l : list DocumentChunk) :
  In y (insert_by_score x l) <-> y = x \/ In y l.
Proof.
  induction l as [|z l IH]; simpl.
  - intuition congruence.
  - destruct (float_le (score z) (score x)); simpl.
    + intuition congruence.
    + rewrite IH. intuition congruence.
Qed.

Lemma sort_by_score_desc_length (l : list DocumentChunk) :
  length (sort_by_score_desc l) = length l.
Proof.
  unfold sort_by_score_desc.
  induction l as [|x l IH]; simpl; [reflexivity|].
  rewrite insert_by_score_length, IH. reflexivity.
Qed.

Lemma sort_by_score_desc_In (y : DocumentChunk) (l : list DocumentChunk) :
  In y (sort_by_score_desc l) <-> In y l.
Proof.
  unfold sort_by_score_desc.
  induction l as [|x l IH]; simpl; [tauto|].
  rewrite insert_by_score_In, IH. intuition congruence.
Qed.

Lemma slice_to_length {A} (l : list A) (k : Z) :
  (0 <= k)%Z -> (Z.of_nat (length (slice_to l k)) <= k)%Z.
Proof.
  intros Hk. unfold slice_to.
  destruct (Z.leb_spec 0 k) as [_|Hneg]; [|lia].
  rewrite length_firstn. lia.
Qed.

Lemma slice_to_In {A} (l : list A) (k : Z) (x : A) :
  In x (slice_to l k) -> In x l.
Proof.
  unfold slice_to.
  destruct (Z.leb 0 k); intros H;
    match type of H with
    | In _ (firstn ?n _) => rewrite <- (firstn_skipn n l)
    end; apply in_or_app; left; exact H.
Qed.

(** *** Result assembly *)

(** The loop of [_create_chunk_results] appends at most one result per
    chunk, each carrying the document id of one of the chunks. *)
Lemma create_chunk_results_loop_spec {W} (h : Handler W) (auth : AuthObject)
    (chunks : list DocumentChunk) :
  forall (results : list ChunkResult) (w : W) out w' tr,
    run h (create_chunk_results_loop auth chunks results) w = (inr out, w', tr) ->
    exists more,
      out = results ++ more
      /\ (length more <= length chunks)%nat
      /\ (forall r, In r more -> exists c, In c chunks /\ cr_document_id r = document_id c).
Proof.
  induction chunks as [|chunk rest IH]; intros results w out w' tr Hrun.
  - simpl in Hrun. injection Hrun as <- _ _. exists [].
    rewrite app_nil_r. simpl. repeat split; [lia | intros r []].
  - cbn [create_chunk_results_loop] in Hrun. prog_unfold.
    cbn [bind run] in Hrun.
    destruct (h (GetDocument (document_id chunk) auth) w) as [[e|[doc|]] w1];
      cbn [bind run] in Hrun.
    + discriminate Hrun.
    + rewrite run_bind in Hrun.
      match type of Hrun with
      | context [run h ?p w1] => destruct (run h p w1) as [[[e|url] w2] t1]
      end; [discriminate Hrun|].
      match type of Hrun with
      | context [run h ?p w2] => destruct (run h p w2) as [[o3 w3] t3] eqn:E
      end.
      injection Hrun as -> -> <-.
      destruct (IH _ _ _ _ _ E) as (more & -> & Hlen & Hdoc).
      eexists (_ :: more). rewrite <- app_assoc. simpl.
      split; [reflexivity|]. split; [lia|].
      intros r [<-|Hr].
      * exists chunk. simpl. auto.
      * destruct (Hdoc r Hr) as (c & Hc & Heq). exists c. auto.
    + match type of Hrun with
      | context [run h ?p w1] => destruct (run h p w1) as [[o3 w3] t3] eqn:E
      end.
      injection Hrun as -> -> <-.
      destruct (IH _ _ _ _ _ E) as (more & -> & Hlen & Hdoc).
      exists more. split; [reflexivity|]. split; [simpl; lia|].
      intros r Hr. destruct (Hdoc r Hr) as (c & Hc & Heq). exists c. simpl. auto.
Qed.

(** X1: with a reranker configured and reranking asked for, at most [k]
    results come back (for a [k] that is not negative). *)
Lemma retrieve_chunks_reranked_at_most_k {W} (h : Handler W) (w : W)
    (self : DocumentService) (query : string) (auth : AuthObject)
    (filters : option PyDict) (k : Z) (min_score : Q) out w' tr :
  reranker self = true ->
  (0 <= k)%Z ->
  run h (retrieve_chunks self query auth filters k min_score (Some true)) w
    = (inr out, w', tr) ->
  (Z.of_nat (length out) <= k)%Z.
Proof.
  intros Hre Hk. unfold retrieve_chunks, _create_chunk_results. prog_unfold.
  rewrite Hre. cbn [bind run].
  destruct (h (EmbedForQuery query) w) as [[e|emb] w1]; cbn [bind run];
    [discriminate|].
  destruct (h (FindAuthorizedAndFilteredDocuments auth filters) w1)
    as [[e|[|id ids]] w2]; cbn [bind run negb nonempty];
    [discriminate| intros [= <- _ _]; simpl; lia |].
  destruct (h (QuerySimilar emb (10 * k) (id :: ids)) w2) as [[e|[|c cs]] w3];
    cbn [bind run nonempty andb]; [discriminate| intros [= <- _ _]; simpl; lia |].
  destruct (h (Rerank query (c :: cs)) w3) as [[e|reranked] w4];
    cbn [bind run]; [discriminate|].
  destruct (run h (create_chunk_results_loop auth
                     (slice_to (sort_by_score_desc reranked) k) []) w4)
    as [[o5 w5] t5] eqn:E.
  intros [= -> -> <-].
  destruct (create_chunk_results_loop_spec _ _ _ _ _ _ _ _ E) as (more & -> & Hlen & _).
  simpl. pose proof (slice_to_length (sort_by_score_desc reranked) k Hk). lia.
Qed.

(** X2: without a reranker, asking for reranking is not an error: no
    rerank call is made, and the call behaves as a plain retrieval of
    [10 * k] chunks. *)
Lemma retrieve_chunks_without_reranker {W} (h : Handler W) (w : W)
    (self : DocumentService) (query : string) (auth : AuthObject)
    (filters : option PyDict) (k : Z) (min_score : Q) :
  reranker self = false ->
  run h (retrieve_chunks self query auth filters k min_score (Some true)) w
  = run h (retrieve_chunks self query auth filters (10 * k) min_score (Some false)) w.
Proof.
  intros Hre. unfold retrieve_chunks. prog_unfold. rewrite Hre. cbn [bind run].
  destruct (h (EmbedForQuery query) w) as [[e|emb] w1]; cbn [bind run];
    [reflexivity|].
  destruct (h (FindAuthorizedAndFilteredDocuments auth filters) w1)
    as [[e|[|id ids]] w2]; cbn [bind run negb nonempty]; [reflexivity..|].
  destruct (h (QuerySimilar emb (10 * k) (id :: ids)) w2) as [[e|cs] w3];
    cbn [bind run]; [reflexivity|].
  destruct (nonempty cs); reflexivity.
Qed.

(** X3: every result carries the document id of a chunk the vector store
    answered with, or, after reranking, of a chunk the reranker answered
    with; so when the vector store keeps to the allowed ids and the reranker
    to the chunks it was given, every result belongs to a document of the
    authorized-and-filtered set. *)
Lemma retrieve_chunks_results_authorized {W} (h : Handler W) (w : W)
    (self : DocumentService) (query : string) (auth : AuthObject)
    (filters : option PyDict) (k : Z) (min_score : Q)
    (use_reranking : option bool) out w' tr :
  (forall emb n ids w0 cs w1,
      h (QuerySimilar emb n ids) w0 = (inr cs, w1) ->
      forall c, In c cs -> In (document_id c) ids) ->
  (forall q cs w0 cs' w1,
      h (Rerank q cs) w0 = (inr cs', w1) ->
      forall c', In c' cs' -> exists c, In c cs /\ document_id c' = document_id c) ->
  run h (retrieve_chunks self query auth filters k min_score use_reranking) w
    = (inr out, w', tr) ->
  exists ids,
    In (Answered (FindAuthorizedAndFilteredDocuments auth filters) (inr ids)) tr
    /\ forall r, In r out -> In (cr_document_id r) ids.
Proof.
  intros Hvs Hrr. unfold retrieve_chunks, _create_chunk_results. prog_unfold.
  cbn [bind run].
  destruct (h (EmbedForQuery query) w) as [[e|emb] w1]; cbn [bind run];
    [discriminate|].
  destruct (h (FindAuthorizedAndFilteredDocuments auth filters) w1)
    as [[e|ids] w2] eqn:Hfind; cbn [bind run]; [discriminate|].
  destruct (nonempty ids) eqn:Hne; cbn [negb bind run].
  2:{ intros [= <- _ <-]. exists ids. split; [right; left; reflexivity|].
      intros r []. }
  match goal with
  | |- context [h (QuerySimilar emb ?n ids) w2] =>
      destruct (h (QuerySimilar emb n ids) w2) as [[e|cs] w3] eqn:Hq
  end; cbn [bind run]; [discriminate|].
  match goal with
  | |- context [if ?b then _ else _] => destruct b
  end; cbn [bind run].
  - destruct (h (Rerank query cs) w3) as [[e|reranked] w4] eqn:Hr;
      cbn [bind run]; [discriminate|].
    match goal with
    | |- context [run h ?p w4] => destruct (run h p w4) as [[o5 w5] t5] eqn:E
    end.
    intros [= -> -> <-].
    destruct (create_chunk_results_loop_spec _ _ _ _ _ _ _ _ E) as (more & -> & _ & Hdoc).
    exists ids. split; [right; left; reflexivity|].
    intros r Hin. simpl in Hin. destruct (Hdoc r Hin) as (c & Hc & ->).
    apply slice_to_In in Hc. apply (proj1 (sort_by_score_desc_In _ _)) in Hc.
    destruct (Hrr _ _ _ _ _ Hr c Hc) as (c0 & Hc0 & ->).
    exact (Hvs _ _ _ _ _ _ Hq c0 Hc0).
  - match goal with
    | |- context [run h ?p w3] => destruct (run h p w3) as [[o5 w5] t5] eqn:E
    end.
    intros [= -> -> <-].
    destruct (create_chunk_results_loop_spec _ _ _ _ _ _ _ _ E) as (more & -> & _ & Hdoc).
    exists ids. split; [right; left; reflexivity|].
    intros r Hin. simpl in Hin. destruct (Hdoc r Hin) as (c & Hc & ->).
    exact (Hvs _ _ _ _ _ _ Hq c Hc).
Qed.

(** C2: a service without a reranker, asked for [k = 1] chunk with
    [use_reranking = true], over a vector index that holds two chunks of a
    document of the caller: the vector store is asked for [10 * k = 10]
    chunks, nothing cuts its answer down, and two results are returned. *)
Theorem retrieve_chunks_unranked_overfetch :
  let self := {| reranker := false; USE_RERANKING := false |} in
  let '(out, _, tr) :=
    run Reference.env
        (retrieve_chunks self "hello" Sample.alice None 1 0%Q (Some true))
        Sample.library in
  exists results,
    out = inr results
    /\ map cr_document_id results = ["doc-0"; "doc-0"]
    /\ map cr_chunk_number results = [1; 0]%nat
    /\ (1 < Z.of_nat (length results))%Z
    /\ calls tr = [EmbedForQuery "hello";
                   FindAuthorizedAndFilteredDocuments Sample.alice None;
                   QuerySimilar (Reference.embed "hello") 10 ["doc-0"];
                   GetDocument "doc-0" Sample.alice;
                   GetDocument "doc-0" Sample.alice].
Proof.
  vm_compute. eexists. repeat split; reflexivity.
Qed.

(** ** Ingestion: the permission check *)

(** X4: a caller object that carries a permission set without ["write"] is
    turned away with the permission error before any call is made
    ([ingest_text] also reads [entity_id], for its log line). *)
Lemma ingest_without_write (auth : AuthObject) (perms : gset string)
    (content : string) (metadata : option PyDict) (rules : option (list string))
    (file : UploadFile) (file_metadata : PyDict) :
  permissions auth = Some perms ->
  "write" ∉ perms ->
  ingest_file file file_metadata auth rules = Raise write_denied
  /\ (is_Some (entity_id auth) ->
      ingest_text content metadata auth rules = Raise write_denied).
Proof.
  intros Hp Hw. unfold ingest_file, ingest_text. prog_unfold.
  rewrite Hp. cbn [getattr bind].
  rewrite (bool_decide_eq_false_2 _ Hw). cbn [negb].
  split; [reflexivity|]. intros [eid ->]. reflexivity.
Qed.

(** With ["write"] in the permission set the check lets the call through:
    [ingest_file] goes on to the parser. *)
Lemma ingest_file_with_write (auth : AuthObject) (perms : gset string)
    (rules : option (list string)) (file : UploadFile) (file_metadata : PyDict) :
  permissions auth = Some perms ->
  "write" ∈ perms ->
  exists k,
    ingest_file file file_metadata auth rules
    = Await (ParseFile (file_bytes file) (default "" (file_content_type file))
                       (file_name file)) k.
Proof.
  intros Hp Hw. unfold ingest_file. prog_unfold.
  rewrite Hp. cbn [getattr bind].
  rewrite (bool_decide_eq_true_2 _ Hw). cbn [negb bind].
  eexists. reflexivity.
Qed.

(** C4: an [AuthContext] declares [user_id] and nothing else, so the
    permission check of [ingest_text] and of [ingest_file] fails on reading
    [auth.permissions]: both raise [AttributeError], not the permission
    error, for every [AuthContext], and no call is made. *)
Theorem ingest_AuthContext_attribute_error (uid content : string)
    (metadata : option PyDict) (rules : option (list string))
    (file : UploadFile) (file_metadata : PyDict) :
  ingest_text content metadata (AuthContext uid) rules
    = Raise (mkExn AttributeError
               "'AuthContext' object has no attribute 'permissions'")
  /\ ingest_file file file_metadata (AuthContext uid) rules
    = Raise (mkExn AttributeError
               "'AuthContext' object has no attribute 'permissions'").
Proof. split; reflexivity. Qed.

(** ** Ingestion: rules without metadata *)

(** C10: [ingest_text] with a non-empty rules list and [metadata=None]
    ends in an exception on every caller object and on any adapters, after
    at most the id draw and the rules processor: nothing was written to a
    store.  When the caller passes the permission check and the rules
    processor answers, the exception is the [AttributeError] of
    [None.update(..)]. *)
Theorem ingest_text_rules_without_metadata {W} (h : Handler W) (w : W)
    (content : string) (auth : AuthObject) (rules : list string) :
  rules <> [] ->
  let '(out, w', tr) := run h (ingest_text content None auth (Some rules)) w in
  (exists e, out = inl e)
  /\ forallb (fun c => negb (is_store_write c)) (calls tr) = true
  /\ (calls tr = [] \/ calls tr = [Uuid4]
      \/ calls tr = [Uuid4; ProcessRules content rules])
  /\ (forall perms etype eid id w1 answer w2,
        permissions auth = Some perms -> "write" ∈ perms ->
        entity_type auth = Some etype -> entity_id auth = Some eid ->
        h Uuid4 w = (inr id, w1) ->
        h (ProcessRules content rules) w1 = (inr answer, w2) ->
        out = inl (mkExn AttributeError "'NoneType' object has no attribute 'update'")).
Proof.
  intros Hrules. destruct rules as [|r rs]; [contradiction|].
  unfold ingest_text, new_document. prog_unfold.
  destruct auth as [uid [etype|] [eid|] [perms|]];
    cbn [getattr bind run permissions entity_type entity_id];
    try (destruct (bool_decide ("write" ∈ perms)) eqn:Hw;
         cbn [negb getattr bind run]);
    try (simpl; split; [eexists; reflexivity|]; split; [reflexivity|];
         split; [left; reflexivity|]; intros; congruence).
  - destruct (h Uuid4 w) as [[e|id] w1] eqn:Hid; simpl.
    + split; [eexists; reflexivity|]. split; [reflexivity|].
      split; [right; left; reflexivity|]. intros; congruence.
    + destruct (h (ProcessRules content (r :: rs)) w1) as [[e|[rm mt]] w2] eqn:Hpr;
        simpl.
      * split; [eexists; reflexivity|]. split; [reflexivity|].
        split; [right; right; reflexivity|].
        intros ? ? ? ? ? ? ? _ _ _ _ [= <- <-] Hp. rewrite Hp in Hpr. discriminate.
      * split; [eexists; reflexivity|]. split; [reflexivity|].
        split; [right; right; reflexivity|]. intros; reflexivity.
  - simpl. split; [eexists; reflexivity|]. split; [reflexivity|].
    split; [left; reflexivity|].
    intros ? ? ? ? ? ? ? [= <-] Hin. apply bool_decide_eq_false in Hw.
    contradiction.
Qed.

Lemma ingest_text_rules_without_metadata_witness :
  let '(out, w', tr) :=
    run Reference.env (ingest_text "hello" None Sample.writer (Some ["title"]))
        Reference.empty_world in
  (exists e, out = inl e)
  /\ forallb (fun c => negb (is_store_write c)) (calls tr) = true
  /\ (calls tr = [] \/ calls tr = [Uuid4]
      \/ calls tr = [Uuid4; ProcessRules "hello" ["title"]])
  /\ (forall perms etype eid id w1 answer w2,
        permissions Sample.writer = Some perms -> "write" ∈ perms ->
        entity_type Sample.writer = Some etype -> entity_id Sample.writer = Some eid ->
        Reference.env Uuid4 Reference.empty_world = (inr id, w1) ->
        Reference.env (ProcessRules "hello" ["title"]) w1 = (inr answer, w2) ->
        out = inl (mkExn AttributeError "'NoneType' object has no attribute 'update'")).
Proof.
  apply (ingest_text_rules_without_metadata Reference.env Reference.empty_world
           "hello" Sample.writer ["title"]).
  discriminate.
Defined.

(** ** Ingestion: chunk objects *)

Lemma create_chunk_objects_from (doc_id : string) (embeddings : list Embedding) :
  forall (chunks : list Chunk) (s : nat),
    let pairs := combine embeddings chunks in
    let objs :=
      map (fun '(i, (embedding, c)) => to_document_chunk c i embedding doc_id)
          (combine (seq s (length pairs)) pairs) in
    length objs = Nat.min (length chunks) (length embeddings)
    /\ map chunk_number objs = seq s (Nat.min (length chunks) (length embeddings))
    /\ forall i c e,
         chunks !! i = Some c -> embeddings !! i = Some e ->
         objs !! i = Some (to_document_chunk c (s + i) e doc_id).
Proof.
  induction embeddings as [|e0 embeddings IH]; intros chunks s; simpl.
  - rewrite Nat.min_0_r. repeat split; try reflexivity. intros i c e _ He.
    destruct i; discriminate He.
  - destruct chunks as [|c0 chunks]; simpl.
    + repeat split; try reflexivity. intros i c e Hc. destruct i; discriminate Hc.
    + destruct (IH chunks (S s)) as (Hlen & Hnum & Hnth). simpl in Hlen, Hnum, Hnth.
      split; [rewrite Hlen; reflexivity|].
      split; [rewrite Hnum; reflexivity|].
      intros [|i] c e Hc He; simpl in *.
      * injection Hc as <-. injection He as <-. rewrite Nat.add_0_r. reflexivity.
      * rewrite (Hnth i c e Hc He). rewrite Nat.add_succ_r. reflexivity.
Qed.

(** The chunk objects pair the chunks and the embeddings position by
    position, up to the shorter of the two lists. *)
Lemma create_chunk_objects_zip (doc_id : string) (chunks : list Chunk)
    (embeddings : list Embedding) :
  let objs := _create_chunk_objects doc_id chunks embeddings in
  let n := Nat.min (length chunks) (length embeddings) in
  length objs = n
  /\ map chunk_number objs = seq 0 n
  /\ (forall i c e,
        chunks !! i = Some c -> embeddings !! i = Some e ->
        objs !! i = Some (to_document_chunk c i e doc_id))
  /\ Forall (fun o => document_id o = doc_id) objs.
Proof.
  unfold _create_chunk_objects, enumerate.
  destruct (create_chunk_objects_from doc_id embeddings chunks 0) as (Hlen & Hnum & Hnth).
  repeat split; try assumption.
  apply Forall_forall. intros o Ho.
  apply list_elem_of_In in Ho. apply in_map_iff in Ho.
  destruct Ho as ([i [e c]] & <- & _). reflexivity.
Qed.

(** A successful [ingest_text] ends with these four calls: the split, the
    embedding of the chunks the split answered, the storing of the chunk
    objects built from those chunks and the embeddings answered, and the
    storing of the document that is returned. *)
Lemma ingest_text_success_trace {W} (h : Handler W) (w : W) (content : string)
    (metadata : option PyDict) (auth : AuthObject) (rules : option (list string))
    doc w' tr :
  run h (ingest_text content metadata auth rules) w = (inr doc, w', tr) ->
  exists before text chunks embeddings ids,
    tr = before ++
         [Answered (SplitText text) (inr chunks);
          Answered (EmbedForIngestion chunks) (inr embeddings);
          Answered (StoreEmbeddings
                      (_create_chunk_objects (external_id doc) chunks embeddings))
                   (inr (true, ids));
          Answered (StoreDocument doc) (inr true)]
    /\ chunk_ids doc = ids
    /\ chunks <> [].
Proof.
  unfold ingest_text, new_document. prog_unfold. intros Hrun.
  destruct auth as [uid [etype|] [eid|] [perms|]];
    cbn [getattr bind run permissions entity_type entity_id] in Hrun;
    try discriminate Hrun;
    (destruct (bool_decide ("write" ∈ perms));
     cbn [negb getattr bind run] in Hrun; try discriminate Hrun).
  destruct (h Uuid4 w) as [[e|id] w1]; cbn [bind run] in Hrun;
    [discriminate Hrun|].
  rewrite run_bind in Hrun.
  match type of Hrun with
  | context [run h ?p w1] =>
      destruct (run h p w1) as [[[e|[doc0 text]] w2] t1]
  end; [discriminate Hrun|].
  cbn [bind run] in Hrun.
  destruct (h (SplitText text) w2) as [[e|chunks] w3]; cbn [bind run] in Hrun;
    [discriminate Hrun|].
  destruct chunks as [|c chunks]; cbn [nonempty negb bind run] in Hrun;
    [discriminate Hrun|].
  destruct (h (EmbedForIngestion (c :: chunks)) w3) as [[e|embeddings] w4];
    cbn [bind run] in Hrun; [discriminate Hrun|].
  unfold _store_chunks_and_doc in Hrun. prog_unfold. cbn [bind run] in Hrun.
  match type of Hrun with
  | context [h (StoreEmbeddings ?objs) w4] =>
      destruct (h (StoreEmbeddings objs) w4) as [[e|[[|] ids]] w5]
  end; cbn [negb bind run] in Hrun; try discriminate Hrun.
  match type of Hrun with
  | context [h (StoreDocument ?d) w5] =>
      destruct (h (StoreDocument d) w5) as [[e|[|]] w6]
  end; cbn [negb bind run] in Hrun; try discriminate Hrun.
  injection Hrun as <- <- <-.
  exists (Answered Uuid4 (inr id) :: t1), text, (c :: chunks), embeddings, ids.
  split; [reflexivity|split; [reflexivity|discriminate]].
Qed.

(** A successful [ingest_file] ends with these three calls; the chunks
    embedded are those the parser answered, from the file or, after a rule
    rewrote the text, from the rewritten text. *)
Lemma ingest_file_success_trace {W} (h : Handler W) (w : W) (file : UploadFile)
    (metadata0 : PyDict) (auth : AuthObject) (rules : option (list string))
    doc w' tr :
  run h (ingest_file file metadata0 auth rules) w = (inr doc, w', tr) ->
  exists before chunks embeddings ids,
    tr = before ++
         [Answered (EmbedForIngestion chunks) (inr embeddings);
          Answered (StoreEmbeddings
                      (_create_chunk_objects (external_id doc) chunks embeddings))
                   (inr (true, ids));
          Answered (StoreDocument doc) (inr true)]
    /\ parsed chunks before
    /\ chunk_ids doc = ids.
Proof.
  unfold ingest_file, new_document. prog_unfold. intros Hrun.
  destruct (permissions auth) as [perms|];
    cbn [getattr bind run] in Hrun; [|discriminate Hrun].
  destruct (bool_decide ("write" ∈ perms));
    cbn [negb bind run] in Hrun; [|discriminate Hrun].
  match type of Hrun with
  | context [h (ParseFile ?f ?ct ?fn) w] =>
      destruct (h (ParseFile f ct fn) w) as [[e|[md chunks0]] w1] eqn:Hparse
  end; cbn [bind run] in Hrun; [discriminate Hrun|].
  destruct chunks0 as [|c0 chunks0]; cbn [nonempty negb bind run] in Hrun;
    [discriminate Hrun|].
  rewrite run_bind in Hrun.
  match type of Hrun with
  | context [run h ?p w1] =>
      assert (Hrules : forall out3 w2 t1,
                 run h p w1 = (inr out3, w2, t1) ->
                 parsed (snd out3)
                        (Answered (ParseFile (file_bytes file)
                                     (default "" (file_content_type file))
                                     (file_name file))
                                  (inr (md, c0 :: chunks0)) :: t1))
  end.
  { intros [[md3 text3] chunks3] w2 t1.
    destruct (list_truthy rules); cbn [bind run].
    - destruct (h (ProcessRules _ _) w1) as [[e|[rm mt]] w2'];
        cbn [bind run]; [discriminate|].
      destruct (str_truthy mt); cbn [bind run].
      + destruct (h (SplitText _) w2') as [[e|chunks] w3] eqn:Hsplit;
          cbn [bind run]; [discriminate|].
        destruct (nonempty chunks); cbn [negb bind run]; [|discriminate].
        intros [= _ _ <- _ <-]. left. eexists. right. right. left. reflexivity.
      + intros [= _ _ <- _ <-]. right. do 4 eexists. left. reflexivity.
    - intros [= _ _ <- _ <-]. right. do 4 eexists. left. reflexivity. }
  match type of Hrun with
  | context [run h ?p w1] =>
      destruct (run h p w1) as [[[e|[[md3 text3] chunks3]] w2] t1] eqn:Hr
  end; [discriminate Hrun|].
  specialize (Hrules _ _ _ eq_refl). cbn [snd] in Hrules.
  destruct (entity_type auth) as [etype|];
    cbn [getattr bind run] in Hrun; [|discriminate Hrun].
  destruct (entity_id auth) as [eid|];
    cbn [getattr bind run] in Hrun; [|discriminate Hrun].
  destruct (h Uuid4 w2) as [[e|id] w3]; cbn [bind run] in Hrun;
    [discriminate Hrun|].
  match type of Hrun with
  | context [h (UploadFromBase64 ?t ?k ?ct ?b) w3] =>
      destruct (h (UploadFromBase64 t k ct b) w3) as [[e|[bucket key]] w4]
  end; cbn [bind run] in Hrun; [discriminate Hrun|].
  destruct (h (EmbedForIngestion chunks3) w4) as [[e|embeddings] w5];
    cbn [bind run] in Hrun; [discriminate Hrun|].
  unfold _store_chunks_and_doc in Hrun. prog_unfold. cbn [bind run] in Hrun.
  match type of Hrun with
  | context [h (StoreEmbeddings ?objs) w5] =>
      destruct (h (StoreEmbeddings objs) w5) as [[e|[[|] ids]] w6]
  end; cbn [negb bind run] in Hrun; try discriminate Hrun.
  match type of Hrun with
  | context [h (StoreDocument ?d) w6] =>
      destruct (h (StoreDocument d) w6) as [[e|[|]] w7]
  end; cbn [negb bind run] in Hrun; try discriminate Hrun.
  injection Hrun as <- <- <-.
  eexists (_ :: t1 ++ [_; _]), chunks3, embeddings, ids.
  split; [simpl; rewrite <- app_assoc; reflexivity|]. split; [|reflexivity].
  destruct Hrules as [[text Hin]|(f & ct & fn & md' & Hin)].
  - left. exists text. destruct Hin as [Hin|Hin]; [left; exact Hin|].
    right. apply in_or_app. left. exact Hin.
  - right. exists f, ct, fn, md'. destruct Hin as [Hin|Hin]; [left; exact Hin|].
    right. apply in_or_app. left. exact Hin.
Qed.

(** C7: a successful ingestion, by [ingest_text] or by [ingest_file],
    hands the vector store the chunk objects built from the chunks the
    parser answered and the embeddings the embedding model answered, paired
    position by position up to the shorter of the two lists.  The objects
    correspond one to one and in order to the first [n] chunks and the first
    [n] embeddings, [n] the smaller of the two lengths, and their chunk
    numbers are exactly [0 .. n-1]; when the model answers with one embedding
    per chunk, no chunk is left out. *)
Theorem ingest_chunk_objects {W} (h : Handler W) (w : W) (p : Prog Document)
    doc w' tr :
  (exists content0 metadata0 auth rules,
      p = ingest_text content0 metadata0 auth rules)
  \/ (exists file metadata0 auth rules,
         p = ingest_file file metadata0 auth rules) ->
  run h p w = (inr doc, w', tr) ->
  exists before chunks embeddings ids,
    let objs := _create_chunk_objects (external_id doc) chunks embeddings in
    let n := Nat.min (length chunks) (length embeddings) in
    tr = before ++
         [Answered (EmbedForIngestion chunks) (inr embeddings);
          Answered (StoreEmbeddings objs) (inr (true, ids));
          Answered (StoreDocument doc) (inr true)]
    /\ parsed chunks before
    /\ length objs = n
    /\ map chunk_number objs = seq 0 n
    /\ (forall i c e,
          chunks !! i = Some c -> embeddings !! i = Some e ->
          objs !! i = Some (to_document_chunk c i e (external_id doc)))
    /\ (length embeddings = length chunks -> length objs = length chunks).
Proof.
  intros Hp Hrun.
  assert (exists before chunks embeddings ids,
             tr = before ++
                  [Answered (EmbedForIngestion chunks) (inr embeddings);
                   Answered (StoreEmbeddings
                               (_create_chunk_objects (external_id doc) chunks embeddings))
                            (inr (true, ids));
                   Answered (StoreDocument doc) (inr true)]
             /\ parsed chunks before)
    as (before & chunks & embeddings & ids & Htr & Hparsed).
  { destruct Hp as [(c & m & a & r & ->)|(f & m & a & r & ->)].
    - destruct (ingest_text_success_trace h w _ _ _ _ _ _ _ Hrun)
        as (before & text & chunks & embeddings & ids & -> & _ & _).
      exists (before ++ [Answered (SplitText text) (inr chunks)]),
        chunks, embeddings, ids.
      split; [rewrite <- app_assoc; reflexivity|].
      left. exists text. apply in_or_app. right. left. reflexivity.
    - destruct (ingest_file_success_trace h w _ _ _ _ _ _ _ Hrun)
        as (before & chunks & embeddings & ids & -> & Hparsed & _).
      exists before, chunks, embeddings, ids. split; [reflexivity|assumption]. }
  exists before, chunks, embeddings, ids. cbv zeta.
  destruct (create_chunk_objects_zip (external_id doc) chunks embeddings)
    as (Hlen & Hnum & Hnth & _).
  repeat split; try assumption.
  intros Heq. rewrite Hlen, Heq. apply Nat.min_id.
Qed.

Lemma ingest_chunk_objects_witness :
  let claim (doc : Document) (tr : list Event) :=
    exists before chunks embeddings ids,
      let objs := _create_chunk_objects (external_id doc) chunks embeddings in
      let n := Nat.min (length chunks) (length embeddings) in
      tr = before ++
           [Answered (EmbedForIngestion chunks) (inr embeddings);
            Answered (StoreEmbeddings objs) (inr (true, ids));
            Answered (StoreDocument doc) (inr true)]
      /\ parsed chunks before
      /\ length objs = n
      /\ map chunk_number objs = seq 0 n
      /\ (forall i c e,
            chunks !! i = Some c -> embeddings !! i = Some e ->
            objs !! i = Some (to_document_chunk c i e (external_id doc)))
      /\ (length embeddings = length chunks -> length objs = length chunks) in
  (exists tr,
      run Reference.env (ingest_text Sample.two_lines None Sample.writer None)
          Reference.empty_world = (inr Sample.d1, Sample.library, tr)
      /\ claim Sample.d1 tr)
  /\ (exists doc w' tr,
         run Reference.env (ingest_file Sample.notes ∅ Sample.writer None)
             Reference.empty_world = (inr doc, w', tr)
         /\ claim doc tr).
Proof.
  intros claim. split.
  - eexists. split; [vm_compute; reflexivity|].
    eapply (ingest_chunk_objects Reference.env Reference.empty_world
              (ingest_text Sample.two_lines None Sample.writer None)).
    + left. do 4 eexists. reflexivity.
    + vm_compute. reflexivity.
  - eexists _, _, _. split; [vm_compute; reflexivity|].
    eapply (ingest_chunk_objects Reference.env Reference.empty_world
              (ingest_file Sample.notes ∅ Sample.writer None)).
    + right. do 4 eexists. reflexivity.
    + vm_compute. reflexivity.
Defined.

(** The split answers two chunks, the embedding model one embedding: the
    ingestion succeeds all the same, with one chunk object stored and the
    second chunk dropped. *)
Lemma ingest_text_tolerates_short_embedding_batch :
  let '(out, w', tr) :=
    run Sample.env_short_embedder
        (ingest_text Sample.two_lines None Sample.writer None)
        Reference.empty_world in
  let hello := {| chunk_content := "hello"; chunk_metadata := ∅ |} in
  let world := {| chunk_content := "world!"; chunk_metadata := ∅ |} in
  exists doc,
    out = inr doc
    /\ tr !! 1%nat = Some (Answered (SplitText Sample.two_lines) (inr [hello; world]))
    /\ tr !! 2%nat = Some (Answered (EmbedForIngestion [hello; world])
                                    (inr [Reference.embed "hello"]))
    /\ _create_chunk_objects "doc-0" [hello; world] [Reference.embed "hello"]
       = [Sample.c0]
    /\ map snd (index w') = [Sample.c0]
    /\ chunk_ids doc = ["doc-0#0"].
Proof.
  vm_compute. eexists. repeat split; reflexivity.
Qed.

(** ** Ingestion: storing the chunks and the document *)

(** On any adapters: the document record is stored only after the
    embeddings were, and with the ids the vector store answered. *)
Lemma store_chunks_and_doc_order {W} (h : Handler W) (w : W)
    (chunk_objects : list DocumentChunk) (doc : Document) :
  let '(out, w', tr) := run h (_store_chunks_and_doc chunk_objects doc) w in
  calls tr = [StoreEmbeddings chunk_objects]
  \/ exists ids w1,
       h (StoreEmbeddings chunk_objects) w = (inr (true, ids), w1)
       /\ calls tr = [StoreEmbeddings chunk_objects;
                      StoreDocument (set_chunk_ids ids doc)].
Proof.
  unfold _store_chunks_and_doc. prog_unfold. cbn [bind run].
  destruct (h (StoreEmbeddings chunk_objects) w) as [[e|[[|] ids]] w1];
    cbn [negb bind run]; try (left; reflexivity).
  destruct (h (StoreDocument (set_chunk_ids ids doc)) w1) as [[e|[|]] w2];
    cbn [negb bind run]; right; exists ids, w1; split; reflexivity.
Qed.

Section VectorIndexContract.

(** The vector store is taken by its contract: it stores a batch and
    answers with one id per chunk, and it counts the chunks of a document;
    [count_of w id] is the number of chunks the index holds for document
    [id] in the world [w]. *)
Context {W : Type} (h : Handler W) (count_of : W -> string -> nat).

Hypothesis count_answer :
  forall id w, h (CountNumberOfChunks id) w = (inr (Z.of_nat (count_of w id)), w).

Hypothesis store_embeddings_counts :
  forall cs ids w w1,
    h (StoreEmbeddings cs) w = (inr (true, ids), w1) ->
    length ids = length cs
    /\ forall id,
         count_of w1 id
         = (count_of w id
            + length (List.filter (fun c => bool_decide (document_id c = id)) cs))%nat.

Hypothesis store_document_keeps_index :
  forall d w id, count_of (snd (h (StoreDocument d) w)) id = count_of w id.

(** C6: the chunk embeddings go to the vector store before the document
    record goes to the database, and the record is stored exactly when the
    vector store answered success.  When both stores answer success the call
    returns, the record it stored carries exactly the ids the vector store
    answered, and, for a new document, the vector store counts as many
    chunks of it as the record lists ids.  When storing the record fails
    after the chunks were stored, the call raises; when storing the chunks
    fails, it raises and the record is not stored. *)
Theorem store_chunks_and_doc_persists (w : W) (doc : Document)
    (chunks : list Chunk) (embeddings : list Embedding) :
  count_of w (external_id doc) = 0%nat ->
  let objs := _create_chunk_objects (external_id doc) chunks embeddings in
  let '(out, w', tr) := run h (_store_chunks_and_doc objs doc) w in
  match h (StoreEmbeddings objs) w with
  | (inr (true, ids), w1) =>
      let doc' := set_chunk_ids ids doc in
      tr = [Answered (StoreEmbeddings objs) (inr (true, ids));
            Answered (StoreDocument doc') (fst (h (StoreDocument doc') w1))]
      /\ w' = snd (h (StoreDocument doc') w1)
      /\ match fst (h (StoreDocument doc') w1) with
         | inr true =>
             out = inr (ids, doc')
             /\ chunk_ids doc' = ids
             /\ external_id doc' = external_id doc
             /\ h (CountNumberOfChunks (external_id doc')) w'
                = (inr (Z.of_nat (length (chunk_ids doc'))), w')
         | inr false =>
             out = inl (mkExn Exception "Failed to store document metadata")
         | inl e => out = inl e
         end
  | (inr (false, ids), w1) =>
      out = inl (mkExn Exception "Failed to store chunk embeddings")
      /\ w' = w1
      /\ tr = [Answered (StoreEmbeddings objs) (inr (false, ids))]
  | (inl e, w1) =>
      out = inl e /\ w' = w1 /\ tr = [Answered (StoreEmbeddings objs) (inl e)]
  end.
Proof.
  intros Hnew objs. subst objs.
  set (objs := _create_chunk_objects (external_id doc) chunks embeddings).
  unfold _store_chunks_and_doc. prog_unfold. cbn [bind run].
  destruct (h (StoreEmbeddings objs) w) as [[e|[[|] ids]] w1] eqn:Hstore;
    cbn [negb bind run].
  - repeat split.
  - destruct (h (StoreDocument (set_chunk_ids ids doc)) w1) as [[e|[|]] w2] eqn:Hdoc;
      cbn [negb bind run fst snd].
    + repeat split.
    + split; [reflexivity|]. split; [reflexivity|]. repeat split.
      rewrite count_answer. f_equal. f_equal. f_equal.
      pose proof (store_document_keeps_index (set_chunk_ids ids doc) w1
                    (external_id doc)) as Hkeep.
      rewrite Hdoc in Hkeep. simpl in Hkeep |- *. rewrite Hkeep.
      destruct (store_embeddings_counts _ _ _ _ Hstore) as [Hlen Hcnt].
      rewrite Hcnt, Hnew, Hlen. simpl. f_equal.
      destruct (create_chunk_objects_zip (external_id doc) chunks embeddings)
        as (_ & _ & _ & Hall). fold objs in Hall.
      clearbody objs. clear -Hall.
      induction Hall as [|o objs Ho _ IH]; [reflexivity|]. simpl.
      rewrite (bool_decide_eq_true_2 _ Ho). simpl. rewrite IH. reflexivity.
    + repeat split.
  - repeat split.
Qed.

End VectorIndexContract.

(** The reference vector index keeps to that contract. *)
Lemma reference_count_answer (id : string) (w : World) :
  Reference.env (CountNumberOfChunks id) w = (inr (Z.of_nat (indexed_chunks id w)), w).
Proof. reflexivity. Qed.

Lemma reference_store_embeddings_counts (cs : list DocumentChunk)
    (ids : list string) (w w1 : World) :
  Reference.env (StoreEmbeddings cs) w = (inr (true, ids), w1) ->
  length ids = length cs
  /\ forall id,
       indexed_chunks id w1
       = (indexed_chunks id w
          + length (List.filter (fun c => bool_decide (document_id c = id)) cs))%nat.
Proof.
  simpl. unfold Reference.store_embeddings. intros [= <- <-].
  split; [apply length_map|].
  intros id. unfold indexed_chunks. simpl.
  rewrite List.filter_app, length_app. f_equal.
  induction cs as [|c cs IH]; [reflexivity|]. simpl.
  unfold Reference.of_document at 1. simpl.
  destruct (bool_decide (document_id c = id)); simpl; rewrite IH; reflexivity.
Qed.

Lemma reference_store_document_keeps_index (d : Document) (w : World) (id : string) :
  indexed_chunks id (snd (Reference.env (StoreDocument d) w)) = indexed_chunks id w.
Proof.
  simpl. unfold Reference.store_document.
  destruct (existsb _ (documents w)); reflexivity.
Qed.

Lemma store_chunks_and_doc_persists_witness :
  let doc :=
    {| external_id := "doc-0"; content_type := "text/plain"; filename := None;
       metadata := ∅; owner := ("user", "alice");
       access_control := (["alice"], ["alice"], ["alice"]);
       system_metadata := {["content" := PStr Sample.two_lines]};
       storage_info := ∅; additional_metadata := ∅; chunk_ids := [] |} in
  let chunks :=
    [{| chunk_content := "hello"; chunk_metadata := ∅ |};
     {| chunk_content := "world!"; chunk_metadata := ∅ |}] in
  let embeddings := [Reference.embed "hello"; Reference.embed "world!"] in
  indexed_chunks "doc-0" Reference.empty_world = 0%nat
  /\ let objs := _create_chunk_objects (external_id doc) chunks embeddings in
     let ids := ["doc-0#0"; "doc-0#1"] in
     let '(out, w', tr) :=
       run Reference.env (_store_chunks_and_doc objs doc) Reference.empty_world in
     out = inr (ids, set_chunk_ids ids doc)
     /\ calls tr = [StoreEmbeddings objs; StoreDocument (set_chunk_ids ids doc)]
     /\ Reference.env (CountNumberOfChunks "doc-0") w' = (inr 2%Z, w').
Proof.
  intros doc chunks embeddings. split; [reflexivity|].
  pose proof (store_chunks_and_doc_persists Reference.env
                (fun w id => indexed_chunks id w)
                reference_count_answer reference_store_embeddings_counts
                reference_store_document_keeps_index
                Reference.empty_world doc chunks embeddings eq_refl) as H.
  vm_compute in H. vm_compute.
  destruct H as (_ & _ & Hout & _ & _ & Hcount).
  split; [exact Hout|]. split; [reflexivity|exact Hcount].
Defined.

(** The run of that example: both chunks stored, then the record with
    their ids; the index counts two chunks for the document. *)
Example store_chunks_and_doc_run :
  let '(out, w', _) :=
    run Reference.env
        (_store_chunks_and_doc [Sample.c0; Sample.c1] (set_chunk_ids [] Sample.d1))
        Reference.empty_world in
  out = inr (["doc-0#0"; "doc-0#1"], Sample.d1)
  /\ indexed_chunks "doc-0" w' = 2%nat
  /\ map stored (documents w') = [Sample.d1].
Proof. vm_compute. repeat split; reflexivity. Qed.

(** A record that cannot be stored, here because its id is taken: the
    call raises, after the chunks went into the index. *)
Example store_document_failure_raises :
  let '(out, w', tr) :=
    run Reference.env
        (_store_chunks_and_doc [Sample.c0; Sample.c1] (set_chunk_ids [] Sample.d1))
        Sample.library in
  out = inl (mkExn Exception "Failed to store document metadata")
  /\ calls tr = [StoreEmbeddings [Sample.c0; Sample.c1]; StoreDocument Sample.d1]
  /\ indexed_chunks "doc-0" w' = 4%nat
  /\ documents w' = documents Sample.library.
Proof. vm_compute. repeat split; reflexivity. Qed.

(** ** Deletion *)

(** C1: for a document that passes the pre-check (found, and counted
    with [count <> 0]), on any adapters: when the metadata delete does not
    report success, the chunk delete is never called and the world is as
    the metadata delete left it; when it reports success, the chunks are
    deleted next, and [True] is returned exactly when the vector store
    reports [count] chunks deleted.  A chunk delete that raises or reports
    another number gives an exception or [False] on a world from which the
    metadata record is already gone: nothing is rolled back. *)
Theorem delete_document_and_chunks_outcomes {W} (h : Handler W) (w w1 w2 : W)
    (id : string) (auth : AuthObject) (d : Document) (count : Z) :
  h (GetDocument id auth) w = (inr (Some d), w1) ->
  h (CountNumberOfChunks id) w1 = (inr count, w2) ->
  count <> 0%Z ->
  let '(out, w', tr) := run h (delete_document_and_chunks id auth) w in
  match h (DeleteDocument id auth) w2 with
  | (inr true, w3) =>
      calls tr = [GetDocument id auth; CountNumberOfChunks id;
                  DeleteDocument id auth; DeleteChunks id]
      /\ w' = snd (h (DeleteChunks id) w3)
      /\ match fst (h (DeleteChunks id) w3) with
         | inr n => out = inr (Z.eqb (num_value n) count)
         | inl e => out = inl e
         end
  | (answer, w3) =>
      calls tr = [GetDocument id auth; CountNumberOfChunks id; DeleteDocument id auth]
      /\ w' = w3
      /\ match answer with
         | inr _ => out = inr false
         | inl e => out = inl e
         end
  end.
Proof.
  intros Hget Hcount Hpos.
  unfold delete_document_and_chunks. prog_unfold. simpl.
  rewrite Hget. simpl. rewrite Hcount. simpl.
  destruct (Z.eqb_spec count 0) as [->|_]; [contradiction|]. simpl.
  destruct (h (DeleteDocument id auth) w2) as [[e|[|]] w3]; simpl; auto.
  destruct (h (DeleteChunks id) w3) as [[e|n] w4]; simpl; auto.
  unfold py_ne. simpl.
  destruct (Z.eqb (num_value n) count); simpl; auto.
Qed.

Lemma delete_document_and_chunks_outcomes_witness :
  (Reference.env (GetDocument "doc-0" Sample.alice) Sample.library
     = (inr (Some Sample.d1), Sample.library)
   /\ Reference.env (CountNumberOfChunks "doc-0") Sample.library
     = (inr 2%Z, Sample.library))
  /\ let '(out, w', tr) :=
       run Reference.env (delete_document_and_chunks "doc-0" Sample.alice)
           Sample.library in
     match Reference.env (DeleteDocument "doc-0" Sample.alice) Sample.library with
     | (inr true, w3) =>
         calls tr = [GetDocument "doc-0" Sample.alice; CountNumberOfChunks "doc-0";
                     DeleteDocument "doc-0" Sample.alice; DeleteChunks "doc-0"]
         /\ w' = snd (Reference.env (DeleteChunks "doc-0") w3)
         /\ match fst (Reference.env (DeleteChunks "doc-0") w3) with
            | inr n => out = inr (Z.eqb (num_value n) 2)
            | inl e => out = inl e
            end
     | (answer, w3) =>
         calls tr = [GetDocument "doc-0" Sample.alice; CountNumberOfChunks "doc-0";
                     DeleteDocument "doc-0" Sample.alice]
         /\ w' = w3
         /\ match answer with
            | inr _ => out = inr false
            | inl e => out = inl e
            end
     end.
Proof.
  assert (Hget : Reference.env (GetDocument "doc-0" Sample.alice) Sample.library
                 = (inr (Some Sample.d1), Sample.library)) by (vm_compute; reflexivity).
  assert (Hcount : Reference.env (CountNumberOfChunks "doc-0") Sample.library
                   = (inr 2%Z, Sample.library)) by (vm_compute; reflexivity).
  split; [split; assumption|].
  apply (delete_document_and_chunks_outcomes Reference.env Sample.library
           Sample.library Sample.library "doc-0" Sample.alice Sample.d1 2
           Hget Hcount).
  discriminate.
Defined.

(** The run of that example: the owner deletes her document; the record
    and both chunks are gone. *)
Example delete_document_and_chunks_run :
  let '(out, w', _) :=
    run Reference.env (delete_document_and_chunks "doc-0" Sample.alice)
        Sample.library in
  out = inr true /\ documents w' = [] /\ index w' = [].
Proof. vm_compute. repeat split; reflexivity. Qed.

(** A partial delete: the pre-check passes with two chunks counted, the
    metadata record is deleted, the chunk delete fails.  [False] is
    returned; the record is gone from the database and both chunks are still
    in the vector index. *)
Lemma delete_partial_when_chunk_delete_fails :
  let '(out, w', tr) :=
    run Sample.env_failing_delete
        (delete_document_and_chunks "doc-0" Sample.alice) Sample.library in
  fst (Sample.env_failing_delete (GetDocument "doc-0" Sample.alice) Sample.library)
    = inr (Some Sample.d1)
  /\ fst (Sample.env_failing_delete (CountNumberOfChunks "doc-0") Sample.library)
    = inr 2%Z
  /\ out = inr false
  /\ documents Sample.library <> documents w'
  /\ documents w' = []
  /\ index w' = index Sample.library
  /\ indexed_chunks "doc-0" w' = 2%nat.
Proof. vm_compute. repeat split; try reflexivity. discriminate. Qed.

(** A vector store that answers [True] for a delete that went through:
    [True != 2], so the call returns [False] although the record and both
    chunks are gone. *)
Example delete_with_bool_answer_reports_failure :
  let '(out, w', _) :=
    run Sample.env_bool_delete
        (delete_document_and_chunks "doc-0" Sample.alice) Sample.library in
  out = inr false /\ documents w' = [] /\ index w' = [].
Proof. vm_compute. repeat split; reflexivity. Qed.

(** With the Mongo adapter as it stands no delete gets through: its
    [delete_document] raises [TypeError] on every call. *)
Example delete_with_mongo_adapter_raises :
  let '(out, w', _) :=
    run Sample.env_mongo (delete_document_and_chunks "doc-0" Sample.alice)
        Sample.library in
  (exists msg, out = inl (mkExn TypeError msg)) /\ w' = Sample.library.
Proof. vm_compute. split; [eexists|]; reflexivity. Qed.

Lemma find_not_visible (id uid : string) (ds : list StoredDocument) :
  (forall d, In d ds -> external_id (stored d) = id -> owner_id d <> Some uid) ->
  List.find (MongoDatabase.matches id uid) ds = None.
Proof.
  induction ds as [|d ds IH]; intros H; simpl; [reflexivity|].
  unfold MongoDatabase.matches at 1.
  destruct (bool_decide_reflect (external_id (stored d) = id)) as [Hid|Hid]; simpl.
  - destruct (bool_decide_reflect (owner_id d = Some uid)) as [Ho|Ho]; simpl.
    + exfalso. apply (H d); [left; reflexivity|assumption|assumption].
    + apply IH. intros d' Hin. apply H. right. assumption.
  - apply IH. intros d' Hin. apply H. right. assumption.
Qed.

(** C5: with the document looked up as the Mongo adapter does it, by id
    and owner in one query, a caller to whom no document of that id is
    visible gets [False] after that single lookup, with nothing changed:
    whether no such document exists or one exists that belongs to somebody
    else, the outcome is the same, so the call does not tell a caller
    whether a document he may not see exists. *)
Theorem delete_not_found_or_unauthorized_alike (db : BaseDatabase World)
    (vs : BaseVectorStore World) (st : BaseStorage World) (pr : Providers World)
    (w : World) (id uid : string) (auth : AuthObject) :
  get_document db = MongoDatabase.get_document ->
  user_id auth = Some uid ->
  not_visible id uid w ->
  run (wire db vs st pr) (delete_document_and_chunks id auth) w
  = (inr false, w, [Answered (GetDocument id auth) (inr None)]).
Proof.
  intros Hdb Huid Hnv.
  unfold delete_document_and_chunks. prog_unfold. simpl.
  rewrite Hdb. unfold MongoDatabase.get_document. rewrite Huid.
  rewrite (find_not_visible id uid _ Hnv). reflexivity.
Qed.

Lemma delete_not_found_or_unauthorized_alike_witness :
  not_visible "doc-0" "bob" Sample.library
  /\ run Sample.env_mongo (delete_document_and_chunks "doc-0" Sample.bob) Sample.library
     = (inr false, Sample.library,
        [Answered (GetDocument "doc-0" Sample.bob) (inr None)]).
Proof.
  assert (Hnv : not_visible "doc-0" "bob" Sample.library).
  { intros d [<-|[]] _. discriminate. }
  split; [exact Hnv|].
  apply (delete_not_found_or_unauthorized_alike Reference.mongo_database
           Reference.vector_store Reference.storage Reference.providers
           Sample.library "doc-0" "bob" Sample.bob eq_refl eq_refl Hnv).
Defined.

(** Bob asks to delete Alice's document, which exists, and a document that
    does not exist: the same [False] both times, and the same trace but for
    the id. *)
Lemma delete_unauthorized_same_as_not_found :
  In "doc-0" (map (fun d => external_id (stored d)) (documents Sample.library))
  /\ ~ In "doc-9" (map (fun d => external_id (stored d)) (documents Sample.library))
  /\ run Sample.env_mongo (delete_document_and_chunks "doc-0" Sample.bob) Sample.library
     = (inr false, Sample.library,
        [Answered (GetDocument "doc-0" Sample.bob) (inr None)])
  /\ run Sample.env_mongo (delete_document_and_chunks "doc-9" Sample.bob) Sample.library
     = (inr false, Sample.library,
        [Answered (GetDocument "doc-9" Sample.bob) (inr None)]).
Proof.
  split; [left; reflexivity|]. split; [intros [H|[]]; discriminate H|].
  split; vm_compute; reflexivity.
Qed.

(** ** Caches *)

(** [load_cache] never raises: its handler turns any exception into a
    result dict. *)
Lemma load_cache_never_raises {W} (h : Handler W) (w : W)
    (active_caches : gmap string Cache) (name : string) :
  exists r, fst (fst (run h (load_cache active_caches name) w)) = inr r.
Proof.
  unfold load_cache.
  match goal with
  | |- context [try_except ?p (fun e => Ret (@?f e))] =>
      exact (run_try_except_returns h p f w)
  end.
Qed.

(** The key [load_cache] downloads is never the key [create_cache]
    uploaded. *)
Lemma download_key_differs (key : string) : ("caches/" ++ key)%string <> key.
Proof.
  intros H. apply (f_equal String.length) in H.
  change (String.length ("caches/" ++ key)%string)
    with (7 + String.length key)%nat in H.
  lia.
Qed.

(** On a blob store addressed by (bucket, key): whatever the name and the
    document, [load_cache] after a successful [create_cache] finds the
    descriptor, asks for a key under which nothing was stored, and reports a
    failure; no cache is registered. *)
Lemma load_cache_misses_created_state (name model gguf_file : string)
    (d : Document) (filters : option PyDict) (active_caches : gmap string Cache)
    (w : World) :
  blobs w !! ("caches", "caches/" ++ name ++ "_state.pkl")%string = None ->
  exists created msg w' tr,
    run Reference.env
        (create_then_load name model gguf_file [Some d] filters active_caches) w
    = (inr (created, (LDict {| success := false; message := msg |}, active_caches)),
       w', tr)
    /\ success created = true
    /\ is_Some (blobs w' !! ("caches", name ++ "_state.pkl")%string)
    /\ blobs w' !! ("caches", "caches/" ++ name ++ "_state.pkl")%string = None.
Proof.
  intros Hfree.
  unfold create_then_load, create_cache, load_cache.
  cbn [model_dump_json_all]. prog_unfold.
  cbn [model_dump_json_all bind run try_except Reference.env wire
       store_cache_metadata create_new_cache upload_from_base64
       get_cache_metadata download_file load_cache_from_bytes
       Reference.database Reference.storage Reference.providers
       MongoDatabase.store_cache_metadata Reference.create_new_cache returns
       Reference.upload_from_base64 MongoDatabase.get_cache_metadata
       Reference.download_file negb cm_key cm_bucket default from_option id
       with_caches with_blobs caches blobs].
  rewrite lookup_insert_eq.
  cbn [bind run try_except Reference.env wire download_file Reference.storage
       Reference.download_file cm_key cm_bucket blobs with_blobs with_caches].
  unfold Reference.download_file. cbn [blobs with_blobs].
  rewrite lookup_insert_ne.
  2:{ intros [= H]. symmetry in H. exact (download_key_differs _ H). }
  rewrite Hfree. cbn [bind run try_except].
  do 4 eexists. split; [reflexivity|]. split; [reflexivity|].
  cbn [blobs with_blobs with_caches]. split.
  - rewrite lookup_insert_eq. eexists. reflexivity.
  - rewrite lookup_insert_ne; [exact Hfree|].
    intros [= H]. symmetry in H. exact (download_key_differs _ H).
Qed.

(** C3: [create_cache("c1", .., docs=[d1])] succeeds and uploads the
    state under key [c1_state.pkl] of bucket [caches]; [load_cache("c1")]
    then downloads key [caches/c1_state.pkl] of that bucket, which is not
    there: it reports a failure and registers no cache under [c1]. *)
Theorem create_then_load_cache_fails :
  let '(out, w', tr) :=
    run Reference.env
        (create_then_load "c1" "llama" "model.gguf" [Some Sample.d1] None ∅)
        Sample.library in
  exists created loaded (active_caches : gmap string Cache),
    out = inr (created, (loaded, active_caches))
    /\ success created = true
    /\ loaded = LDict {| success := false;
                         message := "Failed to load cache c1: File not found: caches/caches/c1_state.pkl" |}
    /\ active_caches !! "c1" = None
    /\ blobs w' !! ("caches", "c1_state.pkl")
       = Some (list_byte_of_string Sample.two_lines)
    /\ blobs w' !! ("caches", "caches/c1_state.pkl") = None
    /\ In (UploadFromBase64 (b64encode (list_byte_of_string Sample.two_lines))
                            "c1_state.pkl" None (Some "caches")) (calls tr)
    /\ In (DownloadFile "caches" "caches/c1_state.pkl") (calls tr).
Proof.
  vm_compute. do 3 eexists. repeat split; try reflexivity.
  - right. right. left. reflexivity.
  - do 4 right. left. reflexivity.
Qed.

(** * Further properties *)

(** ** Retrieval *)

Lemma retrieve_chunks_reranked_at_most_k_witness :
  (exists out w' tr,
      run Reference.env
          (retrieve_chunks (mkService true false) "hello" Sample.alice None 1 0%Q
                           (Some true))
          Sample.library = (inr out, w', tr)
      /\ (Z.of_nat (length out) <= 1)%Z).
Proof.
  eexists _, _, _. split; [vm_compute; reflexivity|].
  eapply (retrieve_chunks_reranked_at_most_k Reference.env Sample.library
            (mkService true false) "hello" Sample.alice None 1 0%Q).
  - reflexivity.
  - discriminate.
  - vm_compute. reflexivity.
Defined.

Lemma retrieve_chunks_without_reranker_witness :
  run Reference.env
      (retrieve_chunks (mkService false true) "hello" Sample.alice None 1 0%Q
                       (Some true))
      Sample.library
  = run Reference.env
      (retrieve_chunks (mkService false true) "hello" Sample.alice None (10 * 1) 0%Q
                       (Some false))
      Sample.library.
Proof.
  apply (retrieve_chunks_without_reranker Reference.env Sample.library
           (mkService false true) "hello" Sample.alice None 1 0%Q).
  reflexivity.
Defined.

(** The reference vector store keeps to the allowed ids, and the reference
    reranker to the chunks it is given. *)
Lemma firstn_In {A} (n : nat) (l : list A) (x : A) : In x (firstn n l) -> In x l.
Proof.
  intros H. rewrite <- (firstn_skipn n l). apply in_or_app. left. exact H.
Qed.

Lemma reference_query_similar_allowed emb n ids (w : World) cs w1 :
  Reference.env (QuerySimilar emb n ids) w = (inr cs, w1) ->
  forall c, In c cs -> In (document_id c) ids.
Proof.
  simpl. unfold Reference.query_similar. intros [= <- _] c Hc.
  apply firstn_In in Hc.
  apply (proj1 (sort_by_score_desc_In _ _)) in Hc.
  apply in_map_iff in Hc. destruct Hc as (c0 & <- & Hc0).
  apply filter_In in Hc0. destruct Hc0 as [_ Hid].
  apply bool_decide_eq_true in Hid. simpl. apply list_elem_of_In. exact Hid.
Qed.

Lemma reference_rerank_same_chunks q cs (w : World) cs' w1 :
  Reference.env (Rerank q cs) w = (inr cs', w1) ->
  forall c', In c' cs' -> exists c, In c cs /\ document_id c' = document_id c.
Proof.
  simpl. unfold Reference.rerank, returns. intros [= <- _] c' Hc.
  apply in_map_iff in Hc. destruct Hc as (c & <- & Hc). exists c. auto.
Qed.

Lemma retrieve_chunks_results_authorized_witness :
  exists out w' tr ids,
    run Reference.env
        (retrieve_chunks (mkService true false) "hello" Sample.alice None 2 0%Q
                         (Some true))
        Sample.library = (inr out, w', tr)
    /\ length out = 2%nat
    /\ In (Answered (FindAuthorizedAndFilteredDocuments Sample.alice None) (inr ids)) tr
    /\ forall r, In r out -> In (cr_document_id r) ids.
Proof.
  eexists _, _, _.
  assert (Hrun : run Reference.env
        (retrieve_chunks (mkService true false) "hello" Sample.alice None 2 0%Q
                         (Some true))
        Sample.library = (_, _, _)) by (vm_compute; reflexivity).
  destruct (retrieve_chunks_results_authorized Reference.env Sample.library
              (mkService true false) "hello" Sample.alice None 2 0%Q (Some true)
              _ _ _ reference_query_similar_allowed reference_rerank_same_chunks Hrun)
    as (ids & Hin & Hall).
  exists ids. split; [exact Hrun|]. split; [reflexivity|]. split; assumption.
Defined.

Lemma ingest_without_write_witness :
  let reader := Sample.caller "carol" {["read"]} in
  ingest_file Sample.notes ∅ reader None = Raise write_denied
  /\ (is_Some (entity_id reader) ->
      ingest_text "hello" None reader None = Raise write_denied).
Proof.
  apply (ingest_without_write (Sample.caller "carol" {["read"]}) {["read"]}).
  - reflexivity.
  - vm_compute. intros H. discriminate H.
Defined.

(** *** What a run calls *)

(** A property of the calls of a run that passes from the parts of a
    program to the whole. *)
Lemma calls_bind {W A B} (h : Handler W) (ok : Call -> bool)
    (p : Prog A) (f : A -> Prog B) :
  (forall w, forallb ok (calls (snd (run h p w))) = true) ->
  (forall a w, forallb ok (calls (snd (run h (f a) w))) = true) ->
  forall w, forallb ok (calls (snd (run h (bind p f) w))) = true.
Proof.
  intros Hp Hf w. rewrite run_bind. specialize (Hp w).
  destruct (run h p w) as [[[e|a] w1] t1]; [exact Hp|].
  specialize (Hf a w1). destruct (run h (f a) w1) as [[out w2] t2].
  simpl in *. unfold calls in *. rewrite map_app, forallb_app, Hp, Hf. reflexivity.
Qed.

Lemma calls_await {W} (h : Handler W) (ok : Call -> bool) (c : Call) :
  ok c = true ->
  forall w, forallb ok (calls (snd (run h (await c) w))) = true.
Proof.
  intros Hc w. rewrite run_await. simpl. rewrite Hc. reflexivity.
Qed.

Lemma calls_getitem {W} (h : Handler W) (ok : Call -> bool)
    (d : gmap string string) (key : string) :
  forall w, forallb ok (calls (snd (run h (getitem d key) w))) = true.
Proof. intros w. unfold getitem. destruct (d !! key); reflexivity. Qed.

Lemma create_chunk_results_loop_reads {W} (h : Handler W) (auth : AuthObject)
    (chunks : list DocumentChunk) :
  forall results w,
    forallb reads (calls (snd (run h (create_chunk_results_loop auth chunks results) w)))
    = true.
Proof.
  induction chunks as [|chunk rest IH]; intros results w; [reflexivity|].
  revert w. cbn [create_chunk_results_loop]. bind_unfold.
  apply calls_bind; [(match goal with |- context [await ?c] => apply (calls_await h _ c) end; reflexivity)|]. intros [doc|] w.
  - revert w. apply calls_bind.
    + destruct (bool_decide (storage_info doc = ∅)); [reflexivity|].
      apply calls_bind; [apply calls_getitem|]. intros bucket w0. revert w0.
      apply calls_bind; [apply calls_getitem|]. intros key w0. revert w0.
      apply calls_bind; [(match goal with |- context [await ?c] => apply (calls_await h _ c) end; reflexivity)|]. reflexivity.
    + intros url w. apply IH.
  - apply IH.
Qed.

Lemma retrieve_chunks_reads {W} (h : Handler W) (self : DocumentService)
    (query : string) (auth : AuthObject) (filters : option PyDict) (k : Z)
    (min_score : Q) (use_reranking : option bool) (w : W) :
  forallb reads
    (calls (snd (run h (retrieve_chunks self query auth filters k min_score
                                        use_reranking) w))) = true.
Proof.
  revert w. unfold retrieve_chunks, _create_chunk_results. bind_unfold.
  apply calls_bind; [(match goal with |- context [await ?c] => apply (calls_await h _ c) end; reflexivity)|]. intros emb w. revert w.
  apply calls_bind; [(match goal with |- context [await ?c] => apply (calls_await h _ c) end; reflexivity)|]. intros ids w.
  destruct (nonempty ids); [|reflexivity]. cbn [negb]. revert w.
  apply calls_bind; [(match goal with |- context [await ?c] => apply (calls_await h _ c) end; reflexivity)|]. intros cs w. revert w.
  apply calls_bind.
  - match goal with |- context [if ?b then _ else _] => destruct b end;
      [|reflexivity].
    apply calls_bind; [(match goal with |- context [await ?c] => apply (calls_await h _ c) end; reflexivity)|]. reflexivity.
  - intros cs' w. apply create_chunk_results_loop_reads.
Qed.

(** ** Document-level results *)

Lemma odict_get_In {V} (k : string) (v : V) (d : list (string * V)) :
  odict_get k d = Some v -> In (k, v) d.
Proof.
  induction d as [|[k' v'] d IH]; simpl; [discriminate|].
  destruct (bool_decide_reflect (k' = k)) as [->|Hne].
  - intros [= ->]. left. reflexivity.
  - intros H. right. apply IH. exact H.
Qed.

Lemma odict_get_set {V} (k k' : string) (v : V) (d : list (string * V)) :
  odict_get k' (odict_set k v d)
  = if bool_decide (k = k') then Some v else odict_get k' d.
Proof.
  induction d as [|[k0 v0] d IH]; simpl.
  - reflexivity.
  - destruct (bool_decide_reflect (k0 = k)) as [->|Hne]; simpl.
    + destruct (bool_decide (k = k')); reflexivity.
    + rewrite IH. destruct (bool_decide_reflect (k0 = k')) as [->|Hne'].
      * rewrite bool_decide_eq_false_2 by congruence. reflexivity.
      * reflexivity.
Qed.

Lemma odict_set_keys {V} (k : string) (v : V) (d : list (string * V)) :
  NoDup (map fst d) -> NoDup (map fst (odict_set k v d)).
Proof.
  assert (Hin : forall k0 (d0 : list (string * V)),
             In k0 (map fst (odict_set k v d0)) -> k0 = k \/ In k0 (map fst d0)).
  { intros k0 d0. induction d0 as [|[k1 v1] d0 IH]; simpl.
    - intros [<-|[]]. left. reflexivity.
    - destruct (bool_decide_reflect (k1 = k)) as [->|Hne]; simpl.
      + intros [<-|H]; auto.
      + intros [<-|H]; auto. destruct (IH H); auto. }
  induction d as [|[k0 v0] d IH]; simpl; intros Hnd.
  - constructor; [intros H; inversion H|constructor].
  - apply NoDup_cons in Hnd. destruct Hnd as [Hk0 Hnd].
    destruct (bool_decide_reflect (k0 = k)) as [->|Hne]; simpl.
    + apply NoDup_cons. split; assumption.
    + apply NoDup_cons. split; [|apply IH; exact Hnd].
      intros H. apply list_elem_of_In in H. destruct (Hin _ _ H) as [->|H'].
      * congruence.
      * apply Hk0. apply list_elem_of_In. exact H'.
Qed.

Lemma odict_set_In {V} (k k' : string) (v v' : V) (d : list (string * V)) :
  NoDup (map fst d) ->
  In (k', v') (odict_set k v d) ->
  (k' = k /\ v' = v) \/ (k' <> k /\ In (k', v') d).
Proof.
  induction d as [|[k0 v0] d IH]; simpl; intros Hnd.
  - intros [[= <- <-]|[]]. left. auto.
  - apply NoDup_cons in Hnd. destruct Hnd as [Hk0 Hnd].
    destruct (bool_decide_reflect (k0 = k)) as [->|Hne]; simpl.
    + intros [[= <- <-]|H]; [left; auto|]. right. split; [|right; exact H].
      intros ->. apply Hk0. apply list_elem_of_In.
      apply (in_map fst) in H. exact H.
    + intros [[= <- <-]|H]; [right; split; [exact Hne|left; reflexivity]|].
      destruct (IH Hnd H) as [?|[? ?]]; [left; assumption|right; auto].
Qed.

Lemma odict_get_In' {V} (k : string) (v v' : V) (d : list (string * V)) :
  NoDup (map fst d) -> In (k, v) d -> In (k, v') d -> v = v'.
Proof.
  induction d as [|[k0 v0] d IH]; simpl; intros Hnd; [intros []|].
  apply NoDup_cons in Hnd. destruct Hnd as [Hk0 Hnd].
  assert (Hno : forall x, In (k0, x) d -> False).
  { intros x Hx. apply Hk0. apply list_elem_of_In. apply (in_map fst) in Hx. exact Hx. }
  intros [[= <- <-]|H1] [[= <-]|H2].
  - reflexivity.
  - destruct (Hno _ H2).
  - subst. destruct (Hno _ H1).
  - apply IH; assumption.
Qed.


(** *** Comparing scores *)

Lemma Qle_bool_false (x y : Q) : Qle_bool x y = false -> Qle_bool y x = true.
Proof.
  intros H. apply Qle_bool_iff. apply Qlt_le_weak. apply Qnot_le_lt.
  intros Hle. apply Qle_bool_iff in Hle. congruence.
Qed.

Lemma float_le_refl (a : PyFloat) : a <> NaN -> float_le a a = true.
Proof.
  destruct a; simpl; intros H; try reflexivity; [|contradiction].
  apply Qle_bool_iff. apply Qle_refl.
Qed.

Lemma float_le_trans (a b c : PyFloat) :
  float_le a b = true -> float_le b c = true -> float_le a c = true.
Proof.
  destruct a, b, c; simpl; try discriminate; try reflexivity.
  rewrite !Qle_bool_iff. apply Qle_trans.
Qed.

Lemma float_le_total (a b : PyFloat) :
  a <> NaN -> b <> NaN -> float_le a b = false -> float_le b a = true.
Proof.
  destruct a, b; simpl; intros Ha Hb; try discriminate; try reflexivity;
    try contradiction.
  apply Qle_bool_false.
Qed.

Lemma float_gt_le (a b : PyFloat) : float_gt a b = true -> float_le b a = true.
Proof.
  unfold float_gt. destruct a, b; simpl; try discriminate; try reflexivity.
  intros H. apply Qle_bool_false. apply negb_true_iff. exact H.
Qed.

Lemma float_not_gt_le (a b : PyFloat) :
  a <> NaN -> b <> NaN -> float_gt a b = false -> float_le a b = true.
Proof.
  unfold float_gt. destruct a, b; simpl; intros Ha Hb; try discriminate;
    try reflexivity; try contradiction.
  intros H. apply negb_false_iff. exact H.
Qed.

Lemma keep_best_grouped groups seen chunk :
  grouped groups seen -> grouped (keep_best groups chunk) (seen ++ [chunk]).
Proof.
  intros (Hnd & Hbest & Hall). unfold keep_best.
  assert (Hset : (forall c', In c' seen -> cr_document_id c' = cr_document_id chunk ->
                             cr_score chunk <> NaN -> cr_score c' <> NaN ->
                             float_le (cr_score c') (cr_score chunk) = true) ->
                 grouped (odict_set (cr_document_id chunk) chunk groups)
                   (seen ++ [chunk])).
  { intros Hmax. split; [apply odict_set_keys; exact Hnd|]. split.
    - intros id c Hin. apply odict_set_In in Hin; [|exact Hnd].
      destruct Hin as [[-> ->]|[Hne Hin]].
      + split; [reflexivity|]. split; [apply in_or_app; right; left; reflexivity|].
        intros c' Hc' Hid Hc Hnan. apply in_app_or in Hc'.
        destruct Hc' as [Hc'|[<-|[]]].
        * apply Hmax; assumption.
        * apply float_le_refl. exact Hc.
      + destruct (Hbest _ _ Hin) as (Hid & Hseen & Hmax').
        split; [exact Hid|]. split; [apply in_or_app; left; exact Hseen|].
        intros c' Hc' Hid'. apply in_app_or in Hc'. destruct Hc' as [Hc'|[<-|[]]].
        * apply Hmax'; assumption.
        * congruence.
    - intros c Hc. rewrite odict_get_set.
      destruct (bool_decide_reflect (cr_document_id chunk = cr_document_id c));
        [discriminate|].
      apply in_app_or in Hc. destruct Hc as [Hc|[<-|[]]]; [|congruence].
      apply Hall. exact Hc. }
  destruct (odict_get (cr_document_id chunk) groups) as [best|] eqn:Hget.
  - apply odict_get_In in Hget as Hin. destruct (Hbest _ _ Hin) as (Hid & Hseen & Hmax).
    destruct (float_gt (cr_score chunk) (cr_score best)) eqn:Hgt.
    + apply Hset. intros c' Hc' Hid' _ Hnan.
      apply float_le_trans with (cr_score best); [|apply float_gt_le; exact Hgt].
      apply Hmax; [assumption|assumption| |exact Hnan].
      intros Hb. rewrite Hb in Hgt. unfold float_gt in Hgt.
      destruct (cr_score chunk); discriminate Hgt.
    + split; [exact Hnd|]. split.
      * intros id c Hc. destruct (Hbest _ _ Hc) as (Hid' & Hseen' & Hmax').
        split; [exact Hid'|]. split; [apply in_or_app; left; exact Hseen'|].
        intros c' Hc' Hid'' Hcn Hnan. apply in_app_or in Hc'.
        destruct Hc' as [Hc'|[<-|[]]].
        -- apply Hmax'; assumption.
        -- assert (c = best) as ->.
           { apply odict_get_In' with (k := id) (d := groups); [exact Hnd|exact Hc|].
             rewrite <- Hid''. exact Hin. }
           apply float_not_gt_le; assumption.
      * intros c Hc. apply in_app_or in Hc. destruct Hc as [Hc|[<-|[]]].
        -- apply Hall. exact Hc.
        -- rewrite Hget. discriminate.
  - apply Hset. intros c' Hc' Hid'. exfalso. apply (Hall _ Hc'). rewrite Hid'. exact Hget.
Qed.

Lemma group_by_document_grouped chunks : grouped (group_by_document chunks) chunks.
Proof.
  unfold group_by_document.
  assert (H : forall l groups seen,
             grouped groups seen -> grouped (fold_left keep_best l groups) (seen ++ l)).
  { induction l as [|c l IH]; simpl; intros groups seen Hg.
    - rewrite app_nil_r. exact Hg.
    - replace (seen ++ c :: l) with ((seen ++ [c]) ++ l)
        by (rewrite <- app_assoc; reflexivity).
      apply IH. apply keep_best_grouped. exact Hg. }
  apply (H chunks [] []). split; [constructor|]. split; [intros ? ? []|intros ? []].
Qed.

Lemma odict_set_length {V} (k : string) (v : V) (d : list (string * V)) :
  (length (odict_set k v d) <= S (length d))%nat.
Proof.
  induction d as [|[k0 v0] d IH]; simpl; [lia|].
  destruct (bool_decide (k0 = k)); simpl; lia.
Qed.

Lemma group_by_document_length chunks :
  (length (group_by_document chunks) <= length chunks)%nat.
Proof.
  unfold group_by_document.
  assert (H : forall l groups,
             (length (fold_left keep_best l groups) <= length groups + length l)%nat).
  { induction l as [|c l IH]; simpl; intros groups; [lia|].
    specialize (IH (keep_best groups c)).
    assert (length (keep_best groups c) <= S (length groups))%nat; [|lia].
    unfold keep_best.
    pose proof (odict_set_length (cr_document_id c) c groups).
    destruct (odict_get _ groups); [destruct (float_gt _ _)|]; lia. }
  apply (H chunks []).
Qed.

Lemma run_bind_inr {W A B} (h : Handler W) (p : Prog A) (f : A -> Prog B)
    (w : W) b w' tr :
  run h (bind p f) w = (inr b, w', tr) ->
  exists a w1 t1 t2,
    run h p w = (inr a, w1, t1) /\ run h (f a) w1 = (inr b, w', t2)
    /\ tr = t1 ++ t2.
Proof.
  rewrite run_bind. destruct (run h p w) as [[[e|a] w1] t1]; [discriminate|].
  destruct (run h (f a) w1) as [[out w2] t2] eqn:E. intros [= -> -> <-].
  exists a, w1, t1, t2. auto.
Qed.

(** The second loop: the results keep one entry per document id; an entry
    that was not there before is made from a group whose document the
    database answered, with the group's id and the score of its chunk, and
    for a text document with the chunk's content. *)
Lemma document_results_loop_spec {W} (h : Handler W) (auth : AuthObject)
    (groups : list (string * ChunkResult)) :
  forall (results : list (string * DocumentResult)) (w : W) out w' tr,
    run h (document_results_loop auth groups results) w = (inr out, w', tr) ->
    (length out <= length results + length groups)%nat
    /\ (NoDup (map fst results) -> NoDup (map fst out))
    /\ (forall id d, In (id, d) out ->
          In (id, d) results
          \/ exists c doc,
               In (id, c) groups
               /\ In (Answered (GetDocument id auth) (inr (Some doc))) tr
               /\ dr_document_id d = id /\ dr_score d = cr_score c
               /\ dr_metadata d = metadata doc
               /\ (content_type doc = "text/plain" ->
                   dr_content d = {| content_kind := "string";
                                     content_value := cr_content c;
                                     content_filename := None |})).
Proof.
  induction groups as [|[doc_id chunk] rest IH]; intros results w out w' tr Hrun.
  - simpl in Hrun. injection Hrun as <- _ _. simpl.
    split; [lia|]. split; [auto|]. intros id d Hin. left. exact Hin.
  - cbn [document_results_loop] in Hrun. bind_unfold.
    apply run_bind_inr in Hrun. destruct Hrun as (doc & w1 & t1 & t2 & Hget & Hrun & ->).
    unfold await in Hget. cbn [run] in Hget.
    destruct (h (GetDocument doc_id auth) w) as [[e|doc0] w0]; [discriminate|].
    injection Hget as <- <- <-.
    destruct doc0 as [doc|].
    + apply run_bind_inr in Hrun.
      destruct Hrun as (content & w2 & t3 & t4 & Hcontent & Hrun & ->).
      destruct (IH _ _ _ _ _ Hrun) as (Hlen & Hnd & Hent).
      pose proof (odict_set_length doc_id
                    {| dr_score := cr_score chunk; dr_document_id := doc_id;
                       dr_metadata := metadata doc; dr_content := content;
                       dr_additional_metadata := additional_metadata doc |}
                    results) as Hl.
      split; [simpl; lia|]. split.
      * intros H. apply Hnd. apply odict_set_keys. exact H.
      * intros id d Hin. destruct (Hent _ _ Hin) as [Hold|(c & doc' & Hc & Htr & Hrest)].
        -- assert (Hcase : (id = doc_id /\ d = {| dr_score := cr_score chunk;
                               dr_document_id := doc_id;
                               dr_metadata := metadata doc; dr_content := content;
                               dr_additional_metadata := additional_metadata doc |})
                           \/ In (id, d) results).
           { clear -Hold. induction results as [|[k0 v0] results IHr]; simpl in Hold.
             - destruct Hold as [[= <- <-]|[]]. left. auto.
             - destruct (bool_decide (k0 = doc_id)); simpl in Hold.
               + destruct Hold as [[= <- <-]|H]; [left; auto|right; right; exact H].
               + destruct Hold as [[= <- <-]|H]; [right; left; reflexivity|].
                 destruct (IHr H) as [?|?]; [left; assumption|right; right; assumption]. }
           destruct Hcase as [[-> ->]|Hres]; [|left; exact Hres].
           right. exists chunk, doc. split; [left; reflexivity|]. split.
           { left. reflexivity. }
           simpl. repeat split; try reflexivity.
           intros Hct. rewrite bool_decide_eq_true_2 in Hcontent by exact Hct.
           simpl in Hcontent. injection Hcontent as <- _ _. reflexivity.
        -- right. exists c, doc'. split; [right; exact Hc|]. split; [|exact Hrest].
           apply in_or_app. right. apply in_or_app. right. exact Htr.
    + destruct (IH _ _ _ _ _ Hrun) as (Hlen & Hnd & Hent).
      split; [simpl; lia|]. split; [exact Hnd|].
      intros id d Hin. destruct (Hent _ _ Hin) as [Hold|(c & doc' & Hc & Htr & Hrest)].
      * left. exact Hold.
      * right. exists c, doc'. split; [right; exact Hc|]. split; [|exact Hrest].
        apply in_or_app. right. exact Htr.
Qed.

(** The second loop leaves out no document that the database answers: a
    key of the results stays one, and every group gets its entry unless
    [get_document] answered [None] for it. *)
Lemma document_results_loop_complete {W} (h : Handler W) (auth : AuthObject)
    (groups : list (string * ChunkResult)) :
  forall (results : list (string * DocumentResult)) (w : W) out w' tr,
    run h (document_results_loop auth groups results) w = (inr out, w', tr) ->
    (forall id, odict_get id results <> None -> odict_get id out <> None)
    /\ (forall id c, In (id, c) groups ->
          odict_get id out <> None
          \/ In (Answered (GetDocument id auth) (inr None)) tr).
Proof.
  induction groups as [|[doc_id chunk] rest IH]; intros results w out w' tr Hrun.
  - simpl in Hrun. injection Hrun as <- _ _. split; [auto|intros id c []].
  - cbn [document_results_loop] in Hrun. bind_unfold.
    apply run_bind_inr in Hrun. destruct Hrun as (doc & w1 & t1 & t2 & Hget & Hrun & ->).
    unfold await in Hget. cbn [run] in Hget.
    destruct (h (GetDocument doc_id auth) w) as [[e|doc0] w0]; [discriminate|].
    injection Hget as <- <- <-. destruct doc0 as [doc|].
    + apply run_bind_inr in Hrun.
      destruct Hrun as (content & w2 & t3 & t4 & _ & Hrun & ->).
      destruct (IH _ _ _ _ _ Hrun) as (Hkeys & Hgroups).
      assert (Hset : forall id, odict_get id results <> None \/ id = doc_id ->
                                odict_get id out <> None).
      { intros id Hid. apply Hkeys. rewrite odict_get_set.
        destruct (bool_decide_reflect (doc_id = id)) as [_|Hne]; [discriminate|].
        destruct Hid as [Hid|Hid]; [exact Hid|congruence]. }
      split; [intros id Hid; apply Hset; left; exact Hid|].
      intros id c [[= <- <-]|Hin].
      * left. apply Hset. right. reflexivity.
      * destruct (Hgroups _ _ Hin) as [Hkey|Hnone]; [left; exact Hkey|].
        right. simpl. right. apply in_or_app. right. exact Hnone.
    + destruct (IH _ _ _ _ _ Hrun) as (Hkeys & Hgroups).
      split; [exact Hkeys|].
      intros id c [[= <- <-]|Hin].
      * right. left. reflexivity.
      * destruct (Hgroups _ _ Hin) as [Hkey|Hnone]; [left; exact Hkey|].
        right. right. exact Hnone.
Qed.

Lemma create_document_results_entries {W} (h : Handler W) (auth : AuthObject)
    (chunks : list ChunkResult) (w : W) out w' tr :
  run h (_create_document_results auth chunks) w = (inr out, w', tr) ->
  NoDup (map fst out)
  /\ (length out <= length chunks)%nat
  /\ (forall c, In c chunks ->
        (exists d, odict_get (cr_document_id c) out = Some d)
        \/ In (Answered (GetDocument (cr_document_id c) auth) (inr None)) tr)
  /\ forall id d, In (id, d) out ->
       exists c doc,
         In c chunks /\ cr_document_id c = id
         /\ (forall c', In c' chunks -> cr_document_id c' = id ->
                        cr_score c <> NaN -> cr_score c' <> NaN ->
                        float_le (cr_score c') (cr_score c) = true)
         /\ In (Answered (GetDocument id auth) (inr (Some doc))) tr
         /\ dr_document_id d = id /\ dr_score d = cr_score c
         /\ dr_metadata d = metadata doc
         /\ (content_type doc = "text/plain" ->
             dr_content d = {| content_kind := "string";
                               content_value := cr_content c;
                               content_filename := None |}).
Proof.
  unfold _create_document_results. intros Hrun.
  destruct (document_results_loop_spec _ _ _ _ _ _ _ _ Hrun) as (Hlen & Hnd & Hent).
  destruct (document_results_loop_complete _ _ _ _ _ _ _ _ Hrun) as (_ & Hcomplete).
  destruct (group_by_document_grouped chunks) as (_ & Hbest & Hall).
  pose proof (group_by_document_length chunks) as Hgl.
  split; [apply Hnd; constructor|]. split; [simpl in Hlen; lia|]. split.
  - intros c Hc.
    destruct (odict_get (cr_document_id c) (group_by_document chunks)) as [best|]
      eqn:Hget; [|exfalso; exact (Hall c Hc Hget)].
    apply odict_get_In in Hget.
    destruct (Hcomplete _ _ Hget) as [Hkey|Hnone]; [left|right; exact Hnone].
    destruct (odict_get (cr_document_id c) out) as [d|]; [exists d; reflexivity|].
    contradiction.
  - intros id d Hin.
    destruct (Hent _ _ Hin) as [[]|(c & doc & Hc & Htr & Hid & Hscore & Hmeta & Htext)].
    destruct (Hbest _ _ Hc) as (Hcid & Hseen & Hmax).
    exists c, doc. repeat split; assumption.
Qed.

(** X8: [_create_document_results] answers a dict with one entry per
    document id, and an entry for the document of every chunk unless
    [get_document] answered [None] for that document.  The entry of a
    document carries that id, the metadata of the document answered, and
    the score of one chunk of the document; when that score is not NaN, no
    chunk of the document whose score is not NaN outscores it.  For a text
    document the content is that chunk's content. *)
Theorem create_document_results_best_chunk {W} (h : Handler W) (auth : AuthObject)
    (chunks : list ChunkResult) (w : W) out w' tr :
  run h (_create_document_results auth chunks) w = (inr out, w', tr) ->
  NoDup (map fst out)
  /\ (forall c, In c chunks ->
        (exists d, odict_get (cr_document_id c) out = Some d)
        \/ In (Answered (GetDocument (cr_document_id c) auth) (inr None)) tr)
  /\ forall id d, In (id, d) out ->
       dr_document_id d = id
       /\ exists c doc,
            In c chunks /\ cr_document_id c = id
            /\ In (Answered (GetDocument id auth) (inr (Some doc))) tr
            /\ dr_score d = cr_score c
            /\ dr_metadata d = metadata doc
            /\ (forall c', In c' chunks -> cr_document_id c' = id ->
                           dr_score d <> NaN -> cr_score c' <> NaN ->
                           float_le (cr_score c') (dr_score d) = true)
            /\ (content_type doc = "text/plain" ->
                content_kind (dr_content d) = "string"
                /\ content_value (dr_content d) = cr_content c).
Proof.
  intros Hrun.
  destruct (create_document_results_entries _ _ _ _ _ _ _ Hrun)
    as (Hnd & _ & Hcomplete & Hent).
  split; [exact Hnd|]. split; [exact Hcomplete|]. intros id d Hin.
  destruct (Hent _ _ Hin)
    as (c & doc & Hc & Hcid & Hmax & Htr & Hid & Hscore & Hmeta & Htext).
  split; [exact Hid|]. exists c, doc.
  split; [exact Hc|]. split; [exact Hcid|]. split; [exact Htr|].
  split; [exact Hscore|]. split; [exact Hmeta|]. split.
  - rewrite Hscore. exact Hmax.
  - intros Hct. rewrite (Htext Hct). split; reflexivity.
Qed.

(** X9: [retrieve_docs] answers at most one result per document and no
    more results than [retrieve_chunks] answers chunks; each result has the
    score of a chunk retrieved for its document, and when that score is not
    NaN, no chunk retrieved for the document whose score is not NaN
    outscores it. *)
Theorem retrieve_docs_one_result_per_document {W} (h : Handler W)
    (self : DocumentService) (query : string) (auth : AuthObject)
    (filters : option PyDict) (k : Z) (min_score : Q)
    (use_reranking : option bool) (w : W) out w' tr :
  run h (retrieve_docs self query auth filters k min_score use_reranking) w
    = (inr out, w', tr) ->
  NoDup (map dr_document_id out)
  /\ exists chunks w1 t1,
       run h (retrieve_chunks self query auth filters k min_score use_reranking) w
         = (inr chunks, w1, t1)
       /\ (length out <= length chunks)%nat
       /\ forall d, In d out ->
            exists c, In c chunks /\ cr_document_id c = dr_document_id d
                      /\ dr_score d = cr_score c
                      /\ forall c', In c' chunks ->
                                    cr_document_id c' = dr_document_id d ->
                                    dr_score d <> NaN -> cr_score c' <> NaN ->
                                    float_le (cr_score c') (dr_score d) = true.
Proof.
  unfold retrieve_docs. bind_unfold. intros Hrun.
  apply run_bind_inr in Hrun. destruct Hrun as (chunks & w1 & t1 & t2 & Hchunks & Hrun & ->).
  apply run_bind_inr in Hrun. destruct Hrun as (results & w2 & t3 & t4 & Hres & Hret & ->).
  simpl in Hret. injection Hret as <- _ _.
  destruct (create_document_results_entries _ _ _ _ _ _ _ Hres)
    as (Hnd & Hlen & _ & Hent).
  assert (Hkeys : map dr_document_id (map snd results) = map fst results).
  { rewrite map_map. apply map_ext_in. intros [id d] Hin.
    destruct (Hent _ _ Hin) as (c & doc & _ & _ & _ & _ & Hid & _). exact Hid. }
  split; [rewrite Hkeys; exact Hnd|].
  exists chunks, w1, t1. split; [exact Hchunks|].
  split; [rewrite length_map; exact Hlen|].
  intros d Hd. apply in_map_iff in Hd. destruct Hd as ([id d'] & <- & Hin).
  destruct (Hent _ _ Hin) as (c & doc & Hc & Hcid & Hmax & _ & Hid & Hscore & _).
  simpl. exists c. rewrite Hid, Hscore.
  split; [exact Hc|]. split; [exact Hcid|]. split; [reflexivity|exact Hmax].
Qed.

Lemma document_results_loop_reads {W} (h : Handler W) (auth : AuthObject)
    (groups : list (string * ChunkResult)) :
  forall results w,
    forallb reads
      (calls (snd (run h (document_results_loop auth groups results) w))) = true.
Proof.
  induction groups as [|[doc_id chunk] rest IH]; intros results.
  - intros w. reflexivity.
  - cbn [document_results_loop]. bind_unfold.
    apply calls_bind;
      [apply (calls_await h _ (GetDocument doc_id auth)); reflexivity|].
    intros [doc|]; [|apply IH].
    apply calls_bind; [|intros content; apply IH].
    destruct (bool_decide (content_type doc = "text/plain")); [intros w; reflexivity|].
    apply calls_bind; [apply calls_getitem|]. intros bucket.
    apply calls_bind; [apply calls_getitem|]. intros key.
    apply calls_bind;
      [apply (calls_await h _ (GetDownloadUrl bucket key)); reflexivity|].
    intros url w. reflexivity.
Qed.

(** X6: retrieval only reads.  Whatever the adapters answer, and whether it
    returns or raises, [retrieve_chunks] and [retrieve_docs] call no method
    that writes to the database, the vector store or the storage. *)
Theorem retrieval_makes_no_store_write {W} (h : Handler W)
    (self : DocumentService) (query : string) (auth : AuthObject)
    (filters : option PyDict) (k : Z) (min_score : Q)
    (use_reranking : option bool) (w : W) :
  forallb reads
    (calls (snd (run h (retrieve_chunks self query auth filters k min_score
                          use_reranking) w))) = true
  /\ forallb reads
       (calls (snd (run h (retrieve_docs self query auth filters k min_score
                             use_reranking) w))) = true.
Proof.
  split; [apply retrieve_chunks_reads|].
  revert w. unfold retrieve_docs, _create_document_results. bind_unfold.
  apply calls_bind; [apply retrieve_chunks_reads|]. intros chunks.
  apply calls_bind; [apply document_results_loop_reads|].
  intros results w. reflexivity.
Qed.

Lemma create_document_results_best_chunk_witness :
  let hello := {| cr_content := "hello"; cr_score := Finite 0.5; cr_document_id := "doc-0";
                  cr_chunk_number := 0; cr_metadata := ∅;
                  cr_content_type := "text/plain"; cr_filename := None;
                  cr_download_url := None |} in
  let world := {| cr_content := "world!"; cr_score := Finite 0.75; cr_document_id := "doc-0";
                  cr_chunk_number := 1; cr_metadata := ∅;
                  cr_content_type := "text/plain"; cr_filename := None;
                  cr_download_url := None |} in
  exists out w' tr,
    run Reference.env (_create_document_results Sample.alice [hello; world])
        Sample.library = (inr out, w', tr)
    /\ map fst out = ["doc-0"]
    /\ NoDup (map fst out).
Proof.
  intros hello world. eexists _, _, _. split; [vm_compute; reflexivity|].
  split; [reflexivity|].
  refine (proj1 (create_document_results_best_chunk Reference.env Sample.alice
                   [hello; world] Sample.library _ _ _ _)).
  vm_compute. reflexivity.
Defined.

Lemma retrieve_docs_one_result_per_document_witness :
  exists out w' tr,
    run Reference.env
        (retrieve_docs (mkService false false) "hello" Sample.alice None 2 0%Q None)
        Sample.library = (inr out, w', tr)
    /\ length out = 1%nat
    /\ NoDup (map dr_document_id out).
Proof.
  eexists _, _, _. split; [vm_compute; reflexivity|]. split; [reflexivity|].
  refine (proj1 (retrieve_docs_one_result_per_document Reference.env
                   (mkService false false) "hello" Sample.alice None 2 0%Q None
                   Sample.library _ _ _ _)).
  vm_compute. reflexivity.
Defined.

(** ** Chunk results *)

(** The loop of [_create_chunk_results] goes through the chunks in order;
    a chunk whose document is not answered is left out. *)
Lemma create_chunk_results_kept {W} (h : Handler W) (auth : AuthObject)
    (chunks : list DocumentChunk) (w : W) out w' tr :
  run h (_create_chunk_results auth chunks) w = (inr out, w', tr) ->
  exists kept,
    sublist kept chunks
    /\ Forall2
         (fun c r =>
            cr_content r = content c /\ cr_score r = score c
            /\ cr_document_id r = document_id c
            /\ cr_chunk_number r = chunk_number c
            /\ exists doc,
                 In (Answered (GetDocument (document_id c) auth) (inr (Some doc))) tr
                 /\ cr_metadata r = metadata doc
                 /\ cr_content_type r = content_type doc
                 /\ cr_filename r = filename doc)
         kept out.
Proof.
  unfold _create_chunk_results.
  set (P := fun (tr : list Event) (c : DocumentChunk) (r : ChunkResult) =>
            cr_content r = content c /\ cr_score r = score c
            /\ cr_document_id r = document_id c
            /\ cr_chunk_number r = chunk_number c
            /\ exists doc,
                 In (Answered (GetDocument (document_id c) auth) (inr (Some doc))) tr
                 /\ cr_metadata r = metadata doc
                 /\ cr_content_type r = content_type doc
                 /\ cr_filename r = filename doc).
  assert (Hmono : forall t1 t2 c r,
             (forall e, In e t1 -> In e t2) -> P t1 c r -> P t2 c r).
  { intros t1 t2 c r Hsub (H1 & H2 & H3 & H4 & doc & Hin & H5).
    repeat (split; [assumption|]). exists doc. split; [apply Hsub; exact Hin|exact H5]. }
  assert (Hloop : forall chunks results w out w' tr,
             run h (create_chunk_results_loop auth chunks results) w = (inr out, w', tr) ->
             exists kept more,
               out = results ++ more /\ sublist kept chunks
               /\ Forall2 (P tr) kept more).
  { clear -Hmono. induction chunks as [|chunk rest IH]; intros results w out w' tr Hrun.
    - simpl in Hrun. injection Hrun as <- _ <-. exists [], [].
      rewrite app_nil_r. repeat split; constructor.
    - cbn [create_chunk_results_loop] in Hrun. bind_unfold.
      apply run_bind_inr in Hrun.
      destruct Hrun as (doc0 & w1 & t1 & t2 & Hget & Hrun & ->).
      unfold await in Hget. cbn [run] in Hget.
      destruct (h (GetDocument (document_id chunk) auth) w) as [[e|doc1] w0];
        [discriminate|].
      injection Hget as <- <- <-. destruct doc1 as [doc|].
      + apply run_bind_inr in Hrun.
        destruct Hrun as (url & w2 & t3 & t4 & _ & Hrun & ->).
        destruct (IH _ _ _ _ _ Hrun) as (kept & more & -> & Hsub & Hall).
        eexists (chunk :: kept), (_ :: more). rewrite <- app_assoc. simpl.
        split; [reflexivity|]. split; [apply sublist_skip; exact Hsub|].
        constructor.
        * simpl. repeat (split; [reflexivity|]). exists doc.
          split; [left; reflexivity|auto].
        * eapply Forall2_impl; [exact Hall|]. intros c r. apply Hmono.
          intros e He. right. apply in_or_app. right. exact He.
      + destruct (IH _ _ _ _ _ Hrun) as (kept & more & -> & Hsub & Hall).
        exists kept, more. split; [reflexivity|].
        split; [apply sublist_cons; exact Hsub|].
        eapply Forall2_impl; [exact Hall|]. intros c r. apply Hmono.
        intros e He. right. exact He. }
  intros Hrun. destruct (Hloop _ _ _ _ _ _ Hrun) as (kept & more & -> & Hsub & Hall).
  exists kept. split; [exact Hsub|exact Hall].
Qed.

(** X7: [_create_chunk_results] keeps the order of the chunks and drops
    only chunks; each result copies the content, score, document id and
    chunk number of its chunk, and the metadata, content type and file name
    of the document that [get_document] answered for that id and caller. *)
Theorem create_chunk_results_in_order {W} (h : Handler W) (auth : AuthObject)
    (chunks : list DocumentChunk) (w : W) out w' tr :
  run h (_create_chunk_results auth chunks) w = (inr out, w', tr) ->
  exists kept,
    sublist kept chunks
    /\ Forall2
         (fun c r =>
            cr_content r = content c /\ cr_score r = score c
            /\ cr_document_id r = document_id c
            /\ cr_chunk_number r = chunk_number c
            /\ exists doc,
                 In (Answered (GetDocument (document_id c) auth) (inr (Some doc))) tr
                 /\ cr_metadata r = metadata doc
                 /\ cr_content_type r = content_type doc
                 /\ cr_filename r = filename doc)
         kept out.
Proof. exact (create_chunk_results_kept h auth chunks w out w' tr). Qed.

Lemma create_chunk_results_in_order_witness :
  exists out w' tr,
    run Reference.env (_create_chunk_results Sample.alice [Sample.c0; Sample.c1])
        Sample.library = (inr out, w', tr)
    /\ exists kept, sublist kept [Sample.c0; Sample.c1]
                    /\ map content kept = map cr_content out.
Proof.
  eexists _, _, _. split; [vm_compute; reflexivity|].
  destruct (create_chunk_results_in_order Reference.env Sample.alice
              [Sample.c0; Sample.c1] Sample.library _ _ _ eq_refl)
    as (kept & Hsub & Hall).
  exists kept. split; [exact Hsub|].
  eapply Forall2_ind with (P := fun kept out => map content kept = map cr_content out);
    [reflexivity| |exact Hall].
  intros c r l l' (Hc & _) _ IH. simpl. rewrite Hc, IH. reflexivity.
Defined.

(** ** Completion requests *)

Lemma augmented_contents_returns {W} (h : Handler W)
    (augmented_content : ChunkResult -> DocumentResult -> string)
    (documents : list (string * DocumentResult)) (chunks : list ChunkResult)
    (w : W) :
  forall passages w' tr,
    run h (augmented_contents augmented_content documents chunks) w
      = (inr passages, w', tr) ->
    w' = w /\ tr = []
    /\ Forall2 (fun c p => exists d, odict_get (cr_document_id c) documents = Some d
                                     /\ p = augmented_content c d)
               chunks passages.
Proof.
  induction chunks as [|c rest IH]; intros passages w' tr Hrun.
  - simpl in Hrun. injection Hrun as <- <- <-. repeat split. constructor.
  - cbn [augmented_contents] in Hrun.
    destruct (odict_get (cr_document_id c) documents) as [d|] eqn:Hd;
      [|discriminate Hrun].
    bind_unfold. apply run_bind_inr in Hrun.
    destruct Hrun as (ps & w1 & t1 & t2 & Hrest & Hret & ->).
    simpl in Hret. injection Hret as <- <- <-.
    destruct (IH _ _ _ Hrest) as (-> & -> & Hall).
    repeat split. constructor; [exists d; auto|exact Hall].
Qed.

Lemma augmented_contents_missing {W} (h : Handler W)
    (augmented_content : ChunkResult -> DocumentResult -> string)
    (documents : list (string * DocumentResult)) (chunks : list ChunkResult)
    (w : W) :
  (exists c, In c chunks /\ odict_get (cr_document_id c) documents = None) ->
  exists id,
    run h (augmented_contents augmented_content documents chunks) w
      = (inl (mkExn KeyError id), w, [])
    /\ odict_get id documents = None.
Proof.
  induction chunks as [|c rest IH]; intros (c0 & Hin & Hnone); [destruct Hin|].
  cbn [augmented_contents].
  destruct (odict_get (cr_document_id c) documents) as [d|] eqn:Hd.
  - destruct Hin as [->|Hin]; [congruence|].
    destruct (IH (ex_intro _ c0 (conj Hin Hnone))) as (id & Hrun & Hid).
    exists id. split; [|exact Hid]. bind_unfold. rewrite run_bind, Hrun. reflexivity.
  - exists (cr_document_id c). split; [reflexivity|exact Hd].
Qed.

(** X10: the request [query] builds carries the query text, [max_tokens]
    and [temperature] as given, and one context passage per chunk that
    [retrieve_chunks] answered, in the same order: the passage of a chunk is
    made from the chunk and from [documents[chunk.document_id]], the entry
    under the chunk's document id in the dict that
    [_create_document_results] answered for those chunks.  Nothing is called
    after these two steps. *)
Theorem query_request_passages {W} (h : Handler W)
    (augmented_content : ChunkResult -> DocumentResult -> string)
    (self : DocumentService) (query : string) (auth : AuthObject)
    (filters : option PyDict) (k : Z) (min_score : Q) (max_tokens' : option Z)
    (temperature' : option Q) (use_reranking : option bool) (w : W) req w' tr :
  run h (query_request augmented_content self query auth filters k min_score
           max_tokens' temperature' use_reranking) w = (inr req, w', tr) ->
  request_query req = query /\ max_tokens req = max_tokens'
  /\ temperature req = temperature'
  /\ exists chunks w1 t1 documents t2,
       run h (retrieve_chunks self query auth filters k min_score use_reranking) w
         = (inr chunks, w1, t1)
       /\ run h (_create_document_results auth chunks) w1 = (inr documents, w', t2)
       /\ tr = t1 ++ t2
       /\ Forall2 (fun c p =>
                     exists d, odict_get (cr_document_id c) documents = Some d
                               /\ p = augmented_content c d)
                  chunks (context_chunks req).
Proof.
  unfold query_request. bind_unfold. intros Hrun.
  apply run_bind_inr in Hrun. destruct Hrun as (chunks & w1 & t1 & t2 & Hchunks & Hrun & ->).
  apply run_bind_inr in Hrun. destruct Hrun as (docs & w2 & t3 & t4 & Hdocs & Hrun & ->).
  apply run_bind_inr in Hrun. destruct Hrun as (ps & w3 & t5 & t6 & Hps & Hret & ->).
  simpl in Hret. injection Hret as <- <- <-. simpl.
  destruct (augmented_contents_returns _ _ _ _ _ _ _ _ Hps) as (-> & -> & Hall).
  repeat (split; [reflexivity|]). exists chunks, w1, t1, docs, t3.
  split; [exact Hchunks|]. split; [exact Hdocs|].
  split; [rewrite !app_nil_r; reflexivity|exact Hall].
Qed.

Lemma query_request_passages_witness :
  exists req w' tr,
    run Reference.env
        (query_request (fun c d => cr_content c) (mkService false false) "hello"
           Sample.alice None 2 0%Q (Some 100%Z) None None)
        Sample.library = (inr req, w', tr)
    /\ request_query req = "hello" /\ length (context_chunks req) = 2%nat.
Proof.
  eexists _, _, _. split; [vm_compute; reflexivity|]. split; [|reflexivity].
  refine (proj1 (query_request_passages Reference.env (fun c d => cr_content c)
                   (mkService false false) "hello" Sample.alice None 2 0%Q
                   (Some 100%Z) None None Sample.library _ _ _ _)).
  vm_compute. reflexivity.
Defined.

(** X11: when a chunk that was retrieved has no document result, because
    [get_document] no longer answers its document while the results are
    grouped, [query] raises [KeyError] and the completion model is not
    called. *)
Theorem query_missing_document_key_error {W R} (h : Handler W)
    (augmented_content : ChunkResult -> DocumentResult -> string)
    (complete : CompletionRequest -> Prog R)
    (self : DocumentService) (query' : string) (auth : AuthObject)
    (filters : option PyDict) (k : Z) (min_score : Q) (max_tokens' : option Z)
    (temperature' : option Q) (use_reranking : option bool)
    (w : W) chunks w1 t1 docs w2 t2 :
  run h (retrieve_chunks self query' auth filters k min_score use_reranking) w
    = (inr chunks, w1, t1) ->
  run h (_create_document_results auth chunks) w1 = (inr docs, w2, t2) ->
  (exists c, In c chunks /\ odict_get (cr_document_id c) docs = None) ->
  exists id,
    run h (query augmented_content complete self query' auth filters k min_score
             max_tokens' temperature' use_reranking) w
      = (inl (mkExn KeyError id), w2, t1 ++ t2)
    /\ odict_get id docs = None.
Proof.
  intros Hchunks Hdocs Hmiss.
  destruct (augmented_contents_missing h augmented_content docs chunks w2 Hmiss)
    as (id & Hrun & Hid).
  exists id. split; [|exact Hid].
  unfold query, query_request. bind_unfold.
  rewrite !run_bind, Hchunks. rewrite !run_bind, Hdocs. rewrite !run_bind, Hrun.
  rewrite app_nil_r. reflexivity.
Qed.

Lemma query_missing_document_key_error_witness :
  exists id w2 tr,
    run Sample.env_vanishing
        (query (fun c d => cr_content c) (fun req => Ret (context_chunks req))
           (mkService false false) "hello" Sample.alice None 2 0%Q None None None)
        (Sample.library, false)
    = (inl (mkExn KeyError id), w2, tr).
Proof.
  edestruct (query_missing_document_key_error Sample.env_vanishing
               (fun c d => cr_content c) (fun req => Ret (context_chunks req))
               (mkService false false) "hello" Sample.alice None 2 0%Q None None None
               (Sample.library, false)) as (id & Hrun & _).
  - vm_compute. reflexivity.
  - vm_compute. reflexivity.
  - eexists. split; [left; reflexivity|reflexivity].
  - eexists _, _, _. exact Hrun.
Defined.

(** ** Ingestion *)

Lemma calls_getattr {W A} (h : Handler W) (ok : Call -> bool) (attr : option A)
    (name : string) :
  forall w, forallb ok (calls (snd (run h (getattr attr name) w))) = true.
Proof. intros w. destruct attr; reflexivity. Qed.

Lemma calls_no_record (tr : list Event) :
  forallb (fun c => negb (is_store_document c)) (calls tr) = true -> no_record tr.
Proof.
  intros Hall d Hin. apply (in_map called) in Hin.
  rewrite forallb_forall in Hall. specialize (Hall _ Hin). discriminate Hall.
Qed.

Lemma no_record_app (t1 t2 : list Event) :
  no_record t1 -> no_record t2 -> no_record (t1 ++ t2).
Proof.
  intros H1 H2 d Hin. apply in_app_or in Hin. destruct Hin; [eapply H1|eapply H2]; eauto.
Qed.

(** A program that stores no record before [f], and [f] none when it
    raises: the whole stores none when it raises. *)
Lemma raise_no_record_bind {W A B} (h : Handler W) (p : Prog A) (f : A -> Prog B) :
  (forall w, forallb (fun c => negb (is_store_document c))
                     (calls (snd (run h p w))) = true) ->
  (forall a w e w' tr, run h (f a) w = (inl e, w', tr) -> no_record tr) ->
  forall w e w' tr, run h (bind p f) w = (inl e, w', tr) -> no_record tr.
Proof.
  intros Hp Hf w e w' tr. rewrite run_bind. specialize (Hp w).
  destruct (run h p w) as [[[e1|a] w1] t1]; simpl in Hp.
  - intros [= <- <- <-]. apply calls_no_record. exact Hp.
  - destruct (run h (f a) w1) as [[out w2] t2] eqn:E. intros [= -> -> <-].
    apply no_record_app; [apply calls_no_record; exact Hp|].
    eapply Hf. exact E.
Qed.

Lemma raise_no_record_Raise {W A} (h : Handler W) (e0 : exn) :
  forall w e w' tr, run h (Raise e0 : Prog A) w = (inl e, w', tr) -> no_record tr.
Proof. intros w e w' tr [= _ _ <-] d []. Qed.

Lemma store_chunks_and_doc_raise_no_record {W A} (h : Handler W)
    (chunk_objects : list DocumentChunk) (doc : Document)
    (f : list string * Document -> Prog A) :
  (forall x, exists a, f x = Ret a) ->
  forall w e w' tr,
    run h (bind (_store_chunks_and_doc chunk_objects doc) f) w = (inl e, w', tr) ->
    no_record tr.
Proof.
  intros Hf w e w' tr. unfold _store_chunks_and_doc. prog_unfold. cbn [bind run].
  destruct (h (StoreEmbeddings chunk_objects) w) as [[e1|[[|] ids]] w1];
    cbn [negb bind run].
  - intros [= _ _ <-] d [[=]|[]].
  - destruct (h (StoreDocument (set_chunk_ids ids doc)) w1) as [[e2|[|]] w2];
      cbn [negb bind run].
    + intros [= _ _ <-] d [[=]|[Hin|[]]]. inversion Hin.
    + destruct (Hf (ids, set_chunk_ids ids doc)) as (a & ->). discriminate.
    + intros [= _ _ <-] d [[=]|[Hin|[]]].
      apply (f_equal (fun ev => match ev with
                                | Answered (StoreDocument _) (inr b) => b
                                | _ => true
                                end)) in Hin.
      discriminate Hin.
  - intros [= _ _ <-] d [[=]|[]].
Qed.

Ltac no_store_document :=
  first
    [ apply calls_getattr
    | apply calls_getitem
    | match goal with
      | |- context [await ?c] => apply (calls_await _ _ c); reflexivity
      end ].

(** X12: an ingestion that ends in an exception has stored no document
    record: [store_document] is the last step of [ingest_text] and of
    [ingest_file], and nothing raises after it answered [True]. *)
Theorem failed_ingestion_stores_no_record {W} (h : Handler W) (w : W)
    (p : Prog Document) e w' tr :
  (exists content0 metadata0 auth rules,
      p = ingest_text content0 metadata0 auth rules)
  \/ (exists file metadata0 auth rules,
         p = ingest_file file metadata0 auth rules) ->
  run h p w = (inl e, w', tr) ->
  no_record tr.
Proof.
  intros [(content0 & metadata0 & auth & rules & ->)
         |(file & metadata0 & auth & rules & ->)];
    revert w e w' tr.
  - unfold ingest_text, new_document. bind_unfold.
    apply raise_no_record_bind; [no_store_document|]. intros perms.
    destruct (negb (bool_decide ("write" ∈ perms))).
    { apply raise_no_record_bind; [no_store_document|]. intros _.
      apply raise_no_record_Raise. }
    apply raise_no_record_bind; [no_store_document|]. intros etype.
    apply raise_no_record_bind; [no_store_document|]. intros eid.
    apply raise_no_record_bind.
    { apply calls_bind; [no_store_document|]. intros id w. reflexivity. }
    intros doc.
    apply raise_no_record_bind.
    { destruct (list_truthy rules); [|intros w; reflexivity].
      apply calls_bind; [no_store_document|]. intros [rule_metadata modified_text].
      apply calls_bind; [destruct metadata0; intros w; reflexivity|].
      intros md w. reflexivity. }
    intros [doc1 text].
    apply raise_no_record_bind; [no_store_document|]. intros chunks.
    destruct (negb (nonempty chunks)); [apply raise_no_record_Raise|].
    apply raise_no_record_bind; [no_store_document|]. intros embeddings.
    apply store_chunks_and_doc_raise_no_record. intros [ids d]. eexists. reflexivity.
  - unfold ingest_file, new_document. bind_unfold.
    apply raise_no_record_bind; [no_store_document|]. intros perms.
    destruct (negb (bool_decide ("write" ∈ perms))); [apply raise_no_record_Raise|].
    apply raise_no_record_bind; [no_store_document|].
    intros [additional chunks].
    destruct (negb (nonempty chunks)); [apply raise_no_record_Raise|].
    apply raise_no_record_bind.
    { destruct (list_truthy rules); [|intros w; reflexivity].
      apply calls_bind; [no_store_document|]. intros [rule_metadata modified_text].
      destruct (str_truthy modified_text); [|intros w; reflexivity].
      apply calls_bind; [no_store_document|]. intros chunks1.
      destruct (negb (nonempty chunks1)); intros w; reflexivity. }
    intros [[md text] chunks1].
    apply raise_no_record_bind; [no_store_document|]. intros etype.
    apply raise_no_record_bind; [no_store_document|]. intros eid.
    apply raise_no_record_bind.
    { apply calls_bind; [no_store_document|]. intros id w. reflexivity. }
    intros doc.
    apply raise_no_record_bind; [no_store_document|]. intros [bucket key].
    apply raise_no_record_bind; [no_store_document|]. intros embeddings.
    apply store_chunks_and_doc_raise_no_record. intros [ids d]. eexists. reflexivity.
Qed.

Lemma failed_ingestion_stores_no_record_witness :
  exists w' tr,
    run Reference.env (ingest_text "hello" None Sample.writer None)
        (with_uuids 0 Sample.library)
    = (inl (mkExn Exception "Failed to store document metadata"), w', tr)
    /\ no_record tr.
Proof.
  eexists _, _. split; [vm_compute; reflexivity|].
  refine (failed_ingestion_stores_no_record Reference.env
            (with_uuids 0 Sample.library)
            (ingest_text "hello" None Sample.writer None) _ _ _ _ _).
  - left. exists "hello", None, Sample.writer, None. reflexivity.
  - vm_compute. reflexivity.
Defined.

Ltac run_cases h :=
  repeat (cbn [bind run negb nonempty getattr] in *;
          match goal with
          | |- context [h ?c ?w] => destruct (h c w) as [[?|?] ?]
          | |- context [getattr ?x _] => is_var x; destruct x
          | |- context [nonempty ?x] => is_var x; destruct x
          | |- context [negb ?x] => is_var x; destruct x
          | |- context [bool_decide ?P] => destruct (bool_decide P)
          | |- context [list_truthy ?x] => destruct (list_truthy x)
          | |- context [str_truthy ?x] => destruct (str_truthy x) eqn:?
          | |- context [match ?x with _ => _ end] => is_var x; destruct x
          end).

(** X13: when the parser answers with no chunks, for the text, for the
    file or for the text the rules rewrote, the ingestion raises
    [ValueError], and no store was written to. *)
Theorem ingest_no_chunks_value_error {W} (h : Handler W) (w : W)
    (p : Prog Document) :
  (exists content0 metadata0 auth rules,
      p = ingest_text content0 metadata0 auth rules)
  \/ (exists file metadata0 auth rules,
         p = ingest_file file metadata0 auth rules) ->
  let '(out, w', tr) := run h p w in
  existsb no_chunks tr = true ->
  (exists msg, out = inl (mkExn ValueError msg))
  /\ forallb reads (calls tr) = true.
Proof.
  intros [(content0 & metadata0 & auth & rules & ->)
         |(file & metadata0 & auth & rules & ->)].
  - unfold ingest_text, new_document, _store_chunks_and_doc. prog_unfold.
    destruct auth as [uid etype eid perms].
    cbn [permissions entity_type entity_id].
    run_cases h.
    all: cbn; intros H; try discriminate H.
    all: split; [eexists; reflexivity|reflexivity].
  - unfold ingest_file, new_document, _store_chunks_and_doc. prog_unfold.
    destruct auth as [uid etype eid perms].
    cbn [permissions entity_type entity_id].
    run_cases h.
    all: cbn; intros H; try discriminate H.
    all: split; [eexists; reflexivity|reflexivity].
Qed.

Lemma ingest_no_chunks_value_error_witness :
  let '(out, w', tr) :=
    run Reference.env (ingest_text "" None Sample.writer None) Sample.library in
  existsb no_chunks tr = true
  /\ out = inl (mkExn ValueError "No content chunks extracted")
  /\ forallb reads (calls tr) = true.
Proof.
  pose proof (ingest_no_chunks_value_error Reference.env Sample.library
                (ingest_text "" None Sample.writer None)
                (or_introl (ex_intro _ "" (ex_intro _ None
                   (ex_intro _ Sample.writer (ex_intro _ None eq_refl)))))) as H.
  vm_compute in H |- *.
  destruct (H eq_refl) as [_ Hreads].
  split; [reflexivity|]. split; [reflexivity|exact Hreads].
Defined.

(** X14: the document [ingest_text] returns.  It is a text document
    without a file, owned by and open to the caller's entity alone, under
    the id drawn for it; its system metadata hold the very text that was
    split into chunks.  Without rules that text is the content given and
    the metadata are the caller's (none is the empty dict); with rules the
    metadata are the caller's updated with the rule metadata, so that a
    rule key wins, and the text is the rewritten one when the rules
    processor answers a non-empty text. *)
Theorem ingest_text_document {W} (h : Handler W) (w : W) (content0 : string)
    (metadata0 : option PyDict) (auth : AuthObject) (rules : option (list string))
    doc w' tr :
  run h (ingest_text content0 metadata0 auth rules) w = (inr doc, w', tr) ->
  content_type doc = "text/plain" /\ filename doc = None
  /\ storage_info doc = ∅
  /\ In (Answered Uuid4 (inr (external_id doc))) tr
  /\ (exists etype eid,
        entity_type auth = Some etype /\ entity_id auth = Some eid
        /\ owner doc = (etype, eid)
        /\ access_control doc = ([eid], [eid], [eid]))
  /\ exists text chunks,
       system_metadata doc = {["content" := PStr text]}
       /\ In (Answered (SplitText text) (inr chunks)) tr
       /\ if list_truthy rules then
            exists m rule_metadata modified_text,
              metadata0 = Some m
              /\ In (Answered (ProcessRules content0 (default [] rules))
                              (inr (rule_metadata, modified_text))) tr
              /\ metadata doc = dict_update m rule_metadata
              /\ (forall key v, rule_metadata !! key = Some v ->
                                metadata doc !! key = Some v)
              /\ text = (if str_truthy modified_text then default "" modified_text
                         else content0)
          else text = content0 /\ metadata doc = default ∅ metadata0.
Proof.
  unfold ingest_text, new_document, _store_chunks_and_doc. prog_unfold.
  destruct auth as [uid etype eid perms].
  cbn [permissions entity_type entity_id].
  destruct (list_truthy rules).
  - run_cases h.
    all: try discriminate.
    all: intros [= <- _ <-]; cbn.
    all: refine (conj eq_refl (conj eq_refl (conj eq_refl (conj _ (conj _ _)))));
      [auto 10
      |do 2 eexists; refine (conj eq_refl (conj eq_refl (conj eq_refl eq_refl)))
      |do 2 eexists; split; [reflexivity|]; split; [auto 10|]].
    all: do 3 eexists; split; [reflexivity|]; split; [auto 10|].
    all: split; [reflexivity|].
    all: split; [intros key v Hkey; apply lookup_union_Some_l; exact Hkey|].
    all: match goal with H : str_truthy _ = _ |- _ => rewrite H end; reflexivity.
  - run_cases h.
    all: try discriminate.
    all: intros [= <- _ <-]; cbn.
    all: refine (conj eq_refl (conj eq_refl (conj eq_refl (conj _ (conj _ _)))));
      [auto 10
      |do 2 eexists; refine (conj eq_refl (conj eq_refl (conj eq_refl eq_refl)))
      |do 2 eexists; split; [reflexivity|]; split; [auto 10|]].
    all: split; reflexivity.
Qed.

Lemma ingest_text_document_witness :
  exists doc w' tr,
    run Reference.env
        (ingest_text Sample.two_lines (Some {["topic" := PStr "greeting"]})
           Sample.writer (Some ["topic"]))
        Sample.library = (inr doc, w', tr)
    /\ content_type doc = "text/plain"
    /\ metadata doc !! "topic" = Some (PStr Sample.two_lines).
Proof.
  eexists _, _, _. split; [vm_compute; reflexivity|].
  split; [|vm_compute; reflexivity].
  refine (proj1 (ingest_text_document Reference.env Sample.library Sample.two_lines
                   (Some {["topic" := PStr "greeting"]}) Sample.writer
                   (Some ["topic"]) _ _ _ _)).
  vm_compute. reflexivity.
Defined.

(** X15: the document [ingest_file] returns.  It carries the content type
    and name of the upload and the metadata the parser extracted, is owned
    by and open to the caller's entity alone, and its storage info is the
    location the storage answered when the file bytes were uploaded under
    the document's id.  The text kept in the system metadata is the chunks
    of the parser joined by newlines, or the text the rules rewrote; with
    rules the metadata are the caller's updated with the rule metadata. *)
Theorem ingest_file_document {W} (h : Handler W) (w : W) (file : UploadFile)
    (metadata0 : PyDict) (auth : AuthObject) (rules : option (list string))
    doc w' tr :
  run h (ingest_file file metadata0 auth rules) w = (inr doc, w', tr) ->
  content_type doc = default "" (file_content_type file)
  /\ filename doc = file_name file
  /\ In (Answered Uuid4 (inr (external_id doc))) tr
  /\ (exists etype eid,
        entity_type auth = Some etype /\ entity_id auth = Some eid
        /\ owner doc = (etype, eid)
        /\ access_control doc = ([eid], [eid], [eid]))
  /\ (exists bucket key,
        In (Answered (UploadFromBase64 (b64encode (file_bytes file))
                        (external_id doc) (file_content_type file) None)
                     (inr (bucket, key))) tr
        /\ storage_info doc = <["bucket" := bucket]> (<["key" := key]> ∅))
  /\ exists additional chunks text,
       In (Answered (ParseFile (file_bytes file)
                       (default "" (file_content_type file)) (file_name file))
                    (inr (additional, chunks))) tr
       /\ additional_metadata doc = additional
       /\ system_metadata doc = {["content" := PStr text]}
       /\ let joined := String.concat newline (map chunk_content chunks) in
          if list_truthy rules then
            exists rule_metadata modified_text,
              In (Answered (ProcessRules joined (default [] rules))
                           (inr (rule_metadata, modified_text))) tr
              /\ metadata doc = dict_update metadata0 rule_metadata
              /\ text = (if str_truthy modified_text then default "" modified_text
                         else joined)
          else text = joined /\ metadata doc = metadata0.
Proof.
  unfold ingest_file, new_document, _store_chunks_and_doc. prog_unfold.
  destruct auth as [uid etype eid perms].
  cbn [permissions entity_type entity_id].
  destruct (list_truthy rules).
  - run_cases h.
    all: try discriminate.
    all: intros [= <- _ <-]; cbn.
    all: refine (conj eq_refl (conj eq_refl (conj _ (conj _ (conj _ _)))));
      [auto 10
      |do 2 eexists; refine (conj eq_refl (conj eq_refl (conj eq_refl eq_refl)))
      |do 2 eexists; split; [auto 10|reflexivity]
      |do 3 eexists; split; [left; reflexivity|]; split; [reflexivity|];
       split; [reflexivity|]].
    all: do 2 eexists; split; [auto 10|]; split; [reflexivity|].
    all: match goal with H : str_truthy _ = _ |- _ => rewrite H end; reflexivity.
  - run_cases h.
    all: try discriminate.
    all: intros [= <- _ <-]; cbn.
    all: refine (conj eq_refl (conj eq_refl (conj _ (conj _ (conj _ _)))));
      [auto 10
      |do 2 eexists; refine (conj eq_refl (conj eq_refl (conj eq_refl eq_refl)))
      |do 2 eexists; split; [auto 10|reflexivity]
      |do 3 eexists; split; [left; reflexivity|]; split; [reflexivity|];
       split; [reflexivity|]].
    all: split; reflexivity.
Qed.

Lemma ingest_file_document_witness :
  exists doc w' tr,
    run Reference.env (ingest_file Sample.notes ∅ Sample.writer None)
        Sample.library = (inr doc, w', tr)
    /\ content_type doc = "text/plain" /\ filename doc = Some "notes.txt".
Proof.
  eexists _, _, _. split; [vm_compute; reflexivity|].
  pose proof (ingest_file_document Reference.env Sample.library Sample.notes ∅
                Sample.writer None _ _ _ eq_refl) as (Hct & Hname & _).
  split; [exact Hct|exact Hname].
Defined.

(** ** Reranked results come best first *)

Lemma descending_sublist (l1 l2 : list PyFloat) :
  sublist l1 l2 -> descending l2 -> descending l1.
Proof.
  induction 1 as [|x l1 l2 Hsub IH|x l1 l2 Hsub IH]; simpl.
  - auto.
  - intros [Hall Hd]. split; [|apply IH; exact Hd].
    rewrite Forall_forall in *. intros y Hy. apply Hall.
    eapply elem_of_sublist; [exact Hy|exact Hsub].
  - intros [_ Hd]. apply IH. exact Hd.
Qed.

Lemma insert_by_score_descending (x : DocumentChunk) (l : list DocumentChunk) :
  score x <> NaN -> (forall y, In y l -> score y <> NaN) ->
  descending (map score l) -> descending (map score (insert_by_score x l)).
Proof.
  intros Hx. induction l as [|y l IH]; simpl;
    [intros _ _; split; [constructor|exact I]|].
  intros Hnan [Hall Hd].
  destruct (float_le (score y) (score x)) eqn:Hle; simpl.
  - split; [|split; assumption].
    constructor; [exact Hle|].
    rewrite Forall_forall in *. intros s Hs.
    apply float_le_trans with (score y); [apply Hall; exact Hs|exact Hle].
  - split; [|apply IH; [intros z Hz; apply Hnan; right; exact Hz|exact Hd]].
    rewrite Forall_forall in *. intros s Hs.
    apply list_elem_of_In in Hs. apply in_map_iff in Hs.
    destruct Hs as (c & <- & Hc). apply insert_by_score_In in Hc.
    destruct Hc as [->|Hc].
    + apply float_le_total; [apply Hnan; left; reflexivity|exact Hx|exact Hle].
    + apply Hall. apply list_elem_of_In. apply in_map. exact Hc.
Qed.

Lemma sort_by_score_desc_descending (l : list DocumentChunk) :
  (forall y, In y l -> score y <> NaN) ->
  descending (map score (sort_by_score_desc l)).
Proof.
  unfold sort_by_score_desc. induction l as [|x l IH]; simpl; [intros _; exact I|].
  intros Hnan. apply insert_by_score_descending.
  - apply Hnan. left. reflexivity.
  - intros y Hy. apply Hnan. right.
    apply (proj1 (sort_by_score_desc_In y l)). exact Hy.
  - apply IH. intros y Hy. apply Hnan. right. exact Hy.
Qed.

Lemma slice_to_sublist {A} (l : list A) (k : Z) : sublist (slice_to l k) l.
Proof. unfold slice_to. destruct (Z.leb 0 k); apply sublist_take. Qed.

(** X5: with a reranker configured and reranking asked for, and a
    reranker that gives no chunk the score NaN, the results come in
    descending order of the reranker's scores: the reranked chunks are
    sorted by score, and cutting them to [k] and leaving out the chunks
    whose document is not answered keep the order. *)
Theorem retrieve_chunks_reranked_descending {W} (h : Handler W) (w : W)
    (self : DocumentService) (query : string) (auth : AuthObject)
    (filters : option PyDict) (k : Z) (min_score : Q) out w' tr :
  (forall q cs w0 cs' w1,
      h (Rerank q cs) w0 = (inr cs', w1) ->
      forall c, In c cs' -> score c <> NaN) ->
  reranker self = true ->
  run h (retrieve_chunks self query auth filters k min_score (Some true)) w
    = (inr out, w', tr) ->
  descending (map cr_score out).
Proof.
  intros Hnan Hre. unfold retrieve_chunks. bind_unfold. rewrite Hre. intros Hrun.
  apply run_bind_inr in Hrun. destruct Hrun as (emb & w1 & t1 & t2 & _ & Hrun & ->).
  apply run_bind_inr in Hrun. destruct Hrun as (ids & w2 & t3 & t4 & _ & Hrun & ->).
  destruct (negb (nonempty ids)).
  { simpl in Hrun. injection Hrun as <- _ _. exact I. }
  apply run_bind_inr in Hrun. destruct Hrun as (cs & w3 & t5 & t6 & _ & Hrun & ->).
  apply run_bind_inr in Hrun.
  destruct Hrun as (chunks & w4 & t7 & t8 & Hchunks & Hrun & ->).
  destruct (create_chunk_results_kept _ _ _ _ _ _ _ Hrun) as (kept & Hsub & Hall).
  assert (Hscores : map cr_score out = map score kept).
  { clear -Hall. induction Hall as [|c r l l' (_ & Hs & _) _ IH]; simpl;
      [reflexivity|]. rewrite Hs, IH. reflexivity. }
  rewrite Hscores.
  apply descending_sublist with (map score chunks);
    [apply (fmap_sublist score); exact Hsub|].
  destruct cs as [|c cs]; cbn [nonempty andb] in Hchunks.
  { simpl in Hchunks. injection Hchunks as <- _ _. exact I. }
  apply run_bind_inr in Hchunks.
  destruct Hchunks as (reranked & w5 & t9 & t10 & Hrerank & Hret & _).
  simpl in Hret. injection Hret as <- _ _.
  apply descending_sublist with (map score (sort_by_score_desc reranked)).
  - apply (fmap_sublist score). apply slice_to_sublist.
  - apply sort_by_score_desc_descending.
    unfold await in Hrerank. cbn [run] in Hrerank.
    destruct (h (Rerank query (c :: cs)) w3) as [[e|reranked'] w6] eqn:Hh;
      [discriminate|].
    injection Hrerank as <- _ _. exact (Hnan _ _ _ _ _ Hh).
Qed.

Lemma reference_rerank_no_nan q cs (w : World) cs' w1 :
  Reference.env (Rerank q cs) w = (inr cs', w1) ->
  forall c, In c cs' -> score c <> NaN.
Proof.
  simpl. unfold Reference.rerank, returns. intros [= <- _] c Hc.
  apply in_map_iff in Hc. destruct Hc as (c0 & <- & _). discriminate.
Qed.

Lemma retrieve_chunks_reranked_descending_witness :
  exists out w' tr,
    run Reference.env
        (retrieve_chunks (mkService true false) "hello" Sample.alice None 2 0%Q
                         (Some true))
        Sample.library = (inr out, w', tr)
    /\ length out = 2%nat
    /\ descending (map cr_score out).
Proof.
  eexists _, _, _. split; [vm_compute; reflexivity|]. split; [reflexivity|].
  refine (retrieve_chunks_reranked_descending Reference.env Sample.library
            (mkService true false) "hello" Sample.alice None 2 0%Q _ _ _ _ _ _).
  - apply reference_rerank_no_nan.
  - reflexivity.
  - vm_compute. reflexivity.
Defined.

(** ** Deletion *)

(** X16: a document for which the vector store counts no chunks is never
    deleted: [delete_document_and_chunks] answers [False] after the count,
    and neither delete is called. *)
Theorem delete_document_without_chunks {W} (h : Handler W) (w w1 w2 : W)
    (id : string) (auth : AuthObject) (d : Document) :
  h (GetDocument id auth) w = (inr (Some d), w1) ->
  h (CountNumberOfChunks id) w1 = (inr 0%Z, w2) ->
  run h (delete_document_and_chunks id auth) w
  = (inr false, w2,
     [Answered (GetDocument id auth) (inr (Some d));
      Answered (CountNumberOfChunks id) (inr 0%Z)]).
Proof.
  intros Hget Hcount. unfold delete_document_and_chunks. prog_unfold.
  cbn [bind run]. rewrite Hget. cbn [bind run]. rewrite Hcount. reflexivity.
Qed.

Lemma delete_document_without_chunks_witness :
  run Reference.env (delete_document_and_chunks "doc-0" Sample.alice)
      (with_index [] Sample.library)
  = (inr false, with_index [] Sample.library,
     [Answered (GetDocument "doc-0" Sample.alice) (inr (Some Sample.d1));
      Answered (CountNumberOfChunks "doc-0") (inr 0%Z)]).
Proof.
  apply (delete_document_without_chunks Reference.env (with_index [] Sample.library)
           (with_index [] Sample.library) (with_index [] Sample.library)
           "doc-0" Sample.alice Sample.d1); reflexivity.
Defined.

(** X17: through the Mongo adapter's [delete_document], which raises
    before it reads anything, [delete_document_and_chunks] never answers
    [True] and never gets as far as deleting chunks, whatever the other
    adapters answer: it answers [False] for a document that is not found or
    has no chunks, and raises for every other. *)
Theorem delete_through_mongo_never_succeeds (db : BaseDatabase World)
    (vs : BaseVectorStore World) (st : BaseStorage World) (pr : Providers World)
    (w : World) (id : string) (auth : AuthObject) :
  delete_document db = MongoDatabase.delete_document ->
  let '(out, w', tr) := run (wire db vs st pr) (delete_document_and_chunks id auth) w in
  out <> inr true
  /\ ~ In (DeleteChunks id) (calls tr)
  /\ (In (DeleteDocument id auth) (calls tr) -> exists msg, out = inl (mkExn TypeError msg)).
Proof.
  intros Hdb. unfold delete_document_and_chunks. prog_unfold. cbn [bind run wire].
  destruct (get_document db id auth w) as [[e|[d|]] w1]; cbn [bind run wire].
  - split; [discriminate|]. split; intros [[=]|[]].
  - destruct (count_number_of_chunks vs id w1) as [[e|count] w2]; cbn [bind run wire].
    + split; [discriminate|]. split; intros [[=]|[[=]|[]]].
    + destruct (Z.eqb count 0); cbn [bind run wire].
      * split; [discriminate|]. split; intros [[=]|[[=]|[]]].
      * rewrite Hdb. cbn.
        split; [discriminate|]. split; [intros [[=]|[[=]|[[=]|[]]]]|].
        intros _. eexists. reflexivity.
  - split; [discriminate|]. split; intros [[=]|[]].
Qed.

Lemma delete_through_mongo_never_succeeds_witness :
  let '(out, w', tr) :=
    run Sample.env_mongo (delete_document_and_chunks "doc-0" Sample.alice)
        Sample.library in
  out <> inr true /\ ~ In (DeleteChunks "doc-0") (calls tr).
Proof.
  pose proof (delete_through_mongo_never_succeeds Reference.mongo_database
                Reference.vector_store Reference.storage Reference.providers
                Sample.library "doc-0" Sample.alice eq_refl) as H.
  unfold Sample.env_mongo.
  destruct (run _ _ _) as [[out w'] tr]. destruct H as (H1 & H2 & _).
  split; assumption.
Defined.

(** ** The Mongo adapter *)

Lemma find_matches_Some (id uid : string) (ds : list StoredDocument) sd :
  List.find (MongoDatabase.matches id uid) ds = Some sd ->
  In sd ds /\ external_id (stored sd) = id /\ owner_id sd = Some uid.
Proof.
  intros H. apply find_some in H. destruct H as [Hin Hm]. split; [exact Hin|].
  unfold MongoDatabase.matches in Hm. apply andb_prop in Hm. destruct Hm as [H1 H2].
  apply bool_decide_eq_true_1 in H1. apply bool_decide_eq_true_1 in H2. auto.
Qed.

Lemma find_matches_None (id uid : string) (ds : list StoredDocument) :
  List.find (MongoDatabase.matches id uid) ds = None ->
  forall sd, In sd ds -> external_id (stored sd) = id -> owner_id sd <> Some uid.
Proof.
  intros H sd Hin Hid Ho. apply (find_none _ _ H) in Hin.
  unfold MongoDatabase.matches in Hin.
  rewrite !bool_decide_eq_true_2 in Hin by assumption. discriminate Hin.
Qed.

(** X18: [get_document] of the Mongo adapter answers only with a document
    that has the id asked for and is stored with the caller's [user_id] as
    its owner; it answers [None] exactly when no stored document has both,
    and it changes nothing. *)
Theorem mongo_get_document_owned (id uid : string) (auth : AuthObject) (w : World) :
  user_id auth = Some uid ->
  exists found,
    MongoDatabase.get_document id auth w = (inr found, w)
    /\ (forall d, found = Some d ->
          external_id d = id
          /\ exists sd, In sd (documents w) /\ stored sd = d
                        /\ owner_id sd = Some uid)
    /\ (found = None <->
        forall sd, In sd (documents w) -> external_id (stored sd) = id ->
                   owner_id sd <> Some uid).
Proof.
  intros Huid. unfold MongoDatabase.get_document. rewrite Huid.
  eexists. split; [reflexivity|].
  destruct (List.find (MongoDatabase.matches id uid) (documents w)) as [sd|] eqn:Hfind;
    simpl.
  - apply find_matches_Some in Hfind. destruct Hfind as (Hin & Hid & Ho). split.
    + intros d [= <-]. split; [exact Hid|]. exists sd. auto.
    + split; [discriminate|]. intros H. exfalso. exact (H sd Hin Hid Ho).
  - split; [discriminate|]. split; [|reflexivity].
    intros _. apply find_matches_None. exact Hfind.
Qed.

Lemma mongo_get_document_owned_witness :
  exists found,
    MongoDatabase.get_document "doc-0" Sample.bob Sample.library
    = (inr found, Sample.library)
    /\ found = None.
Proof.
  destruct (mongo_get_document_owned "doc-0" "bob" Sample.bob Sample.library eq_refl)
    as (found & Hrun & _ & Hnone).
  exists found. split; [exact Hrun|].
  apply Hnone. intros sd [<-|[]] _. discriminate.
Defined.

(** X19: every id that [find_authorized_and_filtered_documents] lists for
    a caller is the id of a document that [get_document] answers for the same
    caller: what retrieval is allowed to search, it is allowed to fetch. *)
Theorem mongo_listed_documents_are_fetched (auth : AuthObject)
    (filters : option PyDict) (w w' : World) (ids : list string) :
  MongoDatabase.find_authorized_and_filtered_documents auth filters w = (inr ids, w') ->
  w' = w
  /\ forall id, In id ids ->
       exists d, MongoDatabase.get_document id auth w = (inr (Some d), w)
                 /\ external_id d = id.
Proof.
  unfold MongoDatabase.find_authorized_and_filtered_documents,
    MongoDatabase.get_document.
  destruct (user_id auth) as [uid|]; [|discriminate].
  intros [= <- <-]. split; [reflexivity|]. intros id Hin.
  apply in_map_iff in Hin. destruct Hin as (sd & Hid & Hin).
  apply filter_In in Hin. destruct Hin as [Hin Hkeep].
  apply andb_prop in Hkeep. destruct Hkeep as [Ho _].
  apply bool_decide_eq_true_1 in Ho.
  destruct (List.find (MongoDatabase.matches id uid) (documents w)) as [sd'|] eqn:Hfind.
  - apply find_matches_Some in Hfind. destruct Hfind as (_ & Hid' & _).
    exists (stored sd'). split; [reflexivity|exact Hid'].
  - exfalso. exact (find_matches_None _ _ _ Hfind sd Hin Hid Ho).
Qed.

Lemma mongo_listed_documents_are_fetched_witness :
  exists ids,
    MongoDatabase.find_authorized_and_filtered_documents Sample.alice None
      Sample.library = (inr ids, Sample.library)
    /\ forall id, In id ids ->
         exists d, MongoDatabase.get_document id Sample.alice Sample.library
                   = (inr (Some d), Sample.library)
                   /\ external_id d = id.
Proof.
  eexists. split; [vm_compute; reflexivity|].
  refine (proj2 (mongo_listed_documents_are_fetched Sample.alice None Sample.library
                   Sample.library _ _)).
  vm_compute. reflexivity.
Defined.

(** X20: with external ids unique in the collection, as the index that
    [initialize] creates makes them, [check_access] answers [True] exactly
    when [get_document] finds the document for the same caller. *)
Theorem mongo_check_access_agrees (id uid : string) (auth : AuthObject) (w : World) :
  NoDup (map (fun sd => external_id (stored sd)) (documents w)) ->
  user_id auth = Some uid ->
  exists allowed found,
    MongoDatabase.check_access id auth w = (inr allowed, w)
    /\ MongoDatabase.get_document id auth w = (inr found, w)
    /\ (allowed = true <-> is_Some found).
Proof.
  intros Hnd Huid. unfold MongoDatabase.check_access, MongoDatabase.get_document.
  rewrite Huid. induction (documents w) as [|sd ds IH]; simpl.
  - exists false, None. repeat split; [discriminate|intros [? [=]]].
  - apply NoDup_cons in Hnd. destruct Hnd as [Hfresh Hnd].
    unfold MongoDatabase.matches at 1.
    destruct (bool_decide_reflect (external_id (stored sd) = id)) as [Hid|Hid]; simpl.
    + destruct (bool_decide_reflect (owner_id sd = Some uid)) as [Ho|Ho]; simpl.
      * exists true, (Some (stored sd)). repeat split; eauto.
      * rewrite find_not_visible.
        -- exists false, None. repeat split; [discriminate|intros [? [=]]].
        -- intros sd' Hin Hid'. exfalso. apply Hfresh. apply list_elem_of_In.
           rewrite Hid, <- Hid'.
           apply (in_map (fun sd => external_id (stored sd))). exact Hin.
    + apply IH. exact Hnd.
Qed.

Lemma mongo_check_access_agrees_witness :
  exists allowed found,
    MongoDatabase.check_access "doc-0" Sample.alice Sample.library
    = (inr allowed, Sample.library)
    /\ MongoDatabase.get_document "doc-0" Sample.alice Sample.library
       = (inr found, Sample.library)
    /\ (allowed = true <-> is_Some found).
Proof.
  apply (mongo_check_access_agrees "doc-0" "alice" Sample.alice Sample.library).
  - simpl. apply NoDup_cons. split; [intros H; inversion H|constructor].
  - reflexivity.
Defined.

(** ** Caches *)

(** X22: what [load_cache] can come to.  It never raises.  It answers a
    bare [False] when the database has no descriptor under the name; the
    success dict after the descriptor was read, the state downloaded from
    the descriptor's bucket under "caches/" and the descriptor's key, and
    the cache rebuilt, which is then registered under the name; and a
    failure dict, which is true as a truth value, when any of the three
    calls raises.  Only the success dict comes with a change of the active
    caches. *)
Theorem load_cache_outcomes {W} (h : Handler W) (w : W)
    (active_caches : gmap string Cache) (name : string) :
  let '(out, w', tr) := run h (load_cache active_caches name) w in
  exists r caches',
    out = inr (r, caches')
    /\ ((r = LBool false /\ caches' = active_caches
         /\ tr = [Answered (GetCacheMetadata name) (inr None)])
        \/ (r = LDict {| success := true; message := "Cache loaded successfully" |}
            /\ exists md bytes cache,
                 tr = [Answered (GetCacheMetadata name) (inr (Some md));
                       Answered (DownloadFile (cm_bucket md) ("caches/" ++ cm_key md))
                                (inr bytes);
                       Answered (LoadCacheFromBytes name bytes md) (inr cache)]
                 /\ caches' = <[name := cache]> active_caches)
        \/ (exists msg, r = LDict {| success := false; message := msg |}
            /\ load_truthy r = true /\ caches' = active_caches
            /\ exists e, In e tr /\ forall c a, e <> Answered c (inr a))).
Proof.
  unfold load_cache. prog_unfold. cbn [try_except bind run].
  destruct (h (GetCacheMetadata name) w) as [[e|[md|]] w1];
    cbn [try_except bind run].
  - eexists _, _. split; [reflexivity|]. right. right. eexists.
    split; [reflexivity|]. split; [reflexivity|]. split; [reflexivity|].
    eexists. split; [left; reflexivity|]. intros c a H. inversion H.
  - destruct (h (DownloadFile (cm_bucket md) ("caches/" ++ cm_key md)) w1)
      as [[e|bytes] w2]; cbn [try_except bind run].
    + eexists _, _. split; [reflexivity|]. right. right. eexists.
      split; [reflexivity|]. split; [reflexivity|]. split; [reflexivity|].
      eexists. split; [right; left; reflexivity|]. intros c a H. inversion H.
    + destruct (h (LoadCacheFromBytes name bytes md) w2) as [[e|cache] w3];
        cbn [try_except bind run].
      * eexists _, _. split; [reflexivity|]. right. right. eexists.
        split; [reflexivity|]. split; [reflexivity|]. split; [reflexivity|].
        eexists. split; [right; right; left; reflexivity|].
        intros c a H. inversion H.
      * eexists _, _. split; [reflexivity|]. right. left.
        split; [reflexivity|]. exists md, bytes, cache. split; reflexivity.
  - eexists _, _. split; [reflexivity|]. left. repeat split.
Qed.

(** X23: a [None] among the documents, which is what [get_document]
    answers for a document the caller cannot read, makes [create_cache]
    raise [AttributeError] before anything is stored. *)
Theorem create_cache_with_missing_document {W} (h : Handler W) (w : W)
    (name model gguf_file : string) (docs : list (option Document))
    (filters : option PyDict) :
  In None docs ->
  exists msg,
    run h (create_cache name model gguf_file docs filters) w
    = (inl (mkExn AttributeError msg), w, []).
Proof.
  intros Hin. unfold create_cache. bind_unfold.
  assert (Hdump : model_dump_json_all docs
                  = Raise (mkExn AttributeError
                             "'NoneType' object has no attribute 'model_dump_json'")).
  { induction docs as [|[d|] docs IH]; [destruct Hin| |reflexivity].
    destruct Hin as [Hin|Hin]; [discriminate|].
    cbn [model_dump_json_all]. bind_unfold. rewrite (IH Hin). reflexivity. }
  rewrite Hdump. eexists. reflexivity.
Qed.

Lemma create_cache_with_missing_document_witness :
  exists msg,
    run Reference.env (create_cache "c1" "llama" "model.gguf" [Some Sample.d1; None] None)
        Sample.library
    = (inl (mkExn AttributeError msg), Sample.library, []).
Proof.
  apply (create_cache_with_missing_document Reference.env Sample.library "c1" "llama"
           "model.gguf" [Some Sample.d1; None] None).
  right. left. reflexivity.
Defined.

Lemma model_dump_json_all_returns (docs : list (option Document)) (dumped : list Document) :
  model_dump_json_all docs = Ret dumped -> docs = map Some dumped.
Proof.
  revert dumped. induction docs as [|[d|] docs IH]; intros dumped; cbn [model_dump_json_all].
  - intros [= <-]. reflexivity.
  - bind_unfold. destruct (model_dump_json_all docs) as [ds|e|c k]; simpl;
      try discriminate.
    intros [= <-]. simpl. rewrite (IH ds eq_refl). reflexivity.
  - discriminate.
Qed.

Lemma model_dump_json_all_pure (docs : list (option Document)) :
  (exists dumped, model_dump_json_all docs = Ret dumped)
  \/ (exists e, model_dump_json_all docs = Raise e).
Proof.
  induction docs as [|[d|] docs IH]; cbn [model_dump_json_all].
  - left. eexists. reflexivity.
  - bind_unfold. destruct IH as [(ds & ->)|(e & ->)]; [left|right]; eexists; reflexivity.
  - right. eexists. reflexivity.
Qed.

(** X24: [create_cache] answers the success dict only after the
    descriptor was stored, the cache built from the documents given, and
    its state uploaded to the bucket and key that the descriptor records:
    bucket "caches", key the cache name followed by "_state.pkl".  When the
    database does not store the descriptor it answers the failure dict and
    builds and uploads nothing. *)
Theorem create_cache_outcomes {W} (h : Handler W) (w : W)
    (name model gguf_file : string) (docs : list (option Document))
    (filters : option PyDict) r w' tr :
  run h (create_cache name model gguf_file docs filters) w = (inr r, w', tr) ->
  exists md,
    docs = map Some (cm_docs md)
    /\ cm_model md = model /\ cm_model_file md = gguf_file
    /\ cm_filters md = filters
    /\ cm_bucket md = "caches" /\ cm_key md = (name ++ "_state.pkl")%string
    /\ if success r then
         exists cache bucket key,
           tr = [Answered (StoreCacheMetadata name md) (inr true);
                 Answered (CreateNewCache name model gguf_file filters docs)
                          (inr cache);
                 Answered (UploadFromBase64 (b64encode (saveable_state cache))
                             (cm_key md) None (Some (cm_bucket md)))
                          (inr (bucket, key))]
       else tr = [Answered (StoreCacheMetadata name md) (inr false)].
Proof.
  unfold create_cache. bind_unfold.
  destruct (model_dump_json_all_pure docs) as [(dumped & Hd)|(e & Hd)];
    rewrite Hd; [|discriminate].
  apply model_dump_json_all_returns in Hd. unfold await. cbn [bind run].
  match goal with
  | |- context [h (StoreCacheMetadata name ?m) w] =>
      destruct (h (StoreCacheMetadata name m) w) as [[e|[|]] w1]
  end; cbn [negb bind run]; [discriminate| |].
  - match goal with
    | |- context [h (CreateNewCache ?a ?b ?c ?d ?e) w1] =>
        destruct (h (CreateNewCache a b c d e) w1) as [[e'|cache] w2]
    end; cbn [bind run]; [discriminate|].
    match goal with
    | |- context [h (UploadFromBase64 ?a ?b ?c ?d) w2] =>
        destruct (h (UploadFromBase64 a b c d) w2) as [[e'|[bucket key]] w3]
    end; cbn [bind run]; [discriminate|].
    intros [= <- _ <-].
    exists {| cm_model := model; cm_model_file := gguf_file; cm_filters := filters;
              cm_docs := dumped; cm_bucket := "caches";
              cm_key := name ++ "_state.pkl" |}.
    split; [exact Hd|].
    do 5 (split; [reflexivity|]). cbn [success]. do 3 eexists. reflexivity.
  - intros [= <- _ <-].
    exists {| cm_model := model; cm_model_file := gguf_file; cm_filters := filters;
              cm_docs := dumped; cm_bucket := "caches";
              cm_key := name ++ "_state.pkl" |}.
    split; [exact Hd|].
    do 5 (split; [reflexivity|]). reflexivity.
Qed.

Lemma create_cache_outcomes_witness :
  exists r w' tr,
    run Reference.env (create_cache "c1" "llama" "model.gguf" [Some Sample.d1] None)
        Sample.library = (inr r, w', tr)
    /\ success r = true
    /\ exists md, cm_bucket md = "caches" /\ cm_key md = "c1_state.pkl".
Proof.
  eexists _, _, _. split; [vm_compute; reflexivity|]. split; [reflexivity|].
  destruct (create_cache_outcomes Reference.env Sample.library "c1" "llama"
              "model.gguf" [Some Sample.d1] None _ _ _ eq_refl)
    as (md & _ & _ & _ & _ & Hb & Hk & _).
  exists md. split; [exact Hb|exact Hk].
Defined.

(** ** The API *)

(** X25: [verify_token] never returns an [AuthContext].  Both places that
    build one pass [entity_type], [entity_id] and [permissions] but not
    [user_id], the one field the model declares and requires: in dev mode
    and for every header and token, the call ends in an error. *)
Theorem verify_token_never_returns (settings : Api.Settings)
    (decode : string -> string + Api.Payload) (now : Z)
    (authorization : option string) :
  exists e, Api.verify_token settings decode now authorization = inl e.
Proof.
  unfold Api.verify_token, Api.AuthContext_init.
  destruct (Api.dev_mode settings).
  - destruct (Api.EntityType _); eexists; reflexivity.
  - destruct authorization as [[|a s]|]; try (eexists; reflexivity).
    destruct (negb _); [eexists; reflexivity|].
    destruct (decode _) as [msg|payload]; [eexists; reflexivity|].
    destruct (Api.payload_item "exp" _) as [e|exp]; [eexists; reflexivity|].
    destruct (Z.ltb exp now); [eexists; reflexivity|].
    destruct (Api.payload_item "type" _) as [e|type]; [eexists; reflexivity|].
    destruct (Api.EntityType type); [eexists; reflexivity|].
    destruct (Api.payload_item "entity_id" _); eexists; reflexivity.
Qed.

(** X26: the [DELETE] route makes the calls of
    [delete_document_and_chunks] and nothing more; it passes an exception
    on, answers [True] for [True], and answers 404 "Document not found" for
    every [False] of the service, also for the [False] of a delete that
    removed the record and then failed on the chunks. *)
Theorem api_delete_document_answers {W} (h : Handler W) (w : W)
    (id : string) (auth : AuthObject) out w' tr :
  run h (delete_document_and_chunks id auth) w = (out, w', tr) ->
  run h (Api.delete_document id auth) w
  = (match out with
     | inl e => inl e
     | inr true => inr (inr true)
     | inr false =>
         inr (inl {| Api.status_code := 404; Api.detail := "Document not found" |})
     end, w', tr).
Proof.
  intros Hrun. unfold Api.delete_document. bind_unfold. rewrite run_bind, Hrun.
  destruct out as [e|[|]]; simpl; rewrite ?app_nil_r; reflexivity.
Qed.

Lemma api_delete_document_answers_witness :
  exists w' tr,
    run Sample.env_failing_delete (Api.delete_document "doc-0" Sample.alice)
        Sample.library
    = (inr (inl {| Api.status_code := 404; Api.detail := "Document not found" |}),
       w', tr)
    /\ documents w' = [] /\ indexed_chunks "doc-0" w' = 2%nat.
Proof.
  eexists _, _. split.
  - refine (api_delete_document_answers Sample.env_failing_delete Sample.library
              "doc-0" Sample.alice (inr false) _ _ _).
    vm_compute. reflexivity.
  - vm_compute. split; reflexivity.
Defined.
